(** * Lottery prediction engine: shallow embedding and verified properties

    The embedding follows the Python package [ml-service/app/algorithms]:
    [utils.py], [base.py], [frequency.py], [trend.py], [random_forest.py],
    [lstm.py] and [ensemble.py], one module per source file.

    Modelling conventions.
    - Python [int] is [Z]; list lengths and indices are [nat].
    - Python [float] is idealised as an exact rational ([Q]); numeric claims
      are stated up to [Qeq] ([==]), that is up to floating-point rounding.
      NaN and infinities do not exist among the rationals: where the code
      can meet them the text says so, and the two places where they decide
      a property (the cap of [validate_prediction], the normalization of
      the ensemble's weights) are also given on binary64 values.
    - A [dict] that is iterated, sorted or summed is an association list in
      insertion order.
    - The [random] module is a state monad over an entropy source.
    - Irrational numpy functions and the scikit-learn pipeline are fields of
      the class [Externals]; every theorem holds for all instances. *)

From Stdlib Require Import String.
From Stdlib Require Import List ZArith QArith Qminmax Qround Lqa Lia Bool Arith.
From Stdlib Require Import Permutation Sorted FinFun.
From Stdlib Require Floats.
Import ListNotations.

Local Open Scope Z_scope.

(** ** Python built-ins used by the package *)

Module Py.

(** [range(a, b)] *)
Definition range (a b : Z) : list Z :=
  map (fun i => a + Z.of_nat i) (seq 0 (Z.to_nat (b - a))).

(** [l[:n]] for an arbitrary (possibly negative) integer [n]. *)
Definition take {A} (n : Z) (l : list A) : list A :=
  if 0 <=? n then firstn (Z.to_nat n) l
  else firstn (length l - Z.to_nat (- n)) l.

(** [l[-k:]] for [k > 0]; for [k = 0] Python's [l[-0:]] is the whole list. *)
Definition last_n {A} (k : nat) (l : list A) : list A :=
  match k with
  | O => l
  | _ => skipn (length l - k) l
  end.

(** [l[a:b]] for non-negative bounds. *)
Definition slice {A} (a b : nat) (l : list A) : list A :=
  firstn (b - a) (skipn a l).

(** Stable insertion sort.  [before y x] says that [y] has to come strictly
    before [x]; elements not ordered by [before] keep their input order,
    as in Python's [sorted]. *)
Fixpoint insert_by {A} (before : A -> A -> bool) (x : A) (l : list A) : list A :=
  match l with
  | [] => [x]
  | y :: l' => if before y x then y :: insert_by before x l' else x :: y :: l'
  end.

Definition stable_sort {A} (before : A -> A -> bool) (l : list A) : list A :=
  fold_right (insert_by before) [] l.

(** [sorted(l)] on integers. *)
Definition sorted (l : list Z) : list Z := stable_sort Z.ltb l.

(** [sorted(l)] on floats. *)
Definition Qltb (x y : Q) : bool := negb (Qle_bool y x).

Definition sortedQ (l : list Q) : list Q := stable_sort Qltb l.

(** [sorted(d.items(), key=lambda x: x[1], reverse=True)] *)
Definition sorted_by_value_desc {K} (items : list (K * Q)) : list (K * Q) :=
  stable_sort (fun y x => Qltb (snd x) (snd y)) items.

(** [sorted(d.items(), key=lambda x: x[1], reverse=True)] on an integer
    table. *)
Definition sorted_by_count_desc (items : list (Z * Z)) : list (Z * Z) :=
  stable_sort (fun y x => snd x <? snd y) items.

(** [set(l)] listed in some order; every use in the package sorts or
    shuffles the result afterwards. *)
Definition set (l : list Z) : list Z := nodup Z.eq_dec l.

(** [x in l] *)
Definition mem (x : Z) (l : list Z) : bool :=
  if in_dec Z.eq_dec x l then true else false.

(** [d.get(k, default)] and [d[k] = v] on an integer-keyed dict. *)
Fixpoint dict_get {V} (d : list (Z * V)) (k : Z) (default : V) : V :=
  match d with
  | [] => default
  | (k', v) :: d' => if k =? k' then v else dict_get d' k default
  end.

Fixpoint dict_set {V} (d : list (Z * V)) (k : Z) (v : V) : list (Z * V) :=
  match d with
  | [] => [(k, v)]
  | (k', v') :: d' =>
      if k =? k' then (k, v) :: d' else (k', v') :: dict_set d' k v
  end.

(** [d.get(k, default)] on a string-keyed dict. *)
Fixpoint sdict_get {V} (d : list (string * V)) (k : string) (default : V) : V :=
  match d with
  | [] => default
  | (k', v) :: d' => if String.eqb k k' then v else sdict_get d' k default
  end.

Definition of_nat (n : nat) : Q := inject_Z (Z.of_nat n).

(** [sum(l)] on floats and on integers. *)
Definition sum (l : list Q) : Q := fold_left Qplus l 0%Q.

Definition sumZ (l : list Z) : Z := fold_left Z.add l 0.

(** [max(l)] and [min(l)]: the first extremal element.  Python raises
    [ValueError] on an empty list; callers guard against it. *)
Definition max_list (l : list Q) : Q :=
  match l with
  | [] => 0%Q
  | x :: l' => fold_left Qmax l' x
  end.

Definition min_list (l : list Q) : Q :=
  match l with
  | [] => 0%Q
  | x :: l' => fold_left Qmin l' x
  end.

(** [max(d, key=d.get)]: the first key whose value is maximal. *)
Definition max_key (d : list (Z * Q)) : Z :=
  match d with
  | [] => 0
  | kv :: d' =>
      fst (fold_left (fun best x => if Qltb (snd best) (snd x) then x else best)
                     d' kv)
  end.

End Py.

(** ** The [random] module

    A computation draws natural numbers from an entropy source; every
    outcome the library can produce is produced for some source. *)

Module Random.

Definition rng := list nat.

Definition Rand (A : Type) : Type := rng -> A * rng.

Definition ret {A} (a : A) : Rand A := fun s => (a, s).

Definition bind {A B} (m : Rand A) (f : A -> Rand B) : Rand B :=
  fun s => let (a, s') := m s in f a s'.

Definition next : Rand nat :=
  fun s => match s with
           | [] => (O, [])
           | n :: s' => (n, s')
           end.

(** [random.randint(a, b)] *)
Definition randint (a b : Z) : Rand Z :=
  bind next (fun n => ret (a + Z.of_nat n mod (b - a + 1))).

(** [random.sample(population, k)]; Python raises [ValueError] when
    [k > len(population)], here the sample then stops early. *)
Fixpoint sample (population : list Z) (k : nat) : Rand (list Z) :=
  match k with
  | O => ret []
  | S k' =>
      match population with
      | [] => ret []
      | _ :: _ =>
          bind next (fun n =>
            let i := (n mod length population)%nat in
            bind (sample (firstn i population ++ skipn (S i) population) k')
                 (fun rest => ret (nth i population 0 :: rest)))
      end
  end.

(** [random.shuffle(l)], returning the shuffled list. *)
Definition shuffle (l : list Z) : Rand (list Z) := sample l (length l).

(** [random.choice(l)] *)
Definition choice (l : list Z) : Rand Z :=
  bind next (fun n => ret (nth (n mod length l)%nat l 0)).

End Random.

Notation "x <- c1 ;; c2" := (Random.bind c1 (fun x => c2))
  (at level 61, c1 at next level, right associativity).

(** ** base.py *)

Module Base.

(** JSON-like values stored in result metadata. *)
#[local] Set Warnings "-register-all".

Inductive pyval : Type :=
| PBool (b : bool)
| PInt (z : Z)
| PFloat (q : Q)
| PStr (s : string)
| PInts (l : list Z)
| PStrs (l : list string)
| PDict (d : list (string * pyval))
| PList (l : list pyval).

Record PredictionResult : Type := {
  red_balls : list Z;
  blue_ball : Z;
  confidence : Q;
  metadata : option (list (string * pyval))
}.

Record LotteryPredictor : Type := {
  name : string;
  max_confidence : Q
}.

Definition validate_prediction (self : LotteryPredictor)
    (result : PredictionResult) : Random.Rand PredictionResult :=
  let red := Py.sorted (Py.set (red_balls result)) in
  red' <- (if (length red <? 6)%nat then
             let all_red_numbers := Py.range 1 34 in
             let available_numbers :=
               filter (fun n => negb (Py.mem n red)) all_red_numbers in
             shuffled <- Random.shuffle available_numbers ;;
             Random.ret (Py.sorted (red ++ firstn (6 - length red) shuffled))
           else if (6 <? length red)%nat then Random.ret (firstn 6 red)
           else Random.ret red) ;;
  blue <- (if (blue_ball result <? 1) || (16 <? blue_ball result)
           then Random.randint 1 16
           else Random.ret (blue_ball result)) ;;
  Random.ret {| red_balls := red';
                blue_ball := blue;
                confidence := Qmin (confidence result) (max_confidence self);
                metadata := metadata result |}.

(** [min(result.confidence, self.max_confidence)], the cap of
    [validate_prediction], on binary64 values.  Python's [min] returns its
    first argument unless the second compares smaller, and every comparison
    with NaN is false.  On rationals this is [Qmin], as used above. *)
Definition capped_confidence (confidence max_confidence : PrimFloat.float)
  : PrimFloat.float :=
  if PrimFloat.ltb max_confidence confidence then max_confidence
  else confidence.

Definition generate_random_fallback (self : LotteryPredictor)
  : Random.Rand PredictionResult :=
  picked <- Random.sample (Py.range 1 34) 6 ;;
  blue <- Random.randint 1 16 ;;
  Random.ret {| red_balls := Py.sorted picked;
                blue_ball := blue;
                confidence := 30.0;
                metadata := Some [("fallback"%string, PBool true)] |}.

End Base.

(** ** utils.py *)

Module Draw.

(** One historical draw: a dict that carries the primary numbers under
    ['red_balls'] or ['redBalls'] and the secondary number under
    ['blue_ball'] or ['blueBall'].  [None] is an absent key. *)
Record t : Type := {
  red_balls : option (list Z);
  redBalls : option (list Z);
  blue_ball : option Z;
  blueBall : option Z
}.

(** [draw.get('red_balls', draw.get('redBalls', []))] *)
Definition get_red (draw : t) : list Z :=
  match red_balls draw with
  | Some v => v
  | None => match redBalls draw with
            | Some v => v
            | None => []
            end
  end.

(** [draw.get('blue_ball', draw.get('blueBall'))] *)
Definition get_blue (draw : t) : option Z :=
  match blue_ball draw with
  | Some v => Some v
  | None => blueBall draw
  end.

End Draw.

Module Utils.

Definition extract_red_balls (historical_data : list Draw.t) : list (list Z) :=
  flat_map (fun draw =>
              let red_balls := Draw.get_red draw in
              match red_balls with
              | [] => []
              | _ :: _ => if (length red_balls =? 6)%nat then [red_balls] else []
              end)
           historical_data.

Definition extract_blue_balls (historical_data : list Draw.t) : list Z :=
  flat_map (fun draw =>
              match Draw.get_blue draw with
              | Some blue_ball =>
                  if negb (blue_ball =? 0) && (1 <=? blue_ball) && (blue_ball <=? 16)
                  then [blue_ball] else []
              | None => []
              end)
           historical_data.

Definition calculate_frequency (numbers : list Z) (range_max : Z)
  : list (Z * Z) :=
  map (fun num => (num, Z.of_nat (count_occ Z.eq_dec numbers num)))
      (Py.range 1 (range_max + 1)).

(** [float(value)] on the values of an integer table. *)
Definition as_floats (d : list (Z * Z)) : list (Z * Q) :=
  map (fun kv => (fst kv, inject_Z (snd kv))) d.

Definition calculate_frequency_confidence (selected_numbers : list Z)
    (frequency_dict : list (Z * Z)) : Q :=
  let total_occurrences := Py.sumZ (map snd frequency_dict) in
  if total_occurrences =? 0 then 50.0%Q
  else
    let selected_occurrences :=
      Py.sumZ (map (fun num => Py.dict_get frequency_dict num 0)
                   selected_numbers) in
    let concentration :=
      (inject_Z selected_occurrences / inject_Z total_occurrences * 100)%Q in
    let confidence := (50 + concentration * 0.25)%Q in
    Qmin confidence 75.0%Q.

(** [np.mean]; numpy returns NaN on an empty array, the model 0. *)
Definition np_mean (l : list Q) : Q := (Py.sum l / Py.of_nat (length l))%Q.

(** [np.percentile(values, q)] with numpy's default linear interpolation.
    numpy raises [ValueError] unless [0 <= q <= 100]; the function below is
    numpy's value inside that range and has no meaning outside it. *)
Definition np_percentile (values : list Q) (q : Q) : Q :=
  let ordered := Py.sortedQ values in
  let position := (q / 100 * Py.of_nat (length ordered - 1))%Q in
  let lower := Z.to_nat (Qfloor position) in
  let fraction := (position - Py.of_nat lower)%Q in
  let a := nth lower ordered 0%Q in
  let b := nth (S lower) ordered a in
  (a + fraction * (b - a))%Q.

Definition calculate_hot_cold_numbers (frequency_dict : list (Z * Z))
    (hot_threshold cold_threshold : Q) : list Z * list Z * list Z :=
  match frequency_dict with
  | [] => ([], [], Py.range 1 34)
  | _ :: _ =>
      let frequencies := map (fun kv => inject_Z (snd kv)) frequency_dict in
      let hot_cutoff := np_percentile frequencies (hot_threshold * 100)%Q in
      let cold_cutoff := np_percentile frequencies (cold_threshold * 100)%Q in
      let is_hot (kv : Z * Z) := Qle_bool hot_cutoff (inject_Z (snd kv)) in
      let is_cold (kv : Z * Z) := Qle_bool (inject_Z (snd kv)) cold_cutoff in
      (map fst (filter is_hot frequency_dict),
       map fst (filter (fun kv => negb (is_hot kv) && is_cold kv) frequency_dict),
       map fst (filter (fun kv => negb (is_hot kv) && negb (is_cold kv))
                       frequency_dict))
  end.

(** [moving_average(data, window)].  For [window = 0] numpy averages empty
    slices (NaN); the generators call it with at least 30 points, where the
    window is positive. *)
Definition moving_average (data : list Q) (window : nat) : list Q :=
  if (length data <? window)%nat then data
  else
    map (fun i =>
           if (S i <? window)%nat then np_mean (firstn (S i) data)
           else np_mean (Py.slice (S i - window) (S i) data))
        (seq 0 (length data)).

End Utils.

(** ** frequency.py *)

Module Frequency.

Definition self : Base.LotteryPredictor :=
  {| Base.name := "frequency"; Base.max_confidence := 75.0 |}.

Definition predict (historical_data : list Draw.t) (dataset_size : Z)
  : Random.Rand Base.PredictionResult :=
  match historical_data with
  | [] => Base.generate_random_fallback self
  | _ :: _ =>
      let data_to_analyze := Py.take dataset_size historical_data in
      let red_balls_list := Utils.extract_red_balls data_to_analyze in
      let blue_balls_list := Utils.extract_blue_balls data_to_analyze in
      match red_balls_list with
      | [] => Base.generate_random_fallback self
      | _ :: _ =>
          let all_red_balls := concat red_balls_list in
          let red_freq := Utils.calculate_frequency all_red_balls 33 in
          let blue_freq := Utils.calculate_frequency blue_balls_list 16 in
          let sorted_red := Py.sorted_by_count_desc red_freq in
          let predicted_red := Py.sorted (map fst (firstn 6 sorted_red)) in
          let sorted_blue := Py.sorted_by_count_desc blue_freq in
          predicted_blue <- match sorted_blue with
                            | kv :: _ => Random.ret (fst kv)
                            | [] => Random.randint 1 16
                            end ;;
          let confidence :=
            Utils.calculate_frequency_confidence predicted_red red_freq in
          let '(hot, cold, neutral) :=
            Utils.calculate_hot_cold_numbers red_freq 0.7 0.3 in
          let top (l : list (Z * Z)) :=
            match l with
            | kv :: _ => Base.PInt (snd kv)
            | [] => Base.PInt 0
            end in
          let result :=
            {| Base.red_balls := predicted_red;
               Base.blue_ball := predicted_blue;
               Base.confidence := confidence;
               Base.metadata := Some
                 [("hot_numbers", Base.PInts hot);
                  ("cold_numbers", Base.PInts cold);
                  ("neutral_numbers", Base.PInts neutral);
                  ("top_red_frequency", top sorted_red);
                  ("top_blue_frequency", top sorted_blue)]%string |} in
          Base.validate_prediction self result
      end
  end.

End Frequency.

(** ** External libraries

    What the package takes from numpy, the interpreter and scikit-learn and
    that exact rational arithmetic cannot express.  [sin_half_pi t] is
    [np.sin(t * np.pi / 2)]; [pipeline_fit_predict X y latest] fits the
    scaler and the multi-output forest on [(X, y)] and returns, for every
    output slot, the class predicted for [latest] and that slot's
    class-to-probability map, or [None] when fitting raises. *)

Class Externals : Type := {
  HAS_SKLEARN : bool;
  HAS_STATSMODELS : bool;
  np_sqrt : Q -> Q;
  sin_half_pi : Q -> Q;
  py_round : Q -> Z -> Q;
  pipeline_fit_predict :
    list (list Q) -> list (list Z) -> list Q -> option (list (Z * list (Z * Q)))
}.

(** ** numpy arrays as lists *)

Module Np.

Definition zeros (n : nat) : list Q := repeat 0%Q n.

Definition scale (c : Q) (v : list Q) : list Q := map (Qmult c) v.

Definition add (u v : list Q) : list Q :=
  map (fun p => (fst p + snd p)%Q) (combine u v).

Definition div (v : list Q) (c : Q) : list Q := map (fun x => (x / c)%Q) v.

(** [l[i] = f(l[i])]; out of range leaves [l] unchanged (the package only
    writes at guarded indices). *)
Fixpoint update_at {A} (i : nat) (f : A -> A) (l : list A) : list A :=
  match l, i with
  | [], _ => []
  | x :: l', O => f x :: l'
  | x :: l', S i' => x :: update_at i' f l'
  end.

(** [np.argmax]: the first index holding the maximum. *)
Definition argmax (v : list Q) : nat :=
  match v with
  | [] => O
  | x :: v' =>
      fst (fold_left (fun best p => if Py.Qltb (snd best) (snd p) then p else best)
                     (combine (seq 1 (length v')) v') (O, x))
  end.

(** [np.argsort]: indices by ascending value.  numpy's default sort does
    not fix the order of equal values; the model keeps their index order. *)
Definition argsort (v : list Q) : list nat :=
  map fst (Py.stable_sort (fun y x => Py.Qltb (snd y) (snd x))
                          (combine (seq 0 (length v)) v)).

(** [np.std] (population standard deviation). *)
Definition std {ext : Externals} (l : list Q) : Q :=
  let m := Utils.np_mean l in
  np_sqrt (Utils.np_mean (map (fun x => ((x - m) * (x - m))%Q) l)).

(** [np.median]; NaN on an empty array, here 0. *)
Definition median (l : list Q) : Q :=
  let ordered := Py.sortedQ l in
  let n := length ordered in
  if Nat.even n
  then ((nth (n / 2 - 1) ordered 0 + nth (n / 2) ordered 0) / 2)%Q
  else nth (n / 2) ordered 0%Q.

End Np.

(** ** trend.py *)

Module Trend.

Section WithExternals.

Context {ext : Externals}.

Definition self : Base.LotteryPredictor :=
  {| Base.name := "trend"; Base.max_confidence := 70.0 |}.

Definition _calculate_slope (values : list Q) : Q :=
  if (length values <? 2)%nat then 0%Q
  else
    let n := length values in
    let x := map Py.of_nat (seq 0 n) in
    let y := values in
    let x_mean := Utils.np_mean x in
    let y_mean := Utils.np_mean y in
    let numerator :=
      Py.sum (map (fun p => ((fst p - x_mean) * (snd p - y_mean))%Q)
                  (combine x y)) in
    let denominator :=
      Py.sum (map (fun xi => ((xi - x_mean) * (xi - x_mean))%Q) x) in
    if Qeq_bool denominator 0 then 0%Q
    else (numerator / denominator)%Q.

Definition _calculate_trend_scores (red_balls_history : list (list Z))
    (range_max : Z) : list (Z * Q) :=
  map (fun num =>
         let appearances :=
           map (fun draw => if Py.mem num draw then 1%Q else 0%Q)
               red_balls_history in
         if Py.Qltb (Py.sum appearances) 3 then (num, 0%Q)
         else
           let window_size := Nat.min 10 (length appearances / 3) in
           let ma := Utils.moving_average appearances window_size in
           if (5 <=? length ma)%nat
           then (num, _calculate_slope (Py.last_n 5 ma))
           else (num, 0%Q))
      (Py.range 1 (range_max + 1)).

Definition _calculate_blue_trend (blue_balls_history : list Z) : list (Z * Q) :=
  map (fun num =>
         let appearances :=
           map (fun ball => if ball =? num then 1%Q else 0%Q)
               blue_balls_history in
         if Py.Qltb (Py.sum appearances) 2 then (num, 0%Q)
         else
           let window_size := Nat.min 8 (length appearances / 3) in
           let ma := Utils.moving_average appearances window_size in
           if (3 <=? length ma)%nat
           then (num, _calculate_slope (Py.last_n 3 ma))
           else (num, 0%Q))
      (Py.range 1 17).

Definition predict (historical_data : list Draw.t) (dataset_size : Z)
  : Random.Rand Base.PredictionResult :=
  if (length historical_data <? 30)%nat
  then Base.generate_random_fallback self
  else
    let data_to_analyze := Py.take dataset_size historical_data in
    let red_balls_list := Utils.extract_red_balls data_to_analyze in
    let blue_balls_list := Utils.extract_blue_balls data_to_analyze in
    if (length red_balls_list <? 30)%nat
    then Base.generate_random_fallback self
    else
      let red_trend_scores := _calculate_trend_scores red_balls_list 33 in
      let sorted_red := Py.sorted_by_value_desc red_trend_scores in
      let predicted_red := Py.sorted (map fst (firstn 6 sorted_red)) in
      let blue_trend_scores := _calculate_blue_trend blue_balls_list in
      let predicted_blue := Py.max_key blue_trend_scores in
      let top_6_scores := map snd (firstn 6 sorted_red) in
      let avg_trend_strength :=
        match top_6_scores with
        | [] => 0%Q
        | _ :: _ => Utils.np_mean top_6_scores
        end in
      let confidence := (50 + avg_trend_strength * 20)%Q in
      let result :=
        {| Base.red_balls := predicted_red;
           Base.blue_ball := predicted_blue;
           Base.confidence := confidence;
           Base.metadata := Some
             [("trend_method",
               Base.PStr (if HAS_STATSMODELS then "arima" else "moving_average"));
              ("avg_trend_strength",
               Base.PFloat (py_round avg_trend_strength 3));
              ("data_points",
               Base.PInt (Z.of_nat (length red_balls_list)))]%string |} in
      Base.validate_prediction self result.

End WithExternals.

End Trend.

(** ** random_forest.py *)

Module RandomForest.

Section WithExternals.

Context {ext : Externals}.

Definition self : Base.LotteryPredictor :=
  {| Base.name := "random_forest"; Base.max_confidence := 72.0 |}.

Definition lookback : nat := 5.

(** The one-hot row of one draw: [one_hot[ball - 1] = 1] for every ball of
    the draw within 1..[size]. *)
Definition one_hot (size : nat) (draw : list Z) : list Q :=
  fold_left (fun row ball =>
               if (1 <=? ball) && (ball <=? Z.of_nat size)
               then Np.update_at (Z.to_nat (ball - 1)) (fun _ => 1%Q) row
               else row)
            draw (Np.zeros size).

Definition _encode_window_features (window : list (list Z)) : list Q :=
  let per_draw (draw : list Z) : list Q :=
    let draw_array := map inject_Z draw in
    one_hot 33 draw ++
    [ Py.sum draw_array;
      Utils.np_mean draw_array;
      (if (1 <? length draw_array)%nat then Np.std draw_array else 0%Q);
      Np.median draw_array;
      (if (0 <? length draw_array)%nat
       then (Py.max_list draw_array - Py.min_list draw_array)%Q else 0%Q);
      Py.of_nat (length (filter (fun b => b mod 2 =? 1) draw));
      Py.of_nat (length (filter (fun b => 16 <? b) draw)) ] in
  let flattened := concat window in
  flat_map per_draw window ++
  match flattened with
  | [] => [0%Q; 0%Q; 0%Q; 0%Q]
  | _ :: _ =>
      let flat_array := map inject_Z flattened in
      [ Utils.np_mean flat_array; Np.std flat_array;
        Py.max_list flat_array; Py.min_list flat_array ]
  end.

(** The training rows and their targets, in step. *)
Definition _prepare_training_data (red_balls_history : list (list Z))
  : list (list Q) * list (list Z) :=
  List.split
    (flat_map
       (fun idx =>
          let window := Py.slice (idx - lookback) idx red_balls_history in
          let target_draw := nth idx red_balls_history [] in
          if (length target_draw <? 6)%nat then []
          else [(_encode_window_features window, firstn 6 target_draw)])
       (seq lookback (length red_balls_history - lookback))).

Definition _frequency_based_selection (red_balls_history : list (list Z))
  : list Z :=
  let all_numbers := concat red_balls_history in
  let freq := Utils.calculate_frequency all_numbers 33 in
  let sorted_numbers := Py.sorted_by_count_desc freq in
  Py.sorted (map fst (firstn 6 sorted_numbers)).

Definition _aggregate_probabilities (probability_maps : list (list (Z * Q)))
  : list (Z * Q) :=
  fold_left
    (fun combined slot_map =>
       fold_left
         (fun combined np =>
            let num := fst np in
            if (1 <=? num) && (num <=? 33)
            then Py.dict_set combined num
                   (Py.dict_get combined num 0 + snd np)%Q
            else combined)
         slot_map combined)
    probability_maps
    (map (fun num => (num, 0%Q)) (Py.range 1 34)).

Definition _select_high_probability_number (combined_scores : list (Z * Q))
    (used_numbers : list Z) : Random.Rand Z :=
  let candidates := Py.sorted_by_value_desc combined_scores in
  match filter (fun num => negb (Py.mem num used_numbers)) (map fst candidates) with
  | num :: _ => Random.ret num
  | [] =>
      let remaining :=
        filter (fun num => negb (Py.mem num used_numbers)) (Py.range 1 34) in
      match remaining with
      | _ :: _ => Random.choice remaining
      | [] => Random.randint 1 33
      end
  end.

(** The loop of [_predict_red_balls] over the raw per-slot predictions. *)
Fixpoint fill_predicted (combined_scores : list (Z * Q))
    (raw_prediction : list Z) (predicted_numbers : list Z)
  : Random.Rand (list Z) :=
  match raw_prediction with
  | [] => Random.ret predicted_numbers
  | number :: rest =>
      if (1 <=? number) && (number <=? 33)
         && negb (Py.mem number predicted_numbers)
      then fill_predicted combined_scores rest (predicted_numbers ++ [number])
      else
        fallback_num <-
          _select_high_probability_number combined_scores predicted_numbers ;;
        fill_predicted combined_scores rest (predicted_numbers ++ [fallback_num])
  end.

Definition _predict_red_balls (red_balls_history : list (list Z))
  : Random.Rand (list Z * Q) :=
  let '(X, y) := _prepare_training_data red_balls_history in
  if (length X <? 25)%nat
  then Random.ret (_frequency_based_selection red_balls_history, 0.45%Q)
  else
    let latest_window := Py.last_n lookback red_balls_history in
    let latest_features := _encode_window_features latest_window in
    match pipeline_fit_predict X y latest_features with
    | None => Random.ret (_frequency_based_selection red_balls_history, 0.45%Q)
    | Some slots =>
        let raw_prediction := map fst slots in
        let probability_maps := map snd slots in
        let slot_probabilities :=
          map (fun slot => Py.dict_get (snd slot) (fst slot) 0%Q) slots in
        let combined_scores := _aggregate_probabilities probability_maps in
        predicted_numbers <- fill_predicted combined_scores raw_prediction [] ;;
        let average_probability :=
          match slot_probabilities with
          | [] => 0.45%Q
          | _ :: _ => Utils.np_mean slot_probabilities
          end in
        Random.ret (Py.sorted (firstn 6 predicted_numbers), average_probability)
    end.

Definition _predict_blue_ball (blue_balls_history : list Z) : Random.Rand Z :=
  if (length blue_balls_history <? 10)%nat then Random.randint 1 16
  else
    let freq := Utils.calculate_frequency blue_balls_history 16 in
    let recent :=
      firstn (Nat.min 20 (length blue_balls_history)) blue_balls_history in
    let recent_freq := Utils.calculate_frequency recent 16 in
    let combined_scores :=
      map (fun num =>
             let overall_weight :=
               (inject_Z (Py.dict_get freq num 0%Z)
                / Py.of_nat (length blue_balls_history))%Q in
             let recent_weight :=
               (inject_Z (Py.dict_get recent_freq num 0%Z)
                / Py.of_nat (length recent))%Q in
             (num, (0.4 * overall_weight + 0.6 * recent_weight)%Q))
          (Py.range 1 17) in
    Random.ret (Py.max_key combined_scores).

Definition _fallback_predict (historical_data : list Draw.t) (dataset_size : Z)
  : Random.Rand Base.PredictionResult :=
  match historical_data with
  | [] => Base.generate_random_fallback self
  | _ :: _ =>
      let data_to_analyze :=
        Py.take (Z.min dataset_size (Z.of_nat (length historical_data)))
                historical_data in
      let red_balls_list := Utils.extract_red_balls data_to_analyze in
      let blue_balls_list := Utils.extract_blue_balls data_to_analyze in
      match red_balls_list with
      | [] => Base.generate_random_fallback self
      | _ :: _ =>
          let predicted_red := _frequency_based_selection red_balls_list in
          predicted_blue <- match blue_balls_list with
                            | _ :: _ => _predict_blue_ball blue_balls_list
                            | [] => Random.randint 1 16
                            end ;;
          Random.ret
            {| Base.red_balls := predicted_red;
               Base.blue_ball := predicted_blue;
               Base.confidence := 55.0;
               Base.metadata := Some
                 [("fallback", Base.PBool true);
                  ("reason", Base.PStr "sklearn_unavailable")]%string |}
      end
  end.

Definition predict (historical_data : list Draw.t) (dataset_size : Z)
  : Random.Rand Base.PredictionResult :=
  if negb HAS_SKLEARN then _fallback_predict historical_data dataset_size
  else if (length historical_data <? lookback + 10)%nat
  then Base.generate_random_fallback self
  else
    let data_to_analyze := Py.take dataset_size historical_data in
    let red_balls_list := Utils.extract_red_balls data_to_analyze in
    let blue_balls_list := Utils.extract_blue_balls data_to_analyze in
    if (length red_balls_list <? lookback + 10)%nat
    then _fallback_predict historical_data dataset_size
    else
      red <- _predict_red_balls red_balls_list ;;
      let '(predicted_red, avg_slot_probability) := red in
      predicted_blue <- _predict_blue_ball blue_balls_list ;;
      let confidence :=
        (52.0 + avg_slot_probability * 28.0
         + Qmin (Py.of_nat (length red_balls_list) / 400) 1.0 * 10.0)%Q in
      let result :=
        {| Base.red_balls := predicted_red;
           Base.blue_ball := predicted_blue;
           Base.confidence := confidence;
           Base.metadata := Some
             [("model", Base.PStr "random_forest");
              ("lookback", Base.PInt (Z.of_nat lookback));
              ("training_samples",
               Base.PInt (Z.of_nat (length red_balls_list)));
              ("has_sklearn", Base.PBool HAS_SKLEARN);
              ("slot_probability",
               Base.PFloat (py_round avg_slot_probability 4))]%string |} in
      Base.validate_prediction self result.

End WithExternals.

End RandomForest.

(** ** lstm.py

    A 2-D array is the list of its rows; the number of columns ([shape[1]])
    is passed along where the source reads it from the array. *)

Module LSTM.

Section WithExternals.

Context {ext : Externals}.

Definition self : Base.LotteryPredictor :=
  {| Base.name := "lstm"; Base.max_confidence := 68.0 |}.

Definition sequence_length : nat := 10.

Definition _build_sequence_matrix (history : list (list Z)) (size : nat)
  : list (list Q) :=
  map (fun draw =>
         fold_left (fun row number =>
                      if (1 <=? number) && (number <=? Z.of_nat size)
                      then Np.update_at (Z.to_nat (number - 1)) (fun _ => 1%Q) row
                      else row)
                   draw (Np.zeros size))
      history.

(** [np.sin(np.linspace(0, np.pi / 2, num=n))] *)
Definition sine_ramp (n : nat) : list Q :=
  map (fun i => sin_half_pi (Py.of_nat i / Py.of_nat (n - 1))%Q) (seq 0 n).

Definition _recent_weighted_profile (ncols : nat) (matrix : list (list Q))
  : list Q :=
  let window := Py.last_n (Nat.min sequence_length (length matrix)) matrix in
  if (length window * ncols =? 0)%nat then Np.zeros ncols
  else
    let weight_vector := sine_ramp (length window) in
    let weighted :=
      map (fun j =>
             Py.sum (map (fun rw => (nth j (fst rw) 0 * snd rw)%Q)
                         (combine window weight_vector)))
          (seq 0 ncols) in
    Np.div weighted (Py.sum weight_vector).

Definition _exponential_memory (ncols : nat) (matrix : list (list Q))
    (alpha : Q) : list Q :=
  let ema :=
    fold_left (fun ema row =>
                 Np.add (Np.scale (1 - alpha) ema) (Np.scale alpha row))
              matrix (Np.zeros ncols) in
  if Py.Qltb 0 (Py.max_list ema) then Np.div ema (Py.max_list ema) else ema.

(** [itertools.combinations(l, 2)] *)
Fixpoint combinations2 (l : list Z) : list (Z * Z) :=
  match l with
  | [] => []
  | a :: l' => map (fun b => (a, b)) l' ++ combinations2 l'
  end.

Definition _co_occurrence_scores (history : list (list Z)) : list Q :=
  let window := Py.last_n (Nat.max (sequence_length * 3) 30) history in
  match window with
  | [] => Np.zeros 33
  | _ :: _ =>
      let incr (i j : nat) (m : list (list Q)) :=
        Np.update_at i (Np.update_at j (fun c => (c + 1)%Q)) m in
      let co_matrix :=
        fold_left
          (fun m draw =>
             fold_left
               (fun m ab =>
                  let '(a, b) := ab in
                  if (1 <=? a) && (a <=? 33) && (1 <=? b) && (b <=? 33)
                  then incr (Z.to_nat (b - 1)) (Z.to_nat (a - 1))
                         (incr (Z.to_nat (a - 1)) (Z.to_nat (b - 1)) m)
                  else m)
               (combinations2 (Py.sorted (Py.set draw))) m)
          window (repeat (Np.zeros 33) 33) in
      let scores := map Py.sum co_matrix in
      let max_score := Py.max_list scores in
      if Py.Qltb 0 max_score then Np.div scores max_score else scores
  end.

Definition _predict_red_sequence (red_balls_history : list (list Z))
  : Random.Rand (list Z * list Q) :=
  let sequence_matrix := _build_sequence_matrix red_balls_history 33 in
  match sequence_matrix with
  | [] =>
      picked <- Random.sample (Py.range 1 34) 6 ;;
      Random.ret (Py.sorted picked, Np.zeros 33)
  | _ :: _ =>
      let recent_profile := _recent_weighted_profile 33 sequence_matrix in
      let ema_profile := _exponential_memory 33 sequence_matrix 0.18 in
      let co_occurrence := _co_occurrence_scores red_balls_history in
      let combined_scores :=
        Np.add (Np.add (Np.scale 0.4 recent_profile) (Np.scale 0.3 ema_profile))
               (Np.scale 0.3 co_occurrence) in
      let max_score := Py.max_list combined_scores in
      let normalized_scores :=
        if Py.Qltb 0 max_score then Np.div combined_scores max_score
        else combined_scores in
      let ranking :=
        map (fun i => Z.of_nat i + 1)
            (firstn 6 (Np.argsort (map Qopp normalized_scores))) in
      Random.ret (Py.sorted ranking, normalized_scores)
  end.

Definition _predict_blue_sequence (blue_balls_history : list Z)
  : Random.Rand Z :=
  if (length blue_balls_history <? 10)%nat then Random.randint 1 16
  else
    let matrix :=
      _build_sequence_matrix (map (fun num => [num]) blue_balls_history) 16 in
    let recent_profile := _recent_weighted_profile 16 matrix in
    let ema_profile := _exponential_memory 16 matrix 0.25 in
    let combined_scores :=
      Np.add (Np.scale 0.6 recent_profile) (Np.scale 0.4 ema_profile) in
    Random.ret (Z.of_nat (Np.argmax combined_scores) + 1).

(** [[score_profile[num - 1] for num in predicted
      if 1 <= num <= len(score_profile)]] *)
Definition selected_entries (score_profile : list Q) (predicted : list Z)
  : list Q :=
  map (fun num => nth (Z.to_nat (num - 1)) score_profile 0%Q)
      (filter (fun num => (1 <=? num) && (num <=? Z.of_nat (length score_profile)))
              predicted).

Definition _calculate_confidence (score_profile : list Q) (predicted : list Z)
  : Q :=
  match score_profile, predicted with
  | [], _ | _, [] => 50.0%Q
  | _ :: _, _ :: _ =>
      let selected_scores := selected_entries score_profile predicted in
      match selected_scores with
      | [] => 50.0%Q
      | _ :: _ =>
          let avg_score := Utils.np_mean selected_scores in
          let spread := Np.std score_profile in
          let stability := Qmax 0.0 (1.0 - spread) in
          let confidence := (52.0 + avg_score * 25.0 + stability * 8.0)%Q in
          Qmin confidence (Base.max_confidence self)
      end
  end.

Definition predict (historical_data : list Draw.t) (dataset_size : Z)
  : Random.Rand Base.PredictionResult :=
  if (length historical_data <? 30)%nat
  then Base.generate_random_fallback self
  else
    let data_to_analyze := Py.take dataset_size historical_data in
    let red_balls_list := Utils.extract_red_balls data_to_analyze in
    let blue_balls_list := Utils.extract_blue_balls data_to_analyze in
    if (length red_balls_list <? 30)%nat
    then Base.generate_random_fallback self
    else
      red <- _predict_red_sequence red_balls_list ;;
      let '(predicted_red, red_score_profile) := red in
      predicted_blue <- _predict_blue_sequence blue_balls_list ;;
      let confidence := _calculate_confidence red_score_profile predicted_red in
      let selected_strength :=
        match selected_entries red_score_profile predicted_red with
        | [] => 0.0%Q
        | strengths => Utils.np_mean strengths
        end in
      let result :=
        {| Base.red_balls := predicted_red;
           Base.blue_ball := predicted_blue;
           Base.confidence := confidence;
           Base.metadata := Some
             [("model", Base.PStr "lstm_inspired");
              ("sequence_length", Base.PInt (Z.of_nat sequence_length));
              ("training_samples",
               Base.PInt (Z.of_nat (length red_balls_list)));
              ("signal_strength",
               Base.PFloat (py_round selected_strength 4))]%string |} in
      Base.validate_prediction self result.

End WithExternals.

End LSTM.

(** ** ensemble.py *)

Module Ensemble.

Inductive band : Type := low | mid | high.

Record EnsemblePredictor : Type := {
  base : Base.LotteryPredictor;
  weights : list (string * Q);
  recent_window : nat
}.

Definition default_weights : list (string * Q) :=
  [("frequency", 0.20%Q); ("trend", 0.25%Q);
   ("random_forest", 0.30%Q); ("lstm", 0.25%Q)]%string.

(** [sum(d.values()) or 1.0] followed by [{k: v / total ...}].  On doubles
    a total beyond the largest finite value (about 1.8e308) is [inf] and
    every quotient 0.0: the rationals agree with the code only while the
    total stays below it, see [weight_limit]. *)
Definition normalize_weights (d : list (string * Q)) : list (string * Q) :=
  let total := Py.sum (map snd d) in
  let total := if Qeq_bool total 0 then 1.0%Q else total in
  map (fun kv => (fst kv, (snd kv / total)%Q)) d.

(** A total that no sum of doubles rounds up to [inf]: 1e308, well below
    the largest finite double. *)
Definition weight_limit : Q := inject_Z (10 ^ 308).

(** The same two lines on binary64 values, for the values of the dict;
    [sum] starts from 0 and [x or 1.0] replaces a zero (of either sign). *)
Definition normalize_doubles (values : list PrimFloat.float)
  : list PrimFloat.float :=
  let total := fold_left PrimFloat.add values PrimFloat.zero in
  let total :=
    if PrimFloat.eqb total PrimFloat.zero then PrimFloat.one else total in
  map (fun v => PrimFloat.div v total) values.

(** [EnsemblePredictor.__init__]; [weights or {...}] takes the defaults for
    [None] and for an empty dict. *)
Definition __init__ (weights : option (list (string * Q))) : EnsemblePredictor :=
  let chosen :=
    match weights with
    | None | Some [] => default_weights
    | Some (kv :: d) => kv :: d
    end in
  {| base := {| Base.name := "ensemble"; Base.max_confidence := 80.0 |};
     weights := normalize_weights chosen;
     recent_window := 60 |}.

Definition update_weights (self : EnsemblePredictor)
    (performance_metrics : list (string * Q)) : EnsemblePredictor :=
  match performance_metrics with
  | [] => self
  | _ :: _ =>
      {| base := base self;
         weights := normalize_weights performance_metrics;
         recent_window := recent_window self |}
  end.

Definition _normalize_scores (values : list (Z * Q)) : list (Z * Q) :=
  match values with
  | [] => []
  | _ :: _ =>
      let numeric_values := map snd values in
      let max_value := Py.max_list numeric_values in
      let min_value := Py.min_list numeric_values in
      if Qeq_bool max_value min_value
      then map (fun kv => (fst kv, (1.0 / Py.of_nat (length values))%Q)) values
      else map (fun kv =>
                  (fst kv, ((snd kv - min_value) / (max_value - min_value))%Q))
               values
  end.

Definition _group_for_number (number : Z) : band :=
  if number <=? 11 then low
  else if number <=? 22 then mid
  else high.

Definition band_eqb (a b : band) : bool :=
  match a, b with
  | low, low | mid, mid | high, high => true
  | _, _ => false
  end.

(** The first loop of [_select_numbers_with_distribution]: [counts] holds
    the per-band counters, the target is 2 for every band. *)
Fixpoint select_balanced (candidates : list Z) (counts : band -> nat)
    (selected : list Z) : list Z :=
  match candidates with
  | [] => selected
  | number :: rest =>
      let group := _group_for_number number in
      let '(selected, counts) :=
        if (counts group <? 2)%nat
        then (selected ++ [number],
              fun g => if band_eqb g group then S (counts g) else counts g)
        else (selected, counts) in
      if (length selected =? 6)%nat then selected
      else select_balanced rest counts selected
  end.

(** The second loop: fill up by score alone. *)
Fixpoint select_fill (candidates : list Z) (selected : list Z) : list Z :=
  match candidates with
  | [] => selected
  | number :: rest =>
      let selected :=
        if negb (Py.mem number selected) then selected ++ [number]
        else selected in
      if (length selected =? 6)%nat then selected
      else select_fill rest selected
  end.

Definition _select_numbers_with_distribution (scores : list (Z * Q)) : list Z :=
  let sorted_candidates := map fst (Py.sorted_by_value_desc scores) in
  let selected := select_balanced sorted_candidates (fun _ => O) [] in
  let selected :=
    if (length selected <? 6)%nat then select_fill sorted_candidates selected
    else selected in
  Py.sorted (firstn 6 selected).

(** The values scanned in one draw by [_current_gap_scores]. *)
Definition gap_values (is_red : bool) (draw : Draw.t) : list Z :=
  if is_red then Draw.get_red draw
  else match Draw.get_blue draw with
       | Some blue_value => if blue_value =? 0 then [] else [blue_value]
       | None => []
       end.

(** The body of the inner loop of [_current_gap_scores]: [number] gets the
    index [idx] unless an index is already recorded for it. *)
Definition gap_record (range_max default_gap idx : Z)
    (gap_map : list (Z * Z)) (number : Z) : list (Z * Z) :=
  if (1 <=? number) && (number <=? range_max)
     && (Py.dict_get gap_map number 0 =? default_gap)
  then Py.dict_set gap_map number idx
  else gap_map.

(** The [enumerate] loop of [_current_gap_scores], started at index [idx]. *)
Fixpoint gap_scan (range_max default_gap : Z) (is_red : bool)
    (draws : list Draw.t) (idx : Z) (gap_map : list (Z * Z)) : list (Z * Z) :=
  match draws with
  | [] => gap_map
  | draw :: rest =>
      gap_scan range_max default_gap is_red rest (idx + 1)
        (fold_left (gap_record range_max default_gap idx)
                   (gap_values is_red draw) gap_map)
  end.

Definition _current_gap_scores (historical_data : list Draw.t) (range_max : Z)
    (is_red : bool) : list (Z * Q) :=
  match historical_data with
  | [] => map (fun num => (num, 0.0%Q)) (Py.range 1 (range_max + 1))
  | _ :: _ =>
      let default_gap := Z.of_nat (length historical_data) in
      let gap_map :=
        map (fun num => (num, default_gap)) (Py.range 1 (range_max + 1)) in
      let gap_map :=
        gap_scan range_max default_gap is_red historical_data 0 gap_map in
      map (fun ng =>
             (fst ng,
              if default_gap =? 0 then 0.0%Q
              else (inject_Z (snd ng) / inject_Z default_gap)%Q))
          gap_map
  end.

Definition zero_table (range_max : Z) : list (Z * Q) :=
  map (fun num => (num, 0.0%Q)) (Py.range 1 (range_max + 1)).

(** [{num: max(recent.get(num, 0.0) - previous.get(num, 0.0), 0.0) ...}] *)
Definition momentum_table (range_max : Z) (recent_norm previous_norm : list (Z * Q))
  : list (Z * Q) :=
  map (fun num =>
         (num, Qmax (Py.dict_get recent_norm num 0.0
                     - Py.dict_get previous_norm num 0.0) 0.0)%Q)
      (Py.range 1 (range_max + 1)).

Definition frequency_norm (numbers : list Z) (range_max : Z) : list (Z * Q) :=
  _normalize_scores (Utils.as_floats (Utils.calculate_frequency numbers range_max)).

Definition _build_red_probability (self : EnsemblePredictor)
    (red_history : list (list Z)) (historical_data : list Draw.t)
  : list (Z * Q) :=
  let flattened := concat red_history in
  let freq_norm := frequency_norm flattened 33 in
  let recent_window := Nat.min (recent_window self) (length red_history) in
  let recent_flat := concat (firstn recent_window red_history) in
  let recent_norm := frequency_norm recent_flat 33 in
  let previous_flat :=
    concat (Py.slice recent_window (recent_window * 2) red_history) in
  let previous_norm :=
    match previous_flat with
    | [] => zero_table 33
    | _ :: _ => frequency_norm previous_flat 33
    end in
  let momentum := momentum_table 33 recent_norm previous_norm in
  let gap_scores := _current_gap_scores historical_data 33 true in
  let combined :=
    map (fun num =>
           (num, (0.35 * Py.dict_get freq_norm num 0.0
                  + 0.25 * Py.dict_get recent_norm num 0.0
                  + 0.20 * Py.dict_get gap_scores num 0.0
                  + 0.20 * Py.dict_get momentum num 0.0)%Q))
        (Py.range 1 34) in
  _normalize_scores combined.

Definition _build_blue_probability (blue_history : list Z)
    (historical_data : list Draw.t) : list (Z * Q) :=
  let freq_norm := frequency_norm blue_history 16 in
  let recent_window := Nat.min 30 (length blue_history) in
  let recent := firstn recent_window blue_history in
  let previous := Py.slice recent_window (recent_window * 2) blue_history in
  let recent_norm := frequency_norm recent 16 in
  let previous_norm :=
    match previous with
    | [] => zero_table 16
    | _ :: _ => frequency_norm previous 16
    end in
  let momentum := momentum_table 16 recent_norm previous_norm in
  let gap_scores := _current_gap_scores historical_data 16 false in
  let combined :=
    map (fun num =>
           (num, (0.4 * Py.dict_get freq_norm num 0.0
                  + 0.3 * Py.dict_get recent_norm num 0.0
                  + 0.2 * Py.dict_get gap_scores num 0.0
                  + 0.1 * Py.dict_get momentum num 0.0)%Q))
        (Py.range 1 17) in
  _normalize_scores combined.

Definition _combine_scores (base_scores vote_scores : list (Z * Q))
    (base_weight : Q) : list (Z * Q) :=
  _normalize_scores
    (map (fun kv =>
            let num := fst kv in
            (num, (base_weight * Py.dict_get base_scores num 0.0
                   + (1 - base_weight) * Py.dict_get vote_scores num 0.0)%Q))
         base_scores).

Definition _build_vote_scores (self : EnsemblePredictor)
    (predictions : list (string * Base.PredictionResult)) : list (Z * Q) :=
  match predictions with
  | [] => zero_table 33
  | _ :: _ =>
      _normalize_scores
        (fold_left
           (fun scores nr =>
              let weight := Py.sdict_get (weights self) (fst nr) 0.0%Q in
              let confidence_factor := (Base.confidence (snd nr) / 100.0)%Q in
              fold_left
                (fun scores ball =>
                   if (1 <=? ball) && (ball <=? 33)
                   then Py.dict_set scores ball
                          (Py.dict_get scores ball 0 + weight * confidence_factor)%Q
                   else scores)
                (Base.red_balls (snd nr)) scores)
           predictions (zero_table 33))
  end.

Definition _build_blue_vote_scores (self : EnsemblePredictor)
    (predictions : list (string * Base.PredictionResult)) : list (Z * Q) :=
  match predictions with
  | [] => zero_table 16
  | _ :: _ =>
      _normalize_scores
        (fold_left
           (fun scores nr =>
              let weight := Py.sdict_get (weights self) (fst nr) 0.0%Q in
              let confidence_factor := (Base.confidence (snd nr) / 100.0)%Q in
              let ball := Base.blue_ball (snd nr) in
              if (1 <=? ball) && (ball <=? 16)
              then Py.dict_set scores ball
                     (Py.dict_get scores ball 0 + weight * confidence_factor)%Q
              else scores)
           predictions (zero_table 16))
  end.

Section WithExternals.

Context {ext : Externals}.

Definition _describe_top_candidates (scores : list (Z * Q)) (limit : nat)
  : Base.pyval :=
  let ordered := firstn limit (Py.sorted_by_value_desc scores) in
  Base.PList
    (map (fun ns =>
            Base.PDict [("number", Base.PInt (fst ns));
                        ("score", Base.PFloat (py_round (snd ns) 4))]%string)
         ordered).

Definition _run_component_predictors (historical_data : list Draw.t)
    (dataset_size : Z) : Random.Rand (list (string * Base.PredictionResult)) :=
  r_frequency <- Frequency.predict historical_data dataset_size ;;
  r_trend <- Trend.predict historical_data dataset_size ;;
  r_forest <- RandomForest.predict historical_data dataset_size ;;
  r_lstm <- LSTM.predict historical_data dataset_size ;;
  Random.ret [("frequency", r_frequency); ("trend", r_trend);
              ("random_forest", r_forest); ("lstm", r_lstm)]%string.

Definition _score_blue_candidates (self : EnsemblePredictor)
    (blue_history : list Z)
    (predictions : list (string * Base.PredictionResult))
    (historical_data : list Draw.t) : Random.Rand (Z * Base.pyval) :=
  match blue_history with
  | [] =>
      random_blue <- Random.randint 1 16 ;;
      Random.ret
        (random_blue,
         Base.PList [Base.PDict [("number", Base.PInt random_blue);
                                 ("score", Base.PFloat 0.5)]%string])
  | _ :: _ =>
      let base_scores := _build_blue_probability blue_history historical_data in
      let vote_scores := _build_blue_vote_scores self predictions in
      let combined := _combine_scores base_scores vote_scores 0.7 in
      let best := Py.max_key combined in
      Random.ret (best, _describe_top_candidates combined 5)
  end.

Definition _agreement_bonus
    (predictions : list (string * Base.PredictionResult))
    (selected_numbers : list Z) : Q :=
  match predictions, selected_numbers with
  | [], _ | _, [] => 0.0%Q
  | _ :: _, _ :: _ =>
      let counted :=
        flat_map (fun nr =>
                    filter (fun ball => Py.mem ball selected_numbers)
                           (Base.red_balls (snd nr)))
                 predictions in
      let duplicates :=
        length (filter (fun ball => (2 <=? count_occ Z.eq_dec counted ball)%nat)
                       (nodup Z.eq_dec counted)) in
      Qmin (Py.of_nat duplicates * 1.5) 9.0
  end.

Definition _calculate_ensemble_confidence (self : EnsemblePredictor)
    (predictions : list (string * Base.PredictionResult))
    (combined_scores : list (Z * Q)) (selected_numbers : list Z)
    (sample_size : nat) : Q :=
  let weighted_confidence :=
    fold_left (fun acc nr =>
                 (acc + Base.confidence (snd nr)
                        * Py.sdict_get (weights self) (fst nr) 0.0)%Q)
              predictions 0.0%Q in
  let base_avg :=
    match selected_numbers with
    | [] => 0.0%Q
    | _ :: _ =>
        Utils.np_mean
          (map (fun num => Py.dict_get combined_scores num 0.0%Q)
               selected_numbers)
    end in
  let data_factor := Qmin (Py.of_nat sample_size / 400) 1.0 in
  let agreement_bonus := _agreement_bonus predictions selected_numbers in
  let confidence :=
    (weighted_confidence + base_avg * 30.0 + data_factor * 8.0
     + agreement_bonus)%Q in
  Qmin (Qmax confidence 52.0) (Base.max_confidence (base self)).

Definition predict (self : EnsemblePredictor)
    (historical_data : list Draw.t) (dataset_size : Z)
  : Random.Rand Base.PredictionResult :=
  match historical_data with
  | [] => Base.generate_random_fallback (base self)
  | _ :: _ =>
      let data_to_analyze := Py.take dataset_size historical_data in
      let red_history := Utils.extract_red_balls data_to_analyze in
      let blue_history := Utils.extract_blue_balls data_to_analyze in
      if (length red_history <? 20)%nat
      then Base.generate_random_fallback (base self)
      else
        let base_red_scores :=
          _build_red_probability self red_history data_to_analyze in
        component_predictions <-
          _run_component_predictors data_to_analyze dataset_size ;;
        let vote_scores := _build_vote_scores self component_predictions in
        let combined_red_scores :=
          _combine_scores base_red_scores vote_scores 0.65 in
        let predicted_red :=
          _select_numbers_with_distribution combined_red_scores in
        blue <- _score_blue_candidates self blue_history component_predictions
                  data_to_analyze ;;
        let '(predicted_blue, blue_candidates) := blue in
        let confidence :=
          _calculate_ensemble_confidence self component_predictions
            combined_red_scores predicted_red (length red_history) in
        let metadata :=
          [("component_predictions",
            Base.PDict
              (map (fun nr =>
                      (fst nr,
                       Base.PDict
                         [("red_balls", Base.PInts (Base.red_balls (snd nr)));
                          ("blue_ball", Base.PInt (Base.blue_ball (snd nr)));
                          ("confidence",
                           Base.PFloat (Base.confidence (snd nr)))]))
                   component_predictions));
           ("weights",
            Base.PDict (map (fun kv => (fst kv, Base.PFloat (snd kv)))
                            (weights self)));
           ("algorithms_used", Base.PStrs (map fst component_predictions));
           ("top_candidates", _describe_top_candidates combined_red_scores 10);
           ("blue_candidates", blue_candidates);
           ("dataset_coverage", Base.PInt (Z.of_nat (length red_history)))
          ]%string in
        let result :=
          {| Base.red_balls := predicted_red;
             Base.blue_ball := predicted_blue;
             Base.confidence := confidence;
             Base.metadata := Some metadata |} in
        Base.validate_prediction (base self) result
  end.

End WithExternals.

End Ensemble.

(** ** The five generators under one operation *)

Inductive generator : Type :=
| GFrequency
| GTrend
| GForest
| GSequenceMemory
| GEnsemble (weights : option (list (string * Q))).

Definition predict {ext : Externals} (g : generator)
    (historical_data : list Draw.t) (dataset_size : Z)
  : Random.Rand Base.PredictionResult :=
  match g with
  | GFrequency => Frequency.predict historical_data dataset_size
  | GTrend => Trend.predict historical_data dataset_size
  | GForest => RandomForest.predict historical_data dataset_size
  | GSequenceMemory => LSTM.predict historical_data dataset_size
  | GEnsemble weights =>
      Ensemble.predict (Ensemble.__init__ weights) historical_data dataset_size
  end.

(** The confidence ceiling each generator is built with. *)
Definition ceiling (g : generator) : Q :=
  match g with
  | GFrequency => Base.max_confidence Frequency.self
  | GTrend => Base.max_confidence Trend.self
  | GForest => Base.max_confidence RandomForest.self
  | GSequenceMemory => Base.max_confidence LSTM.self
  | GEnsemble weights =>
      Base.max_confidence (Ensemble.base (Ensemble.__init__ weights))
  end.

(** ** Specification vocabulary *)

Module Spec.

(** The shape every result is meant to have: six distinct primary numbers
    of the pool 1..33 in strictly ascending order and a secondary number of
    the pool 1..16. *)
Definition valid_shape (r : Base.PredictionResult) : Prop :=
  length (Base.red_balls r) = 6%nat
  /\ NoDup (Base.red_balls r)
  /\ StronglySorted Z.lt (Base.red_balls r)
  /\ Forall (fun n => 1 <= n <= 33) (Base.red_balls r)
  /\ 1 <= Base.blue_ball r <= 16.

(** What the validator alone establishes: everything in [valid_shape]
    except the pool bound on primary numbers. *)
Definition validated (self : Base.LotteryPredictor)
    (r : Base.PredictionResult) : Prop :=
  length (Base.red_balls r) = 6%nat
  /\ NoDup (Base.red_balls r)
  /\ StronglySorted Z.lt (Base.red_balls r)
  /\ 1 <= Base.blue_ball r <= 16
  /\ (Base.confidence r <= Base.max_confidence self)%Q.

(** [metadata['fallback'] is True] *)
Definition fallback_flag (r : Base.PredictionResult) : bool :=
  match Base.metadata r with
  | Some d =>
      match Py.sdict_get d "fallback" (Base.PBool false) with
      | Base.PBool true => true
      | _ => false
      end
  | None => false
  end.

(** The random-fallback shape: confidence 30 and the fallback flag. *)
Definition is_fallback (r : Base.PredictionResult) : Prop :=
  (Base.confidence r == 30)%Q /\ fallback_flag r = true.

(** The string stored under [key] in the metadata, if any. *)
Definition metadata_str (r : Base.PredictionResult) (key : string)
  : option string :=
  match Base.metadata r with
  | Some d =>
      match Py.sdict_get d key (Base.PBool false) with
      | Base.PStr s => Some s
      | _ => None
      end
  | None => None
  end.

(** A well-formed historical draw: six distinct primary numbers of 1..33
    under ['red_balls'] and a secondary number of 1..16 under
    ['blue_ball']. *)
Definition well_formed (draw : Draw.t) : Prop :=
  exists red blue,
    Draw.red_balls draw = Some red /\ Draw.blue_ball draw = Some blue
    /\ length red = 6%nat /\ NoDup red
    /\ Forall (fun n => 1 <= n <= 33) red /\ 1 <= blue <= 16.

(** Position of the first element satisfying [p]. *)
Fixpoint first_index {A} (p : A -> bool) (l : list A) : option nat :=
  match l with
  | [] => None
  | x :: l' => if p x then Some O
               else option_map S (first_index p l')
  end.

(** How many of [l] fall into the band [g]. *)
Definition band_count (g : Ensemble.band) (l : list Z) : nat :=
  length (filter (fun n => Ensemble.band_eqb (Ensemble._group_for_number n) g) l).

(** A vector without negative entries. *)
Definition nonneg_vector (v : list Q) : Prop := Forall (fun x => (0 <= x)%Q) v.

(** Membership in the closed interval [0, 1]. *)
Definition unit_interval (x : Q) : Prop := (0 <= x /\ x <= 1)%Q.

(** The value min-max normalization gives to a raw score [v] of the table. *)
Definition normalized_value (values : list (Z * Q)) (v : Q) : Q :=
  let numeric_values := map snd values in
  if Qeq_bool (Py.max_list numeric_values) (Py.min_list numeric_values)
  then (1.0 / Py.of_nat (length values))%Q
  else ((v - Py.min_list numeric_values)
        / (Py.max_list numeric_values - Py.min_list numeric_values))%Q.

(** What scikit-learn guarantees of [predict_proba]: probabilities are
    not negative. *)
Definition probabilities_nonneg (ext : Externals) : Prop :=
  forall X y latest slots,
    pipeline_fit_predict X y latest = Some slots ->
    Forall (fun slot => Forall (fun cp => (0 <= snd cp)%Q) (snd slot)) slots.

(** What the sine guarantees on the quarter period: [sin (t * pi / 2)] is
    not negative for [t] in [0, 1]. *)
Definition sine_nonneg (ext : Externals) : Prop :=
  forall t, (0 <= t)%Q -> (t <= 1)%Q -> (0 <= sin_half_pi t)%Q.

End Spec.

(** The spec's reading of the overdue gap: the index of the first draw
    containing [num] when the (newest-first) history is scanned from its
    oldest draw to its newest, over the history length; 1 when never seen.
    Written from the specification's sentence, to be compared with
    [Ensemble._current_gap_scores]. *)
Module SpecReading.

Definition overdue_gap_oldest_first (historical_data : list Draw.t)
    (is_red : bool) (num : Z) : Q :=
  match Spec.first_index (fun draw => Py.mem num (Ensemble.gap_values is_red draw))
                         (rev historical_data) with
  | Some i => (Py.of_nat i / Py.of_nat (length historical_data))%Q
  | None => 1%Q
  end.

End SpecReading.

(** ** Fixtures: the sample history of [test_algorithms.py] *)

Module Fixtures.

Definition draw (red : list Z) (blue : Z) : Draw.t :=
  {| Draw.red_balls := Some red; Draw.redBalls := None;
     Draw.blue_ball := Some blue; Draw.blueBall := None |}.

Definition SAMPLE_DATA : list Draw.t :=
  [ draw [3; 12; 18; 23; 29; 31] 8;   draw [5; 11; 16; 22; 27; 32] 12;
    draw [1; 8; 15; 21; 28; 33] 6;    draw [2; 10; 17; 24; 26; 30] 14;
    draw [4; 9; 14; 20; 25; 31] 3;    draw [6; 11; 13; 19; 27; 32] 9;
    draw [3; 8; 16; 22; 28; 33] 5;    draw [1; 10; 15; 23; 29; 31] 11;
    draw [5; 12; 18; 21; 26; 30] 7;   draw [2; 9; 17; 24; 27; 32] 13;
    draw [4; 11; 14; 20; 28; 33] 2;   draw [6; 8; 13; 22; 25; 31] 10;
    draw [3; 10; 16; 19; 29; 30] 4;   draw [1; 12; 15; 23; 26; 32] 8;
    draw [5; 9; 18; 21; 27; 33] 15;   draw [2; 11; 17; 24; 28; 31] 6;
    draw [4; 8; 14; 20; 25; 30] 12;   draw [6; 10; 13; 22; 29; 32] 9;
    draw [3; 12; 16; 19; 26; 33] 1;   draw [1; 9; 15; 23; 27; 31] 14;
    draw [5; 11; 18; 21; 28; 30] 7;   draw [2; 8; 17; 24; 25; 32] 11;
    draw [4; 10; 14; 20; 29; 33] 3;   draw [6; 12; 13; 22; 26; 31] 16;
    draw [3; 9; 16; 19; 27; 30] 5;    draw [1; 11; 15; 23; 28; 32] 10;
    draw [5; 8; 18; 21; 25; 33] 2;    draw [2; 10; 17; 24; 29; 31] 13;
    draw [4; 12; 14; 20; 26; 30] 8;   draw [6; 9; 13; 22; 27; 32] 15;
    draw [3; 11; 16; 19; 28; 33] 4;   draw [1; 8; 15; 23; 25; 31] 9;
    draw [5; 10; 18; 21; 29; 30] 6;   draw [2; 12; 17; 24; 26; 32] 12;
    draw [4; 9; 14; 20; 27; 33] 1;    draw [6; 11; 13; 22; 28; 31] 14;
    draw [3; 8; 16; 19; 25; 30] 7;    draw [1; 10; 15; 23; 29; 32] 11;
    draw [5; 12; 18; 21; 26; 33] 3;   draw [2; 9; 17; 24; 27; 31] 16;
    draw [4; 11; 14; 20; 28; 30] 5;   draw [6; 8; 13; 22; 25; 32] 10;
    draw [3; 10; 16; 19; 29; 33] 2;   draw [1; 12; 15; 23; 26; 31] 13;
    draw [5; 9; 18; 21; 27; 30] 8;    draw [2; 11; 17; 24; 28; 32] 15;
    draw [4; 8; 14; 20; 25; 33] 4;    draw [6; 10; 13; 22; 29; 31] 9;
    draw [3; 12; 16; 19; 26; 30] 6;   draw [1; 9; 15; 23; 27; 32] 12 ].

(** The newest 19 draws and the newest two. *)
Definition history19 : list Draw.t := firstn 19 SAMPLE_DATA.

Definition history2 : list Draw.t := firstn 2 SAMPLE_DATA.

(** One instance of the external libraries, for evaluation: a pipeline
    whose fit always raises, the identity in place of the square root, a
    linear ramp in place of the sine, no rounding. *)
Definition plain_externals (has_sklearn : bool) : Externals :=
  {| HAS_SKLEARN := has_sklearn;
     HAS_STATSMODELS := false;
     np_sqrt := fun x => x;
     sin_half_pi := fun t => t;
     py_round := fun x _ => x;
     pipeline_fit_predict := fun _ _ _ => None |}.

(** A second instance whose pipeline fits: six slots, one of them repeating
    a class and one predicting a class outside the pool, each class with
    probability 1/2. *)
Definition fitted_externals : Externals :=
  {| HAS_SKLEARN := true;
     HAS_STATSMODELS := false;
     np_sqrt := fun x => x;
     sin_half_pi := fun t => t;
     py_round := fun x _ => x;
     pipeline_fit_predict := fun _ _ _ =>
       Some (map (fun cls => (cls, [(cls, 0.5%Q)])) [3; 3; 40; 4; 5; 6]) |}.

(** The score table that ranks the pool by number, largest first. *)
Definition descending_table : list (Z * Q) :=
  map (fun num => (num, inject_Z num)) (Py.range 1 34).

End Fixtures.

(** ** utils.py: the helpers that no generator calls *)

Module UtilsRest.

(** [appears] in the loop of [calculate_number_gaps]: [number in balls] for
    a primary number, [number == ball] for a secondary one (false when the
    draw has no secondary number). *)
Definition appears (number : Z) (is_red : bool) (draw : Draw.t) : bool :=
  if is_red then Py.mem number (Draw.get_red draw)
  else match Draw.get_blue draw with
       | Some ball => number =? ball
       | None => false
       end.

(** The loop of [calculate_number_gaps] with its two variables; the
    second component is [current_gap] when the loop ends. *)
Fixpoint gaps_loop (number : Z) (is_red : bool) (draws : list Draw.t)
    (gaps : list Z) (current_gap : Z) : list Z * Z :=
  match draws with
  | [] => (gaps, current_gap)
  | draw :: rest =>
      if appears number is_red draw
      then gaps_loop number is_red rest (gaps ++ [current_gap]) 0
      else gaps_loop number is_red rest gaps (current_gap + 1)
  end.

Definition calculate_number_gaps (historical_data : list Draw.t) (number : Z)
    (is_red : bool) : list Z :=
  fst (gaps_loop number is_red historical_data [] 0).

(** [create_feature_matrix]; [lookback] is a count.  The rows of the array
    are lists, and without enough draws the empty array is the empty list
    of rows. *)
Definition create_feature_matrix (red_balls_history : list (list Z))
    (lookback : nat) : list (list Q) * list (list Z) :=
  if (length red_balls_history <? lookback + 1)%nat then ([], [])
  else
    let rows := seq 0 (length red_balls_history - lookback) in
    (map (fun i =>
            flat_map (fun j =>
                        RandomForest.one_hot 33 (nth (i + j) red_balls_history []))
                     (seq 0 lookback))
         rows,
     map (fun i => nth (i + lookback) red_balls_history []) rows).

End UtilsRest.

(** ** Further vocabulary *)

Module Notions.

(** How often [num] occurs among the primary numbers of the usable draws
    of the analysis window. *)
Definition red_count (historical_data : list Draw.t) (dataset_size : Z)
    (num : Z) : nat :=
  count_occ Z.eq_dec
    (concat (Utils.extract_red_balls (Py.take dataset_size historical_data)))
    num.

(** What a stable sort establishes between an element [a] and a later
    element [b]: [b] did not have to come before [a], and where neither had
    to come before the other they kept the order [earlier] of the input. *)
Definition ordered_by {A} (before : A -> A -> bool)
    (earlier : A -> A -> Prop) (a b : A) : Prop :=
  before b a = false /\ (before a b = false -> earlier a b).

End Notions.

(** * Properties *)

(** ** Lists, sorting and ranges *)

Section ListFacts.

Context {A : Type}.

Lemma insert_by_perm (before : A -> A -> bool) (x : A) (l : list A) :
  Permutation (Py.insert_by before x l) (x :: l).
Proof.
  induction l as [|y l IH]; simpl; [reflexivity|].
  destruct (before y x); [|reflexivity].
  rewrite IH. apply perm_swap.
Qed.

Lemma stable_sort_perm (before : A -> A -> bool) (l : list A) :
  Permutation (Py.stable_sort before l) l.
Proof.
  induction l as [|x l IH]; simpl; [constructor|].
  rewrite insert_by_perm. now constructor.
Qed.

Lemma stable_sort_length (before : A -> A -> bool) (l : list A) :
  length (Py.stable_sort before l) = length l.
Proof. apply Permutation_length, stable_sort_perm. Qed.

Lemma stable_sort_In (before : A -> A -> bool) (l : list A) (x : A) :
  In x (Py.stable_sort before l) <-> In x l.
Proof.
  split; apply Permutation_in;
    [apply stable_sort_perm | symmetry; apply stable_sort_perm].
Qed.

Lemma nth_split_at (d : A) (l : list A) (i : nat) :
  (i < length l)%nat -> l = firstn i l ++ nth i l d :: skipn (S i) l.
Proof.
  revert i. induction l as [|x l IH]; intros [|i] H; simpl in *;
    try lia; [reflexivity|].
  f_equal. apply IH. lia.
Qed.

Lemma firstn_incl (n : nat) (l : list A) : incl (firstn n l) l.
Proof.
  intros x Hx. rewrite <- (firstn_skipn n l). apply in_or_app. now left.
Qed.

Lemma skipn_incl (n : nat) (l : list A) : incl (skipn n l) l.
Proof.
  intros x Hx. rewrite <- (firstn_skipn n l). apply in_or_app. now right.
Qed.

Lemma firstn_NoDup (n : nat) (l : list A) : NoDup l -> NoDup (firstn n l).
Proof.
  intros H. rewrite <- (firstn_skipn n l) in H.
  now apply NoDup_app_remove_r in H.
Qed.

End ListFacts.

Lemma sorted_perm (l : list Z) : Permutation (Py.sorted l) l.
Proof. apply stable_sort_perm. Qed.

Lemma sorted_In (l : list Z) (x : Z) : In x (Py.sorted l) <-> In x l.
Proof. apply stable_sort_In. Qed.

Lemma sorted_length (l : list Z) : length (Py.sorted l) = length l.
Proof. apply stable_sort_length. Qed.

Lemma sorted_NoDup (l : list Z) : NoDup l -> NoDup (Py.sorted l).
Proof.
  intros H. eapply Permutation_NoDup; [symmetry; apply sorted_perm|assumption].
Qed.

Lemma insert_ascending (x : Z) (l : list Z) :
  StronglySorted Z.le l -> StronglySorted Z.le (Py.insert_by Z.ltb x l).
Proof.
  induction 1 as [|y l Hs IH Hall]; simpl.
  - repeat constructor.
  - destruct (Z.ltb_spec y x) as [Hlt|Hge].
    + constructor; [assumption|].
      eapply Permutation_Forall; [symmetry; apply insert_by_perm|].
      constructor; [lia|assumption].
    + constructor; [now constructor|].
      constructor; [assumption|].
      eapply Forall_impl; [|exact Hall]. simpl; intros; lia.
Qed.

Lemma sorted_ascending (l : list Z) : StronglySorted Z.le (Py.sorted l).
Proof.
  induction l as [|x l IH]; [constructor|]. now apply insert_ascending.
Qed.

Lemma ascending_strict (l : list Z) :
  StronglySorted Z.le l -> NoDup l -> StronglySorted Z.lt l.
Proof.
  induction 1 as [|x l Hs IH Hall]; intros Hnd; [constructor|].
  inversion Hnd as [|? ? Hnotin Hnd']; subst.
  constructor; [auto|].
  rewrite Forall_forall in *. intros y Hy.
  specialize (Hall y Hy). assert (x <> y) by (intros ->; contradiction). lia.
Qed.

Lemma sorted_strict (l : list Z) : NoDup l -> StronglySorted Z.lt (Py.sorted l).
Proof.
  intros H. apply ascending_strict; [apply sorted_ascending|now apply sorted_NoDup].
Qed.

Lemma sorted_fixed (l : list Z) : StronglySorted Z.lt l -> Py.sorted l = l.
Proof.
  induction 1 as [|x l Hs IH Hall]; [reflexivity|].
  unfold Py.sorted in *. simpl. rewrite IH.
  destruct l as [|y l]; [reflexivity|]. simpl.
  inversion Hall as [|? ? Hxy _]; subst.
  destruct (Z.ltb_spec y x); [lia|reflexivity].
Qed.

Lemma strict_firstn (n : nat) (l : list Z) :
  StronglySorted Z.lt l -> StronglySorted Z.lt (firstn n l).
Proof.
  intros H. revert n. induction H as [|x l Hs IH Hall]; intros [|n]; simpl;
    try constructor; auto.
  rewrite Forall_forall in *. intros y Hy. apply Hall.
  now apply (firstn_incl n l).
Qed.

Lemma range_In (a b x : Z) : In x (Py.range a b) <-> a <= x < b.
Proof.
  unfold Py.range. rewrite in_map_iff. split.
  - intros (i & <- & Hi). apply in_seq in Hi. lia.
  - intros H. exists (Z.to_nat (x - a)). split; [lia|].
    apply in_seq. lia.
Qed.

Lemma range_NoDup (a b : Z) : NoDup (Py.range a b).
Proof.
  unfold Py.range. apply Injective_map_NoDup; [|apply seq_NoDup].
  intros i j H. lia.
Qed.

Lemma range_length (a b : Z) : length (Py.range a b) = Z.to_nat (b - a).
Proof. unfold Py.range. now rewrite length_map, length_seq. Qed.

Lemma mem_true (x : Z) (l : list Z) : Py.mem x l = true <-> In x l.
Proof. unfold Py.mem. destruct (in_dec Z.eq_dec x l); intuition congruence. Qed.

Lemma mem_false (x : Z) (l : list Z) : Py.mem x l = false <-> ~ In x l.
Proof. unfold Py.mem. destruct (in_dec Z.eq_dec x l); intuition congruence. Qed.

(** ** The random module *)

Lemma randint_range (a b : Z) (s : Random.rng) :
  a <= b -> a <= fst (Random.randint a b s) <= b.
Proof.
  intros Hab. unfold Random.randint, Random.bind, Random.ret.
  destruct (Random.next s) as [n s1]. simpl.
  pose proof (Z.mod_pos_bound (Z.of_nat n) (b - a + 1)). lia.
Qed.

Lemma sample_step (p : Z) (rest_population : list Z) (k : nat)
    (s : Random.rng) :
  Random.sample (p :: rest_population) (S k) s =
  let population := p :: rest_population in
  let (n, s1) := Random.next s in
  let i := (n mod length population)%nat in
  let (rest, s2) :=
    Random.sample (firstn i population ++ skipn (S i) population) k s1 in
  (nth i population 0 :: rest, s2).
Proof.
  simpl. unfold Random.bind, Random.ret.
  destruct (Random.next s) as [n s1].
  now destruct (Random.sample _ k s1).
Qed.

Lemma sample_spec (k : nat) :
  forall (population : list Z) (s : Random.rng),
    let picked := fst (Random.sample population k s) in
    incl picked population
    /\ (NoDup population -> NoDup picked)
    /\ length picked = Nat.min k (length population).
Proof.
  induction k as [|k IH]; intros population s.
  - simpl. repeat split; [intros x []|constructor].
  - destruct population as [|p population'].
    + simpl. repeat split; [intros x []|constructor].
    + rewrite sample_step.
      remember (p :: population') as population eqn:Epop.
      cbv zeta.
      destruct (Random.next s) as [n s1].
      set (i := (n mod length population)%nat).
      assert (Hi : (i < length population)%nat).
      { apply Nat.mod_upper_bound. subst population. simpl. lia. }
      set (others := firstn i population ++ skipn (S i) population).
      specialize (IH others s1).
      destruct (Random.sample others k s1) as [rest s2].
      cbv zeta in IH. cbn [fst] in *.
      destruct IH as (Hincl & Hnd & Hlen).
      pose proof (nth_split_at 0 population i Hi) as Hsplit.
      assert (Hothers : incl others population).
      { intros x Hx. unfold others in Hx. apply in_app_or in Hx.
        destruct Hx as [Hx|Hx].
        - now apply (firstn_incl i population).
        - now apply (skipn_incl (S i) population). }
      repeat split.
      * intros x [<-|Hx]; [now apply nth_In|auto].
      * intros Hpop. rewrite Hsplit in Hpop.
        pose proof (NoDup_remove_1 _ _ _ Hpop).
        pose proof (NoDup_remove_2 _ _ _ Hpop).
        constructor; auto.
      * cbn [length]. rewrite Hlen. unfold others.
        rewrite length_app, length_firstn, length_skipn.
        destruct (length population); lia.
Qed.

Lemma shuffle_spec (l : list Z) (s : Random.rng) :
  let shuffled := fst (Random.shuffle l s) in
  incl shuffled l /\ (NoDup l -> NoDup shuffled) /\ length shuffled = length l.
Proof.
  unfold Random.shuffle. destruct (sample_spec (length l) l s) as (H1 & H2 & H3).
  repeat split; auto. simpl. rewrite H3. lia.
Qed.

Lemma choice_In (l : list Z) (s : Random.rng) :
  l <> [] -> In (fst (Random.choice l s)) l.
Proof.
  intros Hl. unfold Random.choice, Random.bind, Random.ret.
  destruct (Random.next s) as [n s1]. simpl.
  apply nth_In. apply Nat.mod_upper_bound. destruct l; simpl; congruence.
Qed.

(** Every outcome of [random.sample] and [random.randint] is produced by
    some entropy source. *)
Lemma sample_reaches (target : list Z) :
  forall population : list Z,
    NoDup target -> incl target population ->
    exists s : Random.rng,
      forall rest : Random.rng,
        Random.sample population (length target) (s ++ rest) = (target, rest).
Proof.
  induction target as [|x target IH]; intros population Hnd Hincl.
  - exists []. intros rest. reflexivity.
  - assert (Hx : In x population) by (apply Hincl; now left).
    destruct (In_nth population x 0 Hx) as (i & Hi & Ei).
    pose proof (nth_split_at 0 population i Hi) as Hsplit.
    set (others := firstn i population ++ skipn (S i) population).
    apply NoDup_cons_iff in Hnd. destruct Hnd as [Hnotin Hnd'].
    assert (Hothers : incl target others).
    { intros y Hy.
      assert (Hyp : In y population) by (apply Hincl; now right).
      rewrite Hsplit in Hyp. apply in_app_or in Hyp. unfold others.
      apply in_or_app. destruct Hyp as [Hyp|[Hyp|Hyp]]; [now left| |now right].
      rewrite Ei in Hyp. rewrite <- Hyp in Hy. contradiction. }
    destruct (IH others Hnd' Hothers) as (s & Hs).
    exists (i :: s). intros rest.
    destruct population as [|p population']; [destruct Hx|].
    cbn [length]. rewrite sample_step. cbv zeta.
    cbn [app Random.next].
    rewrite (Nat.mod_small i (length (p :: population'))) by exact Hi.
    fold others. rewrite (Hs rest), Ei. reflexivity.
Qed.

Lemma randint_reaches (a b v : Z) (rest : Random.rng) :
  a <= v <= b -> Random.randint a b (Z.to_nat (v - a) :: rest) = (v, rest).
Proof.
  intros Hv. unfold Random.randint, Random.bind, Random.ret, Random.next.
  rewrite Z2Nat.id, Z.mod_small by lia. f_equal. lia.
Qed.

(** ** base.py: the validator and the random fallback *)

Lemma strict_NoDup (l : list Z) : StronglySorted Z.lt l -> NoDup l.
Proof.
  induction 1 as [|x l Hs IH Hall]; constructor; [|exact IH].
  intros Hin. rewrite Forall_forall in Hall. specialize (Hall x Hin). lia.
Qed.

Lemma complement_length (used : list Z) :
  (33 - length used <=
   length (filter (fun n => negb (Py.mem n used)) (Py.range 1 34)))%nat.
Proof.
  pose proof (filter_length (fun n => negb (Py.mem n used)) (Py.range 1 34)) as H.
  rewrite range_length in H. change (Z.to_nat (34 - 1)) with 33%nat in H.
  assert (length (filter (fun x => negb (negb (Py.mem x used))) (Py.range 1 34))
          <= length used)%nat.
  { apply NoDup_incl_length.
    - apply NoDup_filter, range_NoDup.
    - intros x Hx. apply filter_In in Hx. destruct Hx as [_ Hx].
      rewrite negb_involutive in Hx. now apply mem_true. }
  lia.
Qed.

Lemma validate_spec (self : Base.LotteryPredictor)
    (result : Base.PredictionResult) (s : Random.rng) :
  exists red blue s',
    Base.validate_prediction self result s =
      ({| Base.red_balls := red;
          Base.blue_ball := blue;
          Base.confidence :=
            Qmin (Base.confidence result) (Base.max_confidence self);
          Base.metadata := Base.metadata result |}, s')
    /\ length red = 6%nat /\ NoDup red /\ StronglySorted Z.lt red
    /\ (forall n, In n red -> In n (Base.red_balls result) \/ 1 <= n <= 33)
    /\ 1 <= blue <= 16
    /\ (1 <= Base.blue_ball result <= 16 -> blue = Base.blue_ball result).
Proof.
  unfold Base.validate_prediction.
  set (red := Py.sorted (Py.set (Base.red_balls result))).
  assert (Hnd : NoDup red) by (apply sorted_NoDup, NoDup_nodup).
  assert (Hst : StronglySorted Z.lt red) by (apply sorted_strict, NoDup_nodup).
  assert (Hin : forall n, In n red -> In n (Base.red_balls result)).
  { intros n Hn. unfold red, Py.set in Hn.
    apply (proj1 (sorted_In _ _)) in Hn. now apply (proj1 (nodup_In _ _ _)) in Hn. }
  match goal with |- context [Random.bind ?m _] =>
    assert (Hred : exists red' s1, m s = (red', s1)
              /\ length red' = 6%nat /\ NoDup red' /\ StronglySorted Z.lt red'
              /\ (forall n, In n red' ->
                            In n (Base.red_balls result) \/ 1 <= n <= 33))
  end.
  { destruct (length red <? 6)%nat eqn:Hlt.
    - apply Nat.ltb_lt in Hlt.
      set (available := filter (fun n => negb (Py.mem n red)) (Py.range 1 34)).
      destruct (shuffle_spec available s) as (Hincl & Hsnd & Hslen).
      unfold Random.bind, Random.ret.
      destruct (Random.shuffle available s) as [shuffled s1].
      cbn [fst] in Hincl, Hsnd, Hslen.
      set (taken := firstn (6 - length red) shuffled).
      assert (Htin : forall n, In n taken -> In n available).
      { intros n Hn. apply Hincl. now apply (firstn_incl (6 - length red)). }
      assert (Htnd : NoDup taken).
      { apply firstn_NoDup, Hsnd, NoDup_filter, range_NoDup. }
      assert (Htlen : length taken = (6 - length red)%nat).
      { unfold taken. apply firstn_length_le. rewrite Hslen.
        pose proof (complement_length red) as H. fold available in H. lia. }
      assert (Hall : NoDup (red ++ taken)).
      { apply NoDup_app; auto. intros n Hr Ht.
        apply Htin in Ht. apply filter_In in Ht. destruct Ht as [_ Ht].
        apply negb_true_iff, mem_false in Ht. contradiction. }
      eexists _, _. split; [reflexivity|]. repeat split.
      + rewrite sorted_length, length_app. lia.
      + now apply sorted_NoDup.
      + now apply sorted_strict.
      + intros n Hn. apply (proj1 (sorted_In _ _)) in Hn. apply in_app_or in Hn.
        destruct Hn as [Hn|Hn]; [left; auto|right].
        apply Htin in Hn. apply filter_In in Hn. destruct Hn as [Hn _].
        apply range_In in Hn. lia.
    - apply Nat.ltb_ge in Hlt.
      destruct (6 <? length red)%nat eqn:Hgt; unfold Random.ret;
        eexists _, _; (split; [reflexivity|]).
      + apply Nat.ltb_lt in Hgt. repeat split.
        * apply firstn_length_le. lia.
        * now apply firstn_NoDup.
        * now apply strict_firstn.
        * intros n Hn. left. apply Hin. now apply (firstn_incl 6).
      + apply Nat.ltb_ge in Hgt. repeat split; auto. lia. }
  destruct Hred as (red' & s1 & Ered & Hlen & Hnd' & Hst' & Hin').
  unfold Random.bind at 1. rewrite Ered.
  unfold Random.bind, Random.ret.
  destruct ((Base.blue_ball result <? 1) || (16 <? Base.blue_ball result))
    eqn:Hout.
  - pose proof (randint_range 1 16 s1 ltac:(lia)) as Hb.
    destruct (Random.randint 1 16 s1) as [blue s2]. cbn [fst] in Hb.
    apply orb_true_iff in Hout. rewrite !Z.ltb_lt in Hout.
    exists red', blue, s2. repeat split; auto; lia.
  - apply orb_false_iff in Hout. rewrite !Z.ltb_ge in Hout.
    exists red', (Base.blue_ball result), s1. repeat split; auto; lia.
Qed.

Lemma validate_validated (self : Base.LotteryPredictor)
    (result : Base.PredictionResult) (s : Random.rng) :
  Spec.validated self (fst (Base.validate_prediction self result s)).
Proof.
  destruct (validate_spec self result s)
    as (red & blue & s' & E & Hlen & Hnd & Hst & _ & Hblue & _).
  rewrite E. unfold Spec.validated. cbn [fst Base.red_balls Base.blue_ball Base.confidence].
  repeat split; auto; try lia. apply Q.le_min_r.
Qed.

Lemma validate_valid_shape (self : Base.LotteryPredictor)
    (result : Base.PredictionResult) (s : Random.rng) :
  Forall (fun n => 1 <= n <= 33) (Base.red_balls result) ->
  Spec.valid_shape (fst (Base.validate_prediction self result s)).
Proof.
  intros Hrange.
  destruct (validate_spec self result s)
    as (red & blue & s' & E & Hlen & Hnd & Hst & Hin & Hblue & _).
  rewrite E. unfold Spec.valid_shape. cbn [fst Base.red_balls Base.blue_ball].
  repeat split; auto; try lia.
  apply Forall_forall. intros n Hn. destruct (Hin n Hn) as [H|H]; [|exact H].
  rewrite Forall_forall in Hrange. now apply Hrange.
Qed.

Lemma validate_metadata (self : Base.LotteryPredictor)
    (result : Base.PredictionResult) (s : Random.rng) :
  Base.metadata (fst (Base.validate_prediction self result s)) =
  Base.metadata result.
Proof.
  destruct (validate_spec self result s) as (red & blue & s' & E & _).
  now rewrite E.
Qed.

Lemma validate_confidence (self : Base.LotteryPredictor)
    (result : Base.PredictionResult) (s : Random.rng) :
  Base.confidence (fst (Base.validate_prediction self result s)) =
  Qmin (Base.confidence result) (Base.max_confidence self).
Proof.
  destruct (validate_spec self result s) as (red & blue & s' & E & _).
  now rewrite E.
Qed.

(** A result that already has the full shape passes the validator
    unchanged, whatever the entropy source. *)
Lemma validate_deterministic (self : Base.LotteryPredictor)
    (result : Base.PredictionResult) (s : Random.rng) :
  length (Base.red_balls result) = 6%nat ->
  NoDup (Base.red_balls result) ->
  1 <= Base.blue_ball result <= 16 ->
  fst (Base.validate_prediction self result s) =
  {| Base.red_balls := Py.sorted (Base.red_balls result);
     Base.blue_ball := Base.blue_ball result;
     Base.confidence := Qmin (Base.confidence result) (Base.max_confidence self);
     Base.metadata := Base.metadata result |}.
Proof.
  intros Hlen Hnd Hblue. unfold Base.validate_prediction.
  assert (Hset : Py.set (Base.red_balls result) = Base.red_balls result)
    by (now apply nodup_fixed_point).
  rewrite Hset, sorted_length, Hlen. cbn [Nat.ltb Nat.leb].
  assert (Hb : (Base.blue_ball result <? 1) || (16 <? Base.blue_ball result) = false).
  { apply orb_false_iff. rewrite !Z.ltb_ge. lia. }
  rewrite Hb. reflexivity.
Qed.

Lemma fallback_spec (self : Base.LotteryPredictor) (s : Random.rng) :
  let r := fst (Base.generate_random_fallback self s) in
  Spec.valid_shape r
  /\ Base.confidence r = 30.0%Q
  /\ Base.metadata r = Some [("fallback"%string, Base.PBool true)].
Proof.
  unfold Base.generate_random_fallback, Random.bind, Random.ret.
  destruct (sample_spec 6 (Py.range 1 34) s) as (Hincl & Hnd & Hlen).
  destruct (Random.sample (Py.range 1 34) 6 s) as [picked s1].
  cbn [fst] in Hincl, Hnd, Hlen.
  pose proof (randint_range 1 16 s1 ltac:(lia)) as Hb.
  destruct (Random.randint 1 16 s1) as [blue s2]. cbn [fst] in Hb.
  cbv zeta. cbn [fst]. repeat split; cbn [Base.red_balls Base.blue_ball]; try lia.
  - rewrite sorted_length, Hlen, range_length. reflexivity.
  - apply sorted_NoDup, Hnd, range_NoDup.
  - apply sorted_strict, Hnd, range_NoDup.
  - apply Forall_forall. intros n Hn. apply (proj1 (sorted_In _ _)) in Hn.
    apply Hincl, range_In in Hn. lia.
Qed.

Lemma fallback_is_fallback (self : Base.LotteryPredictor) (s : Random.rng) :
  Spec.is_fallback (fst (Base.generate_random_fallback self s)).
Proof.
  destruct (fallback_spec self s) as (_ & Hc & Hm).
  unfold Spec.is_fallback, Spec.fallback_flag. rewrite Hc, Hm.
  split; reflexivity.
Qed.

(** The numbers of the random fallback are the draws of the entropy
    source: a sample of six from 1..33, sorted, and then one draw from
    1..16. *)
Lemma fallback_numbers (self : Base.LotteryPredictor) (s : Random.rng) :
  let r := fst (Base.generate_random_fallback self s) in
  let picked := Random.sample (Py.range 1 34) 6 s in
  Base.red_balls r = Py.sorted (fst picked)
  /\ Base.blue_ball r = fst (Random.randint 1 16 (snd picked)).
Proof.
  cbv zeta. unfold Base.generate_random_fallback, Random.bind, Random.ret.
  destruct (Random.sample (Py.range 1 34) 6 s) as [picked s1].
  cbn [fst snd].
  destruct (Random.randint 1 16 s1) as [blue s2]. split; reflexivity.
Qed.

(** Every combination of the pool is a possible fallback. *)
Lemma fallback_reaches (self : Base.LotteryPredictor) (red : list Z)
    (blue : Z) :
  length red = 6%nat -> StronglySorted Z.lt red ->
  Forall (fun n => 1 <= n <= 33) red -> 1 <= blue <= 16 ->
  exists s : Random.rng,
    Base.red_balls (fst (Base.generate_random_fallback self s)) = red
    /\ Base.blue_ball (fst (Base.generate_random_fallback self s)) = blue.
Proof.
  intros Hlen Hst Hpool Hblue.
  assert (Hincl : incl red (Py.range 1 34)).
  { intros n Hn. rewrite Forall_forall in Hpool. apply range_In.
    specialize (Hpool n Hn). lia. }
  destruct (sample_reaches red (Py.range 1 34) (strict_NoDup red Hst) Hincl)
    as (s & Hs).
  rewrite Hlen in Hs.
  exists (s ++ [Z.to_nat (blue - 1)]).
  destruct (fallback_numbers self (s ++ [Z.to_nat (blue - 1)])) as [Hr Hb].
  cbv zeta in Hr, Hb. rewrite Hr, Hb, Hs. cbn [fst snd].
  rewrite (sorted_fixed red Hst), (randint_reaches 1 16 blue [] Hblue).
  split; reflexivity.
Qed.

(** With at most six distinct values every input value is returned. *)
Lemma validate_keeps_input (self : Base.LotteryPredictor)
    (result : Base.PredictionResult) (s : Random.rng) (n : Z) :
  (length (Py.set (Base.red_balls result)) <= 6)%nat ->
  In n (Base.red_balls result) ->
  In n (Base.red_balls (fst (Base.validate_prediction self result s))).
Proof.
  intros Hle Hn.
  assert (Hin : In n (Py.sorted (Py.set (Base.red_balls result)))).
  { apply sorted_In. unfold Py.set. apply nodup_In. exact Hn. }
  unfold Base.validate_prediction.
  set (red := Py.sorted (Py.set (Base.red_balls result))) in *.
  assert (Hlen : length red = length (Py.set (Base.red_balls result)))
    by apply sorted_length.
  unfold Random.bind, Random.ret.
  destruct (length red <? 6)%nat eqn:Hlt.
  - destruct (Random.shuffle _ s) as [shuffled s1].
    match goal with
    | |- context [(if ?c then ?a else ?b) s1] =>
        destruct ((if c then a else b) s1) as [blue s2]
    end.
    cbn [fst Base.red_balls]. apply sorted_In, in_or_app. now left.
  - apply Nat.ltb_ge in Hlt.
    assert (Hgt : (6 <? length red)%nat = false) by (apply Nat.ltb_ge; lia).
    rewrite Hgt.
    match goal with
    | |- context [(if ?c then ?a else ?b) s] =>
        destruct ((if c then a else b) s) as [blue s2]
    end.
    cbn [fst Base.red_balls]. exact Hin.
Qed.

(** The cap on rationals is the same conditional as Python's [min]. *)
Lemma qmin_is_python_min (confidence max_confidence : Q) :
  Qmin confidence max_confidence =
  if Py.Qltb max_confidence confidence then max_confidence else confidence.
Proof.
  unfold Qmin, GenericMinMax.gmin, Py.Qltb.
  destruct (Qle_bool confidence max_confidence) eqn:E.
  - apply Qle_bool_iff in E. cbn [negb].
    destruct (confidence ?= max_confidence)%Q eqn:Ec; try reflexivity.
    apply Qgt_alt in Ec. lra.
  - cbn [negb].
    destruct (confidence ?= max_confidence)%Q eqn:Ec; try reflexivity.
    + apply Qeq_alt in Ec. assert (H : (confidence <= max_confidence)%Q) by lra.
      apply Qle_bool_iff in H. congruence.
    + apply Qlt_alt in Ec. assert (H : (confidence <= max_confidence)%Q) by lra.
      apply Qle_bool_iff in H. congruence.
Qed.

(** *** The cap on binary64 values *)

Section Binary64.

Import SpecFloat PrimFloat FloatOps FloatAxioms.

Lemma SFcompare_antisym (x y : spec_float) :
  SFcompare y x = option_map CompOpp (SFcompare x y).
Proof.
  destruct x as [sx|sx| |sx mx ex], y as [sy|sy| |sy my ey];
    try destruct sx; try destruct sy; cbn [SFcompare option_map CompOpp];
    try reflexivity;
    rewrite (Z.compare_antisym ex ey);
    destruct (ex ?= ey)%Z; cbn [CompOpp]; try reflexivity;
    change (PosDef.Pos.compare_cont Eq ?a ?b) with (Pos.compare a b);
    rewrite (Pos.compare_antisym mx my);
    destruct (mx ?= my)%positive; reflexivity.
Qed.

Lemma SFcompare_number (x y : float) :
  is_nan x = false -> is_nan y = false ->
  exists c, SFcompare (Prim2SF x) (Prim2SF y) = Some c.
Proof.
  unfold is_nan. rewrite !negb_false_iff, !eqb_spec. unfold SFeqb.
  intros Hx Hy.
  destruct (Prim2SF x) as [sx|sx| |sx mx ex]; try discriminate;
    destruct (Prim2SF y) as [sy|sy| |sy my ey]; try discriminate;
    cbn [SFcompare]; eexists; reflexivity.
Qed.

(** A confidence that is a number, finite or not, is capped. *)
Lemma capped_confidence_le (confidence max_confidence : float) :
  is_nan confidence = false -> is_nan max_confidence = false ->
  leb (Base.capped_confidence confidence max_confidence) max_confidence = true.
Proof.
  intros Hc Hm. unfold Base.capped_confidence.
  destruct (ltb max_confidence confidence) eqn:E.
  - unfold is_nan in Hm. rewrite negb_false_iff, eqb_spec in Hm.
    rewrite leb_spec. unfold SFeqb in Hm. unfold SFleb.
    destruct (SFcompare (Prim2SF max_confidence) (Prim2SF max_confidence))
      as [[| |]|]; try discriminate. reflexivity.
  - rewrite ltb_spec in E. rewrite leb_spec. unfold SFltb in E. unfold SFleb.
    destruct (SFcompare_number max_confidence confidence Hm Hc) as (c & Ec).
    rewrite (SFcompare_antisym (Prim2SF max_confidence) (Prim2SF confidence)).
    rewrite Ec in *. destruct c; try discriminate; reflexivity.
Qed.

(** C10 as stated fails for a confidence that is not a number: every
    comparison with NaN is false, so [min] keeps the NaN, and NaN is not at
    most the ceiling. *)
Lemma nan_confidence_is_not_capped :
  Base.capped_confidence nan 75%float = nan
  /\ leb (Base.capped_confidence nan 75%float) 75%float = false.
Proof. split; reflexivity. Qed.

End Binary64.

(** C10 (as amended).  For every input result whose confidence is a number,
    whatever primary list and secondary number it carries,
    [validate_prediction] returns (it is a total function: nothing raises)
    a result with exactly six distinct primary numbers in strictly
    ascending order, a secondary number within 1..16 and a confidence of at
    most the generator's ceiling; on doubles the cap holds for every
    confidence that is not NaN, the infinities included.  It does not force
    primary numbers into 1..33: when the input has at most six distinct
    values every one of them is returned, in the pool or not, so 100
    survives from [[100; 1; 2; 3; 4; 5]] whatever the entropy source. *)
Theorem validate_prediction_shape_without_pool_bound :
  (forall (self : Base.LotteryPredictor) (result : Base.PredictionResult)
          (s : Random.rng),
      Spec.validated self (fst (Base.validate_prediction self result s)))
  /\ (forall confidence max_confidence : PrimFloat.float,
         PrimFloat.is_nan confidence = false ->
         PrimFloat.is_nan max_confidence = false ->
         PrimFloat.leb (Base.capped_confidence confidence max_confidence)
                       max_confidence = true)
  /\ (forall (self : Base.LotteryPredictor) (result : Base.PredictionResult)
             (s : Random.rng) (n : Z),
         (length (Py.set (Base.red_balls result)) <= 6)%nat ->
         In n (Base.red_balls result) ->
         In n (Base.red_balls (fst (Base.validate_prediction self result s))))
  /\ (forall (self : Base.LotteryPredictor) (s : Random.rng),
         In 100 (Base.red_balls
                   (fst (Base.validate_prediction self
                           {| Base.red_balls := [100; 1; 2; 3; 4; 5];
                              Base.blue_ball := 7;
                              Base.confidence := 50;
                              Base.metadata := None |} s)))).
Proof.
  split; [exact validate_validated|].
  split; [exact capped_confidence_le|].
  split; [exact validate_keeps_input|].
  intros self s. apply validate_keeps_input.
  - vm_compute. lia.
  - now left.
Qed.

(** ** Score tables and top-k selection *)

Lemma top_keys {V} (before : Z * V -> Z * V -> bool) (items : list (Z * V))
    (k : nat) :
  let top := map fst (firstn k (Py.stable_sort before items)) in
  incl top (map fst items)
  /\ (NoDup (map fst items) -> NoDup top)
  /\ length top = Nat.min k (length items).
Proof.
  cbv zeta. rewrite <- firstn_map. repeat split.
  - intros n Hn. apply (firstn_incl k) in Hn.
    eapply Permutation_in; [|exact Hn].
    apply Permutation_map, stable_sort_perm.
  - intros Hnd. apply firstn_NoDup.
    eapply Permutation_NoDup; [|exact Hnd].
    symmetry. apply Permutation_map, stable_sort_perm.
  - now rewrite length_firstn, length_map, stable_sort_length.
Qed.

Lemma calculate_frequency_keys (numbers : list Z) (range_max : Z) :
  map fst (Utils.calculate_frequency numbers range_max) =
  Py.range 1 (range_max + 1).
Proof.
  unfold Utils.calculate_frequency. rewrite map_map. apply map_id.
Qed.

Lemma calculate_frequency_length (numbers : list Z) (range_max : Z) :
  length (Utils.calculate_frequency numbers range_max) = Z.to_nat range_max.
Proof.
  unfold Utils.calculate_frequency. rewrite length_map, range_length.
  f_equal. lia.
Qed.

(** The six most frequent numbers, sorted: the prediction of the frequency
    generator and of the forest generator's degraded path. *)
Lemma top6_frequency_shape (numbers : list Z) :
  let top :=
    Py.sorted
      (map fst (firstn 6 (Py.sorted_by_count_desc
                            (Utils.calculate_frequency numbers 33)))) in
  length top = 6%nat /\ NoDup top /\ StronglySorted Z.lt top
  /\ Forall (fun n => 1 <= n <= 33) top.
Proof.
  cbv zeta. unfold Py.sorted_by_count_desc.
  destruct (top_keys (fun y x : Z * Z => snd x <? snd y)
                     (Utils.calculate_frequency numbers 33) 6)
    as (Hincl & Hnd & Hlen).
  rewrite calculate_frequency_keys in Hincl, Hnd.
  rewrite calculate_frequency_length in Hlen.
  specialize (Hnd (range_NoDup _ _)).
  repeat split.
  - now rewrite sorted_length, Hlen.
  - now apply sorted_NoDup.
  - now apply sorted_strict.
  - apply Forall_forall. intros n Hn. apply (proj1 (sorted_In _ _)) in Hn.
    apply Hincl, range_In in Hn. lia.
Qed.

Lemma max_key_In (d : list (Z * Q)) :
  d <> [] -> In (Py.max_key d) (map fst d).
Proof.
  destruct d as [|kv d]; [congruence|intros _].
  unfold Py.max_key. apply in_map.
  assert (H : forall (l : list (Z * Q)) (best : Z * Q), In (fold_left
             (fun best x => if Py.Qltb (snd best) (snd x) then x else best)
             l best) (best :: l)).
  { induction l as [|x l IH]; intros best; simpl; [now left|].
    destruct (IH (if Py.Qltb (snd best) (snd x) then x else best)) as [H|H].
    - destruct (Py.Qltb (snd best) (snd x)); rewrite <- H; auto.
    - auto. }
  apply H.
Qed.

(** ** frequency.py *)

Lemma frequency_blue_head (blue_balls_list : list Z) :
  exists kv rest,
    Py.sorted_by_count_desc (Utils.calculate_frequency blue_balls_list 16)
    = kv :: rest
    /\ 1 <= fst kv <= 16.
Proof.
  destruct (Py.sorted_by_count_desc (Utils.calculate_frequency blue_balls_list 16))
    as [|kv rest] eqn:E.
  - apply (f_equal (@length _)) in E. unfold Py.sorted_by_count_desc in E.
    rewrite stable_sort_length, calculate_frequency_length in E. discriminate.
  - exists kv, rest. split; [reflexivity|].
    assert (Hin : In (fst kv) (map fst (Utils.calculate_frequency blue_balls_list 16))).
    { apply in_map. unfold Py.sorted_by_count_desc in E.
      apply (stable_sort_In (fun y x : Z * Z => snd x <? snd y)).
      rewrite E. now left. }
    rewrite calculate_frequency_keys in Hin. apply range_In in Hin. lia.
Qed.

(** The result of the frequency generator off its fallback path, as a
    closed expression in which no entropy is consumed. *)
Lemma frequency_predict_eq (historical_data : list Draw.t) (dataset_size : Z)
    (s : Random.rng) :
  historical_data <> [] ->
  Utils.extract_red_balls (Py.take dataset_size historical_data) <> [] ->
  exists blue confidence metadata,
    1 <= blue <= 16
    /\ (forall s',
          fst (Frequency.predict historical_data dataset_size s') =
          {| Base.red_balls :=
               Py.sorted
                 (map fst
                    (firstn 6
                       (Py.sorted_by_count_desc
                          (Utils.calculate_frequency
                             (concat (Utils.extract_red_balls
                                        (Py.take dataset_size historical_data)))
                             33))));
             Base.blue_ball := blue;
             Base.confidence := Qmin confidence 75.0;
             Base.metadata := Some metadata |})
    /\ confidence =
       Utils.calculate_frequency_confidence
         (Py.sorted
            (map fst
               (firstn 6
                  (Py.sorted_by_count_desc
                     (Utils.calculate_frequency
                        (concat (Utils.extract_red_balls
                                   (Py.take dataset_size historical_data)))
                        33)))))
         (Utils.calculate_frequency
            (concat (Utils.extract_red_balls
                       (Py.take dataset_size historical_data))) 33)
    /\ Py.sdict_get metadata "fallback" (Base.PBool false) = Base.PBool false.
Proof.
  intros Hh Hred. unfold Frequency.predict.
  destruct historical_data as [|d0 h]; [congruence|]. cbv zeta.
  set (data := Py.take dataset_size (d0 :: h)) in *.
  destruct (Utils.extract_red_balls data) as [|r0 reds] eqn:Ereds; [congruence|].
  set (numbers := concat (r0 :: reds)).
  destruct (frequency_blue_head (Utils.extract_blue_balls data))
    as (kv & rest & Eblue & Hblue).
  destruct (top6_frequency_shape numbers) as (Hlen & Hnd & Hst & Hrange).
  destruct (Utils.calculate_hot_cold_numbers
              (Utils.calculate_frequency numbers 33) 0.7 0.3)
    as [[hot cold] neutral] eqn:Ehc.
  eexists (fst kv), _, _. split; [exact Hblue|]. split; [|split; [reflexivity|]].
  - intros s'. rewrite Eblue. unfold Random.bind, Random.ret.
    rewrite validate_deterministic; cbn [Base.red_balls Base.blue_ball];
      auto.
    rewrite (sorted_fixed _ Hst). reflexivity.
  - reflexivity.
Qed.

Lemma frequency_predict_shape (historical_data : list Draw.t)
    (dataset_size : Z) (s : Random.rng) :
  Spec.valid_shape (fst (Frequency.predict historical_data dataset_size s)).
Proof.
  destruct historical_data as [|d0 h] eqn:Eh.
  - apply fallback_spec.
  - rewrite <- Eh.
    destruct (Utils.extract_red_balls (Py.take dataset_size historical_data))
      as [|r0 reds] eqn:Ereds.
    + rewrite Eh in *. unfold Frequency.predict. rewrite Ereds. apply fallback_spec.
    + destruct (frequency_predict_eq historical_data dataset_size s)
        as (blue & c & m & Hblue & Heq & _); [subst; congruence|congruence|].
      rewrite Heq, Ereds.
      destruct (top6_frequency_shape (concat (r0 :: reds)))
        as (Hlen & Hnd & Hst & Hrange).
      unfold Spec.valid_shape. cbn [Base.red_balls Base.blue_ball]. auto.
Qed.

(** ** Sums and means of rationals *)

Local Open Scope Q_scope.

Lemma sum_acc (l : list Q) (acc : Q) :
  fold_left Qplus l acc == acc + Py.sum l.
Proof.
  unfold Py.sum. revert acc. induction l as [|x l IH]; intros acc; simpl.
  - ring.
  - rewrite IH, (IH (0 + x)). ring.
Qed.

Lemma sum_cons (x : Q) (l : list Q) : Py.sum (x :: l) == x + Py.sum l.
Proof. unfold Py.sum at 1. simpl. rewrite sum_acc. ring. Qed.

Lemma of_nat_S (n : nat) : Py.of_nat (S n) == Py.of_nat n + 1.
Proof.
  unfold Py.of_nat. rewrite Nat2Z.inj_succ, <- Z.add_1_r, inject_Z_plus.
  reflexivity.
Qed.

Lemma of_nat_nonneg (n : nat) : 0 <= Py.of_nat n.
Proof.
  unfold Py.of_nat. change 0 with (inject_Z 0). rewrite <- Zle_Qle. lia.
Qed.

Lemma of_nat_pos (n : nat) : (0 < n)%nat -> 0 < Py.of_nat n.
Proof.
  intros H. unfold Py.of_nat. change 0 with (inject_Z 0).
  rewrite <- Zlt_Qlt. lia.
Qed.

Lemma sum_bounds (a b : Q) (l : list Q) :
  Forall (fun x => a <= x /\ x <= b) l ->
  Py.of_nat (length l) * a <= Py.sum l /\ Py.sum l <= Py.of_nat (length l) * b.
Proof.
  induction 1 as [|x l [Hax Hxb] _ [IHa IHb]].
  - unfold Py.sum. cbn [length fold_left]. change (Py.of_nat 0) with 0. split; lra.
  - cbn [length]. rewrite sum_cons, of_nat_S. split; lra.
Qed.

Lemma mean_bounds (a b : Q) (l : list Q) :
  l <> [] -> Forall (fun x => a <= x /\ x <= b) l ->
  a <= Utils.np_mean l /\ Utils.np_mean l <= b.
Proof.
  intros Hne Hall. destruct (sum_bounds a b l Hall) as [Ha Hb].
  assert (Hpos : 0 < Py.of_nat (length l)).
  { apply of_nat_pos. destruct l; [congruence|simpl; lia]. }
  unfold Utils.np_mean. split.
  - apply Qle_shift_div_l; [assumption|]. lra.
  - apply Qle_shift_div_r; [assumption|]. lra.
Qed.

Lemma mean_lower (a : Q) (l : list Q) :
  l <> [] -> Forall (fun x => a <= x) l -> a <= Utils.np_mean l.
Proof.
  intros Hne Hall.
  assert (Hsum : Py.of_nat (length l) * a <= Py.sum l).
  { clear Hne. induction Hall as [|x l Hx _ IH].
    - unfold Py.sum. cbn [length fold_left]. change (Py.of_nat 0) with 0. lra.
    - cbn [length]. rewrite sum_cons, of_nat_S. lra. }
  assert (Hpos : 0 < Py.of_nat (length l)).
  { apply of_nat_pos. destruct l; [congruence|simpl; lia]. }
  unfold Utils.np_mean. apply Qle_shift_div_l; [assumption|]. lra.
Qed.

Lemma mean_unit (l : list Q) :
  Forall (fun x => 0 <= x /\ x <= 1) l ->
  0 <= Utils.np_mean l /\ Utils.np_mean l <= 1.
Proof.
  intros Hall. destruct l as [|x l].
  - unfold Utils.np_mean, Py.sum, Py.of_nat. simpl. split; discriminate.
  - apply mean_bounds; [discriminate|assumption].
Qed.

Lemma sum_nonneg (l : list Q) : Forall (fun x => 0 <= x) l -> 0 <= Py.sum l.
Proof.
  induction 1 as [|x l Hx _ IH].
  - unfold Py.sum. simpl. lra.
  - rewrite sum_cons. lra.
Qed.

Lemma mean_nonneg (l : list Q) :
  Forall (fun x => 0 <= x) l -> 0 <= Utils.np_mean l.
Proof.
  intros Hall. destruct l as [|x l].
  - unfold Utils.np_mean, Py.sum, Py.of_nat. simpl. discriminate.
  - apply mean_lower; [discriminate|assumption].
Qed.

Local Close Scope Q_scope.

(** ** trend.py *)

Section TrendFacts.

Context {ext : Externals}.

Local Open Scope Q_scope.

Lemma Forall_incl {A} (P : A -> Prop) (l l' : list A) :
  incl l' l -> Forall P l -> Forall P l'.
Proof.
  intros Hincl Hall. rewrite Forall_forall in *. auto.
Qed.

Lemma moving_average_unit (data : list Q) (window : nat) :
  Forall Spec.unit_interval data ->
  Forall Spec.unit_interval (Utils.moving_average data window).
Proof.
  intros Hall. unfold Utils.moving_average.
  destruct (length data <? window)%nat; [assumption|].
  apply Forall_forall. intros x Hx. apply in_map_iff in Hx.
  destruct Hx as (i & <- & _).
  destruct (S i <? window)%nat; apply mean_unit.
  - eapply Forall_incl; [apply firstn_incl|exact Hall].
  - unfold Py.slice. eapply Forall_incl; [|exact Hall].
    intros y Hy. apply (firstn_incl (S i - (S i - window))) in Hy.
    now apply (skipn_incl (S i - window)) in Hy.
Qed.

Lemma slope5 (a b c d e : Q) :
  Trend._calculate_slope [a; b; c; d; e]
  == ((0 - 2) * a - b + d + 2 * e) * (1 # 10).
Proof.
  unfold Trend._calculate_slope.
  cbn [length Nat.ltb Nat.leb seq map combine fst snd].
  unfold Utils.np_mean, Py.sum, Py.of_nat.
  cbn [length fold_left map seq Z.of_nat Pos.of_succ_nat Pos.succ inject_Z].
  match goal with |- context [Qeq_bool ?den 0] =>
    replace (Qeq_bool den 0) with false by (vm_compute; reflexivity) end.
  unfold Qdiv. field.
Qed.

Lemma slope_lower (values : list Q) :
  length values = 5%nat -> Forall Spec.unit_interval values ->
  -(3 # 10) <= Trend._calculate_slope values.
Proof.
  intros Hlen Hall.
  destruct values as [|a [|b [|c [|d [|e [|f values]]]]]]; try discriminate.
  rewrite slope5.
  inversion Hall as [|? ? [Ha0 Ha1] Hall1]; subst.
  inversion Hall1 as [|? ? [Hb0 Hb1] Hall2]; subst.
  inversion Hall2 as [|? ? [Hc0 Hc1] Hall3]; subst.
  inversion Hall3 as [|? ? [Hd0 Hd1] Hall4]; subst.
  inversion Hall4 as [|? ? [He0 He1] _]; subst.
  lra.
Qed.

Lemma last_n_incl {A} (k : nat) (l : list A) : incl (Py.last_n k l) l.
Proof.
  destruct k; simpl; [apply incl_refl|apply skipn_incl].
Qed.

Lemma last_n_length {A} (k : nat) (l : list A) :
  (0 < k <= length l)%nat -> length (Py.last_n k l) = k.
Proof.
  intros H. destruct k; [lia|]. unfold Py.last_n. rewrite length_skipn. lia.
Qed.

Lemma trend_scores_keys (red_balls_history : list (list Z)) (range_max : Z) :
  map fst (Trend._calculate_trend_scores red_balls_history range_max) =
  Py.range 1 (range_max + 1).
Proof.
  unfold Trend._calculate_trend_scores. rewrite map_map.
  rewrite <- (map_id (Py.range 1 (range_max + 1))) at 2.
  apply map_ext. intros num. cbv zeta.
  destruct (Py.Qltb _ 3); [reflexivity|].
  destruct (5 <=? _)%nat; reflexivity.
Qed.

Lemma blue_trend_keys (blue_balls_history : list Z) :
  map fst (Trend._calculate_blue_trend blue_balls_history) = Py.range 1 17.
Proof.
  unfold Trend._calculate_blue_trend. rewrite map_map.
  rewrite <- (map_id (Py.range 1 17)) at 2.
  apply map_ext. intros num. cbv zeta.
  destruct (Py.Qltb _ 2); [reflexivity|].
  destruct (3 <=? _)%nat; reflexivity.
Qed.

Lemma trend_scores_lower (red_balls_history : list (list Z)) (range_max : Z) :
  Forall (fun kv => -(3 # 10) <= snd kv)
         (Trend._calculate_trend_scores red_balls_history range_max).
Proof.
  apply Forall_forall. intros kv Hkv.
  unfold Trend._calculate_trend_scores in Hkv. apply in_map_iff in Hkv.
  destruct Hkv as (num & <- & _). cbv zeta.
  destruct (Py.Qltb _ 3); [cbn [snd]; lra|].
  destruct (5 <=? _)%nat eqn:Hlen; [|cbn [snd]; lra].
  apply Nat.leb_le in Hlen. cbn [snd].
  apply slope_lower.
  - apply last_n_length. lia.
  - eapply Forall_incl; [apply last_n_incl|].
    apply moving_average_unit.
    apply Forall_forall. intros x Hx. apply in_map_iff in Hx.
    destruct Hx as (draw & <- & _).
    destruct (Py.mem num draw); unfold Spec.unit_interval; split; lra.
Qed.

(** The raw result the trend generator hands to the validator. *)
Lemma trend_predict_real (historical_data : list Draw.t) (dataset_size : Z) :
  (30 <= length historical_data)%nat ->
  (30 <= length (Utils.extract_red_balls
                   (Py.take dataset_size historical_data)))%nat ->
  exists result,
    (forall s, Trend.predict historical_data dataset_size s =
               Base.validate_prediction Trend.self result s)
    /\ Forall (fun n => (1 <= n <= 33)%Z) (Base.red_balls result)
    /\ 44 <= Base.confidence result
    /\ Spec.fallback_flag result = false
    /\ Spec.metadata_str result "trend_method" =
       Some (if HAS_STATSMODELS then "arima" else "moving_average")%string.
Proof.
  intros Hh Hreds. unfold Trend.predict.
  apply Nat.ltb_ge in Hh, Hreds. rewrite Hh. cbv zeta. rewrite Hreds.
  pose proof (trend_scores_keys
                (Utils.extract_red_balls (Py.take dataset_size historical_data))
                33) as Hkeys.
  pose proof (trend_scores_lower
                (Utils.extract_red_balls (Py.take dataset_size historical_data))
                33) as Hall.
  set (scores := Trend._calculate_trend_scores _ 33) in *. clearbody scores.
  unfold Py.sorted_by_value_desc.
  set (ranked := Py.stable_sort _ scores).
  assert (Hranked : incl (firstn 6 ranked) scores).
  { intros kv Hkv. apply (firstn_incl 6) in Hkv.
    now apply (proj1 (stable_sort_In _ _ _)) in Hkv. }
  clearbody ranked.
  eexists. split; [intros s; reflexivity|].
  cbn [Base.red_balls Base.confidence].
  split; [|split; [|split]].
  - apply Forall_forall. intros n Hn. apply (proj1 (sorted_In _ _)) in Hn.
    apply in_map_iff in Hn. destruct Hn as (kv & <- & Hkv).
    apply Hranked in Hkv. apply (in_map fst) in Hkv. rewrite Hkeys in Hkv.
    apply range_In in Hkv. lia.
  - assert (Hlow : Forall (fun x => -(3 # 10) <= x) (map snd (firstn 6 ranked))).
    { apply Forall_forall. intros x Hx. apply in_map_iff in Hx.
      destruct Hx as (kv & <- & Hkv). apply Hranked in Hkv.
      rewrite Forall_forall in Hall. now apply Hall. }
    destruct (map snd (firstn 6 ranked)) as [|x top]; [lra|].
    assert (-(3 # 10) <= Utils.np_mean (x :: top))
      by (apply mean_lower; [discriminate|assumption]).
    lra.
  - reflexivity.
  - unfold Spec.metadata_str. cbn [Base.metadata].
    destruct HAS_STATSMODELS; reflexivity.
Qed.

Lemma trend_predict_fallback (historical_data : list Draw.t)
    (dataset_size : Z) (s : Random.rng) :
  (length historical_data < 30)%nat
  \/ (length (Utils.extract_red_balls
                (Py.take dataset_size historical_data)) < 30)%nat ->
  Trend.predict historical_data dataset_size s =
  Base.generate_random_fallback Trend.self s.
Proof.
  intros H. unfold Trend.predict.
  destruct (length historical_data <? 30)%nat eqn:Hh; [reflexivity|].
  cbv zeta. apply Nat.ltb_ge in Hh. destruct H as [H|H]; [lia|].
  apply Nat.ltb_lt in H. now rewrite H.
Qed.

Lemma trend_predict_shape (historical_data : list Draw.t) (dataset_size : Z)
    (s : Random.rng) :
  Spec.valid_shape (fst (Trend.predict historical_data dataset_size s)).
Proof.
  destruct (Nat.lt_ge_cases (length historical_data) 30) as [H|H];
    [rewrite trend_predict_fallback by auto; apply fallback_spec|].
  destruct (Nat.lt_ge_cases
              (length (Utils.extract_red_balls
                         (Py.take dataset_size historical_data))) 30) as [H'|H'];
    [rewrite trend_predict_fallback by auto; apply fallback_spec|].
  destruct (trend_predict_real historical_data dataset_size H H')
    as (result & Heq & Hrange & _).
  rewrite Heq. now apply validate_valid_shape.
Qed.

Lemma trend_predict_confidence (historical_data : list Draw.t)
    (dataset_size : Z) (s : Random.rng) :
  let c := Base.confidence (fst (Trend.predict historical_data dataset_size s)) in
  0 <= c /\ c <= 70.
Proof.
  cbv zeta.
  assert (Hfb : forall s',
            0 <= Base.confidence (fst (Base.generate_random_fallback Trend.self s'))
            /\ Base.confidence (fst (Base.generate_random_fallback Trend.self s'))
               <= 70).
  { intros s'. destruct (fallback_spec Trend.self s') as (_ & Hc & _).
    cbv zeta in Hc. rewrite Hc. split; discriminate. }
  destruct (Nat.lt_ge_cases (length historical_data) 30) as [H|H];
    [rewrite trend_predict_fallback by auto; apply Hfb|].
  destruct (Nat.lt_ge_cases
              (length (Utils.extract_red_balls
                         (Py.take dataset_size historical_data))) 30) as [H'|H'];
    [rewrite trend_predict_fallback by auto; apply Hfb|].
  destruct (trend_predict_real historical_data dataset_size H H')
    as (result & Heq & _ & Hconf & _).
  rewrite Heq, validate_confidence. split.
  - apply Q.min_glb; [lra|discriminate].
  - eapply Qle_trans; [apply Q.le_min_r|discriminate].
Qed.

End TrendFacts.

(** ** Integer-keyed dicts *)

Section DictFacts.

Context {V : Type}.

Lemma dict_get_set (d : list (Z * V)) (k k' : Z) (v default : V) :
  Py.dict_get (Py.dict_set d k v) k' default =
  if k' =? k then v else Py.dict_get d k' default.
Proof.
  induction d as [|[k0 v0] d IH]; simpl.
  - destruct (k' =? k); reflexivity.
  - destruct (Z.eqb_spec k k0) as [->|Hk]; simpl.
    + destruct (k' =? k0); reflexivity.
    + rewrite IH. destruct (Z.eqb_spec k' k0) as [->|Hk'].
      * destruct (Z.eqb_spec k0 k); [congruence|reflexivity].
      * reflexivity.
Qed.

Lemma dict_set_keys (d : list (Z * V)) (k : Z) (v : V) :
  In k (map fst d) -> map fst (Py.dict_set d k v) = map fst d.
Proof.
  induction d as [|[k0 v0] d IH]; simpl; [tauto|].
  intros [->|Hin].
  - now rewrite Z.eqb_refl.
  - destruct (Z.eqb_spec k k0) as [->|Hk]; simpl; [reflexivity|].
    now rewrite IH.
Qed.

Lemma dict_get_default (d : list (Z * V)) (k : Z) (a b : V) :
  In k (map fst d) -> Py.dict_get d k a = Py.dict_get d k b.
Proof.
  induction d as [|[k0 v0] d IH]; simpl; [tauto|].
  intros [->|Hin].
  - now rewrite Z.eqb_refl.
  - destruct (k =? k0); auto.
Qed.

Lemma dict_get_In (d : list (Z * V)) (k : Z) (default : V) :
  In k (map fst d) -> In (k, Py.dict_get d k default) d.
Proof.
  induction d as [|[k0 v0] d IH]; simpl; [tauto|].
  intros Hin. destruct (Z.eqb_spec k k0) as [->|Hk]; [now left|].
  right. apply IH. destruct Hin; congruence.
Qed.

Lemma dict_get_map {W} (f : V -> W) (d : list (Z * V)) (k : Z) (default : V) :
  Py.dict_get (map (fun kv => (fst kv, f (snd kv))) d) k (f default) =
  f (Py.dict_get d k default).
Proof.
  induction d as [|[k0 v0] d IH]; simpl; [reflexivity|].
  destruct (k =? k0); auto.
Qed.

Lemma dict_get_const (keys : list Z) (v default : V) (k : Z) :
  In k keys -> Py.dict_get (map (fun num => (num, v)) keys) k default = v.
Proof.
  induction keys as [|k0 keys IH]; simpl; [tauto|].
  intros Hin. destruct (Z.eqb_spec k k0) as [->|Hk]; [reflexivity|].
  apply IH. destruct Hin; congruence.
Qed.

End DictFacts.

(** ** ensemble.py: the overdue gap *)

Section GapFacts.

Variables (range_max default_gap : Z) (is_red : bool).

Local Notation seen num :=
  (fun draw => Py.mem num (Ensemble.gap_values is_red draw)).

Local Notation step := (Ensemble.gap_record range_max default_gap).

Lemma gap_draw_get (idx : Z) (values : list Z) :
  idx <> default_gap ->
  forall (gap_map : list (Z * Z)) (num : Z),
    1 <= num <= range_max ->
    Py.dict_get (fold_left (step idx) values gap_map) num 0 =
    if (Py.dict_get gap_map num 0 =? default_gap) && Py.mem num values
    then idx else Py.dict_get gap_map num 0.
Proof.
  intros Hidx. induction values as [|x values IH]; intros gap_map num Hnum.
  - simpl. now rewrite andb_false_r.
  - cbn [fold_left]. rewrite IH by assumption.
    assert (Hmem : Py.mem num (x :: values) = (num =? x) || Py.mem num values).
    { destruct (Z.eqb_spec num x) as [->|Hne].
      - apply mem_true. now left.
      - simpl. destruct (Py.mem num values) eqn:Hm.
        + apply mem_true. right. now apply mem_true.
        + apply mem_false. rewrite mem_false in Hm. intros [H|H]; congruence. }
    rewrite Hmem.
    assert (Hget : Py.dict_get (step idx gap_map x) num 0 =
                   if (num =? x) && (Py.dict_get gap_map num 0 =? default_gap)
                   then idx else Py.dict_get gap_map num 0).
    { unfold Ensemble.gap_record. destruct (Z.eqb_spec num x) as [->|Hne].
      - assert (Hin : (1 <=? x) && (x <=? range_max) = true).
        { apply andb_true_iff. rewrite !Z.leb_le. lia. }
        rewrite Hin. cbn [andb].
        destruct (Py.dict_get gap_map x 0 =? default_gap); [|reflexivity].
        now rewrite dict_get_set, Z.eqb_refl.
      - cbn [andb].
        destruct ((1 <=? x) && (x <=? range_max)
                  && (Py.dict_get gap_map x 0 =? default_gap)); [|reflexivity].
        rewrite dict_get_set.
        destruct (Z.eqb_spec num x); [contradiction|reflexivity]. }
    rewrite Hget.
    destruct (num =? x), (Z.eqb_spec (Py.dict_get gap_map num 0) default_gap)
      as [Hd|Hd], (Py.mem num values); cbn [andb orb]; try reflexivity;
      try (destruct (Z.eqb_spec idx default_gap); [contradiction|reflexivity]);
      try (destruct (Z.eqb_spec (Py.dict_get gap_map num 0) default_gap);
           [contradiction|reflexivity]);
      try (rewrite Hd, Z.eqb_refl; reflexivity).
Qed.

Lemma gap_draw_keys (idx : Z) (values : list Z) :
  forall gap_map : list (Z * Z),
    (forall num, 1 <= num <= range_max -> In num (map fst gap_map)) ->
    map fst (fold_left (step idx) values gap_map) = map fst gap_map.
Proof.
  induction values as [|x values IH]; intros gap_map Hkeys; [reflexivity|].
  cbn [fold_left].
  assert (Hstep : map fst (step idx gap_map x) = map fst gap_map).
  { unfold Ensemble.gap_record.
    destruct ((1 <=? x) && (x <=? range_max)) eqn:Hr; [|reflexivity].
    destruct (Py.dict_get gap_map x 0 =? default_gap); [|reflexivity].
    apply dict_set_keys, Hkeys.
    apply andb_true_iff in Hr. rewrite !Z.leb_le in Hr. lia. }
  rewrite IH; [exact Hstep|]. intros num Hnum. rewrite Hstep. auto.
Qed.

Lemma gap_scan_get (draws : list Draw.t) :
  forall (idx : Z) (gap_map : list (Z * Z)) (num : Z),
    0 <= idx -> idx + Z.of_nat (length draws) <= default_gap ->
    1 <= num <= range_max ->
    Py.dict_get
      (Ensemble.gap_scan range_max default_gap is_red draws idx gap_map) num 0 =
    if Py.dict_get gap_map num 0 =? default_gap
    then match Spec.first_index (seen num) draws with
         | Some i => idx + Z.of_nat i
         | None => default_gap
         end
    else Py.dict_get gap_map num 0.
Proof.
  induction draws as [|draw draws IH]; intros idx gap_map num Hidx Hlen Hnum.
  - simpl. destruct (Z.eqb_spec (Py.dict_get gap_map num 0) default_gap); auto.
  - cbn [Ensemble.gap_scan length] in *.
    rewrite IH by lia. rewrite gap_draw_get by lia.
    cbn [Spec.first_index].
    destruct (Z.eqb_spec (Py.dict_get gap_map num 0) default_gap) as [Hd|Hd].
    + cbn [andb]. destruct (Py.mem num (Ensemble.gap_values is_red draw)).
      * destruct (Z.eqb_spec idx default_gap); [lia|]. f_equal. lia.
      * rewrite Hd, Z.eqb_refl.
        destruct (Spec.first_index (seen num) draws); cbn [option_map];
          [lia|reflexivity].
    + cbn [andb]. destruct (Z.eqb_spec (Py.dict_get gap_map num 0) default_gap);
        [contradiction|reflexivity].
Qed.

Lemma gap_scan_keys (draws : list Draw.t) :
  forall (idx : Z) (gap_map : list (Z * Z)),
    (forall num, 1 <= num <= range_max -> In num (map fst gap_map)) ->
    map fst (Ensemble.gap_scan range_max default_gap is_red draws idx gap_map)
    = map fst gap_map.
Proof.
  induction draws as [|draw draws IH]; intros idx gap_map Hkeys; [reflexivity|].
  cbn [Ensemble.gap_scan].
  rewrite IH; [now apply gap_draw_keys|].
  intros num Hnum. rewrite gap_draw_keys by assumption. auto.
Qed.

End GapFacts.

(** C5 (as amended).  Given a non-empty history, the overdue gap score of a
    pool number is the index of the first draw containing it when the list
    is scanned in list order, i.e. from the newest draw towards the oldest,
    divided by the history length; a number never seen scores 1. *)
Theorem overdue_gap_is_index_from_newest (historical_data : list Draw.t)
    (range_max : Z) (is_red : bool) (num : Z) :
  historical_data <> [] -> 1 <= num <= range_max ->
  (Py.dict_get (Ensemble._current_gap_scores historical_data range_max is_red)
               num 0.0
   == match Spec.first_index
              (fun draw => Py.mem num (Ensemble.gap_values is_red draw))
              historical_data with
      | Some i => Py.of_nat i / Py.of_nat (length historical_data)
      | None => 1
      end)%Q.
Proof.
  intros Hne Hnum. unfold Ensemble._current_gap_scores.
  destruct historical_data as [|d0 h] eqn:Eh; [congruence|]. rewrite <- Eh.
  set (n := Z.of_nat (length historical_data)).
  assert (Hn : 0 < n) by (subst historical_data n; cbn [length]; lia).
  destruct (Z.eqb_spec n 0) as [|_]; [lia|].
  set (init := map (fun num0 => (num0, n)) (Py.range 1 (range_max + 1))).
  set (scanned := Ensemble.gap_scan range_max n is_red historical_data 0 init).
  assert (Hinit : forall k, 1 <= k <= range_max -> In k (map fst init)).
  { intros k Hk. unfold init. rewrite map_map. cbn [fst]. rewrite map_id.
    apply range_In. lia. }
  assert (Hkeys : In num (map fst scanned)).
  { unfold scanned. rewrite gap_scan_keys by exact Hinit. now apply Hinit. }
  rewrite (dict_get_default _ num 0.0%Q (inject_Z 0 / inject_Z n)%Q).
  2:{ rewrite map_map. cbn [fst]. exact Hkeys. }
  rewrite (dict_get_map (fun g => (inject_Z g / inject_Z n)%Q) scanned num 0).
  unfold scanned. rewrite gap_scan_get; [|lia|subst n; lia|assumption].
  unfold init. rewrite dict_get_const by (apply range_In; lia).
  rewrite Z.eqb_refl.
  destruct (Spec.first_index _ historical_data) as [i|].
  - cbn [Z.add]. reflexivity.
  - apply Qmult_inv_r. change 0%Q with (inject_Z 0). rewrite inject_Z_injective. lia.
Qed.

Lemma overdue_gap_is_index_from_newest_witness :
  (Py.dict_get (Ensemble._current_gap_scores Fixtures.history2 33 true) 5 0.0
   == Py.of_nat 1 / Py.of_nat 2)%Q.
Proof.
  apply (overdue_gap_is_index_from_newest Fixtures.history2 33 true 5).
  - discriminate.
  - lia.
Defined.

(** C5 as stated fails: in the two newest draws of the sample history the
    number 3 is in the newest draw only, so the code scores it 0 while an
    oldest-to-newest scan would score it 1/2. *)
Lemma overdue_gap_not_oldest_first :
  ~ (Py.dict_get (Ensemble._current_gap_scores Fixtures.history2 33 true) 3 0.0
     == SpecReading.overdue_gap_oldest_first Fixtures.history2 true 3)%Q.
Proof. vm_compute. discriminate. Qed.

(** ** ensemble.py: min-max normalization *)

Local Open Scope Q_scope.

Lemma fold_max_spec (l : list Q) (x : Q) :
  let m := fold_left Qmax l x in
  x <= m /\ Forall (fun y => y <= m) l /\ In m (x :: l).
Proof.
  revert x. induction l as [|y l IH]; intros x; cbn [fold_left].
  - cbv zeta. repeat split; [apply Qle_refl|constructor|now left].
  - destruct (IH (Qmax x y)) as (Hge & Hall & Hin). cbv zeta.
    pose proof (Q.le_max_l x y). pose proof (Q.le_max_r x y).
    repeat split.
    + eapply Qle_trans; eassumption.
    + constructor; [eapply Qle_trans; eassumption|assumption].
    + destruct Hin as [Hin|Hin]; [|right; now right].
      rewrite <- Hin. unfold Qmax, GenericMinMax.gmax.
      destruct (x ?= y)%Q; [now left|right; now left|now left].
Qed.

Lemma fold_min_spec (l : list Q) (x : Q) :
  let m := fold_left Qmin l x in
  m <= x /\ Forall (fun y => m <= y) l /\ In m (x :: l).
Proof.
  revert x. induction l as [|y l IH]; intros x; cbn [fold_left].
  - cbv zeta. repeat split; [apply Qle_refl|constructor|now left].
  - destruct (IH (Qmin x y)) as (Hge & Hall & Hin). cbv zeta.
    pose proof (Q.le_min_l x y). pose proof (Q.le_min_r x y).
    repeat split.
    + eapply Qle_trans; eassumption.
    + constructor; [eapply Qle_trans; eassumption|assumption].
    + destruct Hin as [Hin|Hin]; [|right; now right].
      rewrite <- Hin. unfold Qmin, GenericMinMax.gmin.
      destruct (x ?= y)%Q; [now left|now left|right; now left].
Qed.

Lemma max_list_spec (l : list Q) :
  l <> [] ->
  Forall (fun y => y <= Py.max_list l) l /\ In (Py.max_list l) l.
Proof.
  destruct l as [|x l]; [congruence|intros _]. unfold Py.max_list.
  destruct (fold_max_spec l x) as (H1 & H2 & H3). cbv zeta in *.
  split; [now constructor|assumption].
Qed.

Lemma min_list_spec (l : list Q) :
  l <> [] ->
  Forall (fun y => Py.min_list l <= y) l /\ In (Py.min_list l) l.
Proof.
  destruct l as [|x l]; [congruence|intros _]. unfold Py.min_list.
  destruct (fold_min_spec l x) as (H1 & H2 & H3). cbv zeta in *.
  split; [now constructor|assumption].
Qed.

Lemma normalize_scores_keys (values : list (Z * Q)) :
  map fst (Ensemble._normalize_scores values) = map fst values.
Proof.
  unfold Ensemble._normalize_scores. destruct values as [|kv values]; [reflexivity|].
  destruct (Qeq_bool _ _); rewrite map_map; reflexivity.
Qed.

Lemma normalize_scores_map (values : list (Z * Q)) :
  Ensemble._normalize_scores values =
  map (fun kv => (fst kv, Spec.normalized_value values (snd kv))) values.
Proof.
  unfold Ensemble._normalize_scores, Spec.normalized_value.
  destruct values as [|kv values]; [reflexivity|]. cbv zeta.
  destruct (Qeq_bool _ _); reflexivity.
Qed.

(** C8.  On a non-empty score table, min-max normalization keeps the keys and
    their order.  If the table holds two different values, every normalized
    entry lies in [0, 1], every entry holding the minimum becomes 0, every
    entry holding the maximum becomes 1, and both 0 and 1 occur.  If all
    values are equal, every entry becomes 1 / (table size). *)
Theorem normalize_scores_span (values : list (Z * Q)) :
  values <> [] ->
  map fst (Ensemble._normalize_scores values) = map fst values
  /\ ((exists kv1 kv2, In kv1 values /\ In kv2 values /\ ~ snd kv1 == snd kv2) ->
      (forall k, In k (map fst values) ->
         0 <= Py.dict_get (Ensemble._normalize_scores values) k 0
         /\ Py.dict_get (Ensemble._normalize_scores values) k 0 <= 1)
      /\ (forall k, In k (map fst values) ->
            Py.dict_get values k 0 == Py.min_list (map snd values) ->
            Py.dict_get (Ensemble._normalize_scores values) k 0 == 0)
      /\ (forall k, In k (map fst values) ->
            Py.dict_get values k 0 == Py.max_list (map snd values) ->
            Py.dict_get (Ensemble._normalize_scores values) k 0 == 1)
      /\ (exists kv, In kv (Ensemble._normalize_scores values) /\ snd kv == 0)
      /\ (exists kv, In kv (Ensemble._normalize_scores values) /\ snd kv == 1))
  /\ ((forall kv1 kv2, In kv1 values -> In kv2 values -> snd kv1 == snd kv2) ->
      Forall (fun kv => snd kv == 1 / Py.of_nat (length values))
             (Ensemble._normalize_scores values)).
Proof.
  intros Hne. split; [apply normalize_scores_keys|].
  assert (Hne' : map snd values <> []) by (destruct values; [congruence|discriminate]).
  destruct (max_list_spec _ Hne') as (Hmax & Hmax_in).
  destruct (min_list_spec _ Hne') as (Hmin & Hmin_in).
  rewrite Forall_forall in Hmax, Hmin.
  set (hi := Py.max_list (map snd values)) in *.
  set (lo := Py.min_list (map snd values)) in *.
  split.
  - intros (kv1 & kv2 & H1 & H2 & Hdiff).
    assert (Hlt : lo < hi).
    { pose proof (Hmin _ (in_map snd _ _ H1)). pose proof (Hmax _ (in_map snd _ _ H1)).
      pose proof (Hmin _ (in_map snd _ _ H2)). pose proof (Hmax _ (in_map snd _ _ H2)).
      destruct (Qlt_le_dec lo hi) as [|Hge]; [assumption|].
      exfalso. apply Hdiff. apply Qle_antisym; lra. }
    assert (Hneq : Qeq_bool hi lo = false).
    { destruct (Qeq_bool hi lo) eqn:E; [|reflexivity].
      apply Qeq_bool_eq in E. lra. }
    assert (Hval : forall v, Spec.normalized_value values v = (v - lo) / (hi - lo)).
    { intros v. unfold Spec.normalized_value. cbv zeta. fold hi lo. now rewrite Hneq. }
    assert (Hunit : forall v, lo <= v -> v <= hi ->
                              0 <= (v - lo) / (hi - lo) /\ (v - lo) / (hi - lo) <= 1).
    { intros v Hlo Hhi. split.
      - apply Qle_shift_div_l; lra.
      - apply Qle_shift_div_r; lra. }
    assert (Hzero : (lo - lo) / (hi - lo) == 0) by (field; lra).
    assert (Hone : (hi - lo) / (hi - lo) == 1) by (field; lra).
    repeat split.
    + rewrite normalize_scores_map.
      rewrite (dict_get_default _ k 0 (Spec.normalized_value values 0))
        by (rewrite map_map; exact H).
      rewrite (dict_get_map (Spec.normalized_value values)), Hval.
      pose proof (dict_get_In values k 0 H) as Hk.
      apply (in_map snd) in Hk. cbn [snd] in Hk.
      apply Hunit; [now apply Hmin|now apply Hmax].
    + rewrite normalize_scores_map.
      rewrite (dict_get_default _ k 0 (Spec.normalized_value values 0))
        by (rewrite map_map; exact H).
      rewrite (dict_get_map (Spec.normalized_value values)), Hval.
      pose proof (dict_get_In values k 0 H) as Hk.
      apply (in_map snd) in Hk. cbn [snd] in Hk.
      apply Hunit; [now apply Hmin|now apply Hmax].
    + intros k Hk Hkv. rewrite normalize_scores_map.
      rewrite (dict_get_default _ k 0 (Spec.normalized_value values 0))
        by (rewrite map_map; exact Hk).
      rewrite (dict_get_map (Spec.normalized_value values)), Hval, Hkv. exact Hzero.
    + intros k Hk Hkv. rewrite normalize_scores_map.
      rewrite (dict_get_default _ k 0 (Spec.normalized_value values 0))
        by (rewrite map_map; exact Hk).
      rewrite (dict_get_map (Spec.normalized_value values)), Hval, Hkv. exact Hone.
    + apply in_map_iff in Hmin_in. destruct Hmin_in as (kv & Hkv & Hin).
      exists (fst kv, Spec.normalized_value values (snd kv)). split.
      * rewrite normalize_scores_map. apply in_map_iff. now exists kv.
      * cbn [snd]. rewrite Hval, Hkv. exact Hzero.
    + apply in_map_iff in Hmax_in. destruct Hmax_in as (kv & Hkv & Hin).
      exists (fst kv, Spec.normalized_value values (snd kv)). split.
      * rewrite normalize_scores_map. apply in_map_iff. now exists kv.
      * cbn [snd]. rewrite Hval, Hkv. exact Hone.
  - intros Hconst.
    assert (Heq : Qeq_bool hi lo = true).
    { apply Qeq_bool_iff.
      apply in_map_iff in Hmin_in, Hmax_in.
      destruct Hmin_in as (kv1 & E1 & Hin1). destruct Hmax_in as (kv2 & E2 & Hin2).
      fold lo in E1. fold hi in E2. rewrite <- E1, <- E2. now apply Hconst. }
    rewrite normalize_scores_map. apply Forall_forall. intros kv Hkv.
    apply in_map_iff in Hkv. destruct Hkv as (kv0 & <- & _). cbn [snd].
    unfold Spec.normalized_value. cbv zeta. fold hi lo. rewrite Heq.
    assert (E10 : 1.0 == 1) by reflexivity. now rewrite E10.
Qed.

Lemma normalize_scores_span_witness :
  (exists kv, In kv (Ensemble._normalize_scores [(1%Z, 2); (2%Z, 5); (3%Z, 3)])
              /\ snd kv == 1)
  /\ Forall (fun kv => snd kv == 1 / Py.of_nat 2)
            (Ensemble._normalize_scores [(1%Z, 4); (2%Z, 4)]).
Proof.
  split.
  - apply (normalize_scores_span [(1%Z, 2); (2%Z, 5); (3%Z, 3)]);
      [discriminate|].
    exists (1%Z, 2), (2%Z, 5). cbn [snd In]. repeat split; auto. discriminate.
  - apply (normalize_scores_span [(1%Z, 4); (2%Z, 4)]); [discriminate|].
    intros kv1 kv2 [<-|[<-|[]]] [<-|[<-|[]]]; reflexivity.
Defined.

(** ** ensemble.py: the weights *)

Lemma sum_div (l : list Q) (t : Q) :
  Py.sum (map (fun v => v / t) l) == Py.sum l / t.
Proof.
  induction l as [|x l IH].
  - unfold Py.sum. simpl. unfold Qdiv. ring.
  - cbn [map]. rewrite !sum_cons, IH. unfold Qdiv. ring.
Qed.

Lemma normalize_weights_spec (d : list (string * Q)) :
  Forall (fun kv => 0 <= snd kv) d -> 0 < Py.sum (map snd d) ->
  Py.sum (map snd (Ensemble.normalize_weights d)) == 1
  /\ Forall (fun kv => 0 <= snd kv) (Ensemble.normalize_weights d).
Proof.
  intros Hnonneg Hpos. unfold Ensemble.normalize_weights.
  destruct (Qeq_bool (Py.sum (map snd d)) 0) eqn:Ez.
  { apply Qeq_bool_eq in Ez. lra. }
  split.
  - rewrite map_map. cbn [snd].
    rewrite <- (map_map snd (fun v => v / Py.sum (map snd d))), sum_div.
    field. lra.
  - apply Forall_forall. intros kv Hkv. apply in_map_iff in Hkv.
    destruct Hkv as (kv0 & <- & Hin). cbn [snd].
    rewrite Forall_forall in Hnonneg.
    apply Qle_shift_div_l; [assumption|]. specialize (Hnonneg _ Hin). lra.
Qed.

(** C6 (as amended).  The default weights sum to 1.  Caller-supplied
    non-negative weights whose sum is positive and does not exceed
    [weight_limit] (so that the total of the doubles is finite) are
    normalized by the constructor to non-negative weights that sum to 1,
    up to rounding, and so are such performance metrics by
    [update_weights]. *)
Theorem weights_sum_to_one_when_total_positive :
  (Py.sum (map snd (Ensemble.weights (Ensemble.__init__ None))) == 1)%Q
  /\ forall d : list (string * Q),
       Forall (fun kv => 0 <= snd kv)%Q d -> (0 < Py.sum (map snd d))%Q ->
       (Py.sum (map snd d) <= Ensemble.weight_limit)%Q ->
       ((Py.sum (map snd (Ensemble.weights (Ensemble.__init__ (Some d)))) == 1)%Q
        /\ Forall (fun kv => 0 <= snd kv)%Q
                  (Ensemble.weights (Ensemble.__init__ (Some d))))
       /\ forall self : Ensemble.EnsemblePredictor,
            (Py.sum (map snd (Ensemble.weights (Ensemble.update_weights self d)))
            == 1)%Q
            /\ Forall (fun kv => 0 <= snd kv)%Q
                      (Ensemble.weights (Ensemble.update_weights self d)).
Proof.
  split; [reflexivity|].
  intros d Hnonneg Hpos _.
  assert (Hd : d <> []).
  { intros ->. unfold Py.sum in Hpos. simpl in Hpos. lra. }
  destruct d as [|kv d]; [congruence|].
  split; [|intros self];
    cbn [Ensemble.__init__ Ensemble.update_weights Ensemble.weights];
    now apply normalize_weights_spec.
Qed.

Lemma weights_sum_to_one_when_total_positive_witness :
  (Py.sum (map snd (Ensemble.weights
                     (Ensemble.__init__
                        (Some [("frequency"%string, 1); ("trend"%string, 3)]))))
  == 1)%Q.
Proof.
  apply (proj2 weights_sum_to_one_when_total_positive
               [("frequency"%string, 1%Q); ("trend"%string, 3%Q)]).
  - repeat constructor; discriminate.
  - reflexivity.
  - vm_compute. discriminate.
Defined.

(** C6 as stated fails: the non-negative mapping [{'frequency': 0.0}] has
    total 0, the [or 1.0] guard divides by 1 and the weights sum to 0. *)
Lemma weights_all_zero_sum_to_zero :
  ~ Py.sum (map snd (Ensemble.weights
                       (Ensemble.__init__ (Some [("frequency"%string, 0)]))))
    == 1.
Proof. vm_compute. discriminate. Qed.

Local Close Scope Q_scope.

(** *** The weights on binary64 values *)

Section WeightsBinary64.

Import PrimFloat.

#[local] Set Warnings "-inexact-float".

(** On doubles the default weights total exactly 1.0, before and after the
    division. *)
Lemma default_weights_on_doubles :
  fold_left add [0.20; 0.25; 0.30; 0.25]%float 0%float = 1%float
  /\ fold_left add
       (Ensemble.normalize_doubles [0.20; 0.25; 0.30; 0.25]%float) 0%float
     = 1%float.
Proof. split; vm_compute; reflexivity. Qed.

(** Beyond [weight_limit]: two weights of 2^1023 are finite and positive,
    their total is [inf], and both quotients are 0.0. *)
Lemma weights_beyond_the_limit_vanish :
  Ensemble.normalize_doubles [0x1p1023; 0x1p1023]%float = [0; 0]%float
  /\ (Ensemble.weight_limit < inject_Z (2 ^ 1023) + inject_Z (2 ^ 1023))%Q.
Proof. split; [vm_compute; reflexivity|vm_compute; reflexivity]. Qed.

End WeightsBinary64.

(** ** ensemble.py: distribution-balanced selection *)

Lemma band_eqb_eq (a b : Ensemble.band) : Ensemble.band_eqb a b = true <-> a = b.
Proof. destruct a, b; cbn; intuition congruence. Qed.

Lemma band_eqb_sym (a b : Ensemble.band) :
  Ensemble.band_eqb a b = Ensemble.band_eqb b a.
Proof. destruct a, b; reflexivity. Qed.

Lemma band_count_cons (g : Ensemble.band) (n : Z) (l : list Z) :
  Spec.band_count g (n :: l) =
  ((if Ensemble.band_eqb (Ensemble._group_for_number n) g then 1 else 0)
   + Spec.band_count g l)%nat.
Proof.
  unfold Spec.band_count. cbn [filter].
  destruct (Ensemble.band_eqb _ g); reflexivity.
Qed.

Lemma band_count_nil (g : Ensemble.band) : Spec.band_count g [] = O.
Proof. reflexivity. Qed.

Lemma band_count_app (g : Ensemble.band) (l l' : list Z) :
  Spec.band_count g (l ++ l') = (Spec.band_count g l + Spec.band_count g l')%nat.
Proof. unfold Spec.band_count. now rewrite filter_app, length_app. Qed.

Lemma band_total (l : list Z) :
  length l = (Spec.band_count Ensemble.low l + Spec.band_count Ensemble.mid l
              + Spec.band_count Ensemble.high l)%nat.
Proof.
  induction l as [|n l IH]; [reflexivity|]. rewrite !band_count_cons.
  cbn [length]. destruct (Ensemble._group_for_number n);
    cbn [Ensemble.band_eqb]; lia.
Qed.

Lemma band_count_perm (g : Ensemble.band) (l l' : list Z) :
  Permutation l l' -> Spec.band_count g l = Spec.band_count g l'.
Proof.
  induction 1; [reflexivity| | |lia]; rewrite !band_count_cons; lia.
Qed.

Ltac all_bands H :=
  pose proof (H Ensemble.low); pose proof (H Ensemble.mid);
  pose proof (H Ensemble.high).

(** The first loop keeps the counters in step with the selection and stops
    with [min 2 (available)] numbers of every band. *)
Lemma select_balanced_counts (candidates : list Z) :
  forall (counts : Ensemble.band -> nat) (selected : list Z),
    (forall g, counts g = Spec.band_count g selected) ->
    (forall g, (counts g <= 2)%nat) ->
    forall g,
      Spec.band_count g (Ensemble.select_balanced candidates counts selected)
      = Nat.min 2 (counts g + Spec.band_count g candidates).
Proof.
  induction candidates as [|number rest IH]; intros counts selected Hinv Hle g.
  - cbn [Ensemble.select_balanced]. rewrite <- Hinv, band_count_nil.
    specialize (Hle g). lia.
  - cbn [Ensemble.select_balanced]. cbv zeta.
    set (group := Ensemble._group_for_number number).
    rewrite band_count_cons. fold group.
    destruct (counts group <? 2)%nat eqn:Hroom.
    + apply Nat.ltb_lt in Hroom.
      set (counts' := fun g0 => if Ensemble.band_eqb g0 group
                                then S (counts g0) else counts g0).
      assert (Hinv' : forall g0, counts' g0
                                 = Spec.band_count g0 (selected ++ [number])).
      { intros g0. unfold counts'. rewrite band_count_app, band_count_cons.
        fold group. rewrite (band_eqb_sym group g0), Hinv, band_count_nil.
        destruct (Ensemble.band_eqb g0 group); lia. }
      assert (Hle' : forall g0, (counts' g0 <= 2)%nat).
      { intros g0. unfold counts'.
        destruct (Ensemble.band_eqb g0 group) eqn:E; [|apply Hle].
        apply band_eqb_eq in E. subst g0. lia. }
      destruct (length (selected ++ [number]) =? 6)%nat eqn:Hfull.
      * apply Nat.eqb_eq in Hfull. rewrite band_total in Hfull.
        all_bands Hinv'. all_bands Hle'. rewrite <- Hinv'.
        assert (Hg : counts' g = 2%nat) by (destruct g; lia).
        rewrite Hg. unfold counts' in Hg. rewrite (band_eqb_sym group g).
        destruct (Ensemble.band_eqb g group); lia.
      * rewrite IH by assumption. unfold counts'.
        rewrite (band_eqb_sym group g).
        destruct (Ensemble.band_eqb g group); lia.
    + apply Nat.ltb_ge in Hroom. specialize (Hle group) as Hgroup.
      destruct (length selected =? 6)%nat eqn:Hfull.
      * apply Nat.eqb_eq in Hfull. rewrite band_total in Hfull.
        all_bands Hinv. all_bands Hle. rewrite <- Hinv.
        assert (Hg : counts g = 2%nat) by (destruct g; lia).
        rewrite Hg. lia.
      * rewrite IH by assumption.
        destruct (Ensemble.band_eqb group g) eqn:E; [|lia].
        apply band_eqb_eq in E. subst g. lia.
Qed.

Lemma select_balanced_incl (candidates : list Z) :
  forall (counts : Ensemble.band -> nat) (selected : list Z),
    incl (Ensemble.select_balanced candidates counts selected)
         (selected ++ candidates).
Proof.
  induction candidates as [|number rest IH]; intros counts selected.
  - cbn [Ensemble.select_balanced]. rewrite app_nil_r. apply incl_refl.
  - cbn [Ensemble.select_balanced]. cbv zeta.
    destruct (counts (Ensemble._group_for_number number) <? 2)%nat.
    + destruct (length (selected ++ [number]) =? 6)%nat.
      * intros x Hx. apply in_app_or in Hx. apply in_or_app.
        destruct Hx as [Hx|[<-|[]]]; [now left|right; now left].
      * intros x Hx. apply IH in Hx. rewrite <- app_assoc in Hx. exact Hx.
    + destruct (length selected =? 6)%nat.
      * apply incl_appl, incl_refl.
      * intros x Hx. apply IH in Hx. apply in_app_or in Hx. apply in_or_app.
        destruct Hx as [Hx|Hx]; [now left|right; now right].
Qed.

Lemma select_fill_incl (candidates : list Z) :
  forall selected : list Z,
    incl (Ensemble.select_fill candidates selected) (selected ++ candidates).
Proof.
  induction candidates as [|number rest IH]; intros selected.
  - cbn [Ensemble.select_fill]. rewrite app_nil_r. apply incl_refl.
  - cbn [Ensemble.select_fill]. cbv zeta.
    destruct (negb (Py.mem number selected)).
    + destruct (length (selected ++ [number]) =? 6)%nat.
      * intros x Hx. apply in_app_or in Hx. apply in_or_app.
        destruct Hx as [Hx|[<-|[]]]; [now left|right; now left].
      * intros x Hx. apply IH in Hx. rewrite <- app_assoc in Hx. exact Hx.
    + destruct (length selected =? 6)%nat.
      * apply incl_appl, incl_refl.
      * intros x Hx. apply IH in Hx. apply in_app_or in Hx. apply in_or_app.
        destruct Hx as [Hx|Hx]; [now left|right; now right].
Qed.

Lemma select_numbers_incl (scores : list (Z * Q)) :
  incl (Ensemble._select_numbers_with_distribution scores) (map fst scores).
Proof.
  unfold Ensemble._select_numbers_with_distribution. cbv zeta.
  set (cands := map fst (Py.sorted_by_value_desc scores)).
  assert (Hc : incl cands (map fst scores)).
  { intros x Hx. eapply Permutation_in; [|exact Hx].
    apply Permutation_map, stable_sort_perm. }
  set (sel := Ensemble.select_balanced cands (fun _ => O) []).
  assert (Hsel : incl sel cands) by (apply (select_balanced_incl cands _ [])).
  intros x Hx. apply (proj1 (sorted_In _ _)) in Hx.
  apply (firstn_incl 6) in Hx.
  destruct (length sel <? 6)%nat.
  - apply select_fill_incl in Hx. apply in_app_or in Hx.
    destruct Hx as [Hx|Hx]; auto.
  - auto.
Qed.

(** C7.  When every band (1-11, 12-22, 23-33) has at least two candidates in
    the score table, as is the case for any table over the full pool, the
    distribution-balanced selection returns six numbers with exactly two
    (hence at most two) from each band. *)
Theorem balanced_selection_two_per_band (scores : list (Z * Q)) :
  (forall g, (2 <= Spec.band_count g (map fst scores))%nat) ->
  length (Ensemble._select_numbers_with_distribution scores) = 6%nat
  /\ forall g,
       Spec.band_count g (Ensemble._select_numbers_with_distribution scores)
       = 2%nat.
Proof.
  intros Hbands. unfold Ensemble._select_numbers_with_distribution. cbv zeta.
  set (cands := map fst (Py.sorted_by_value_desc scores)).
  assert (Hperm : Permutation cands (map fst scores))
    by (apply Permutation_map, stable_sort_perm).
  set (sel := Ensemble.select_balanced cands (fun _ => O) []).
  assert (Hsel : forall g, Spec.band_count g sel = 2%nat).
  { intros g. unfold sel. rewrite select_balanced_counts.
    - rewrite (band_count_perm g _ _ Hperm). specialize (Hbands g). lia.
    - reflexivity.
    - intros; lia. }
  assert (Hlen : length sel = 6%nat).
  { rewrite band_total, !Hsel. reflexivity. }
  rewrite Hlen. cbn [Nat.ltb Nat.leb].
  rewrite firstn_all2 by lia. split.
  - now rewrite sorted_length.
  - intros g. rewrite (band_count_perm g _ _ (sorted_perm sel)). apply Hsel.
Qed.

Lemma balanced_selection_two_per_band_witness :
  length (Ensemble._select_numbers_with_distribution Fixtures.descending_table)
  = 6%nat.
Proof.
  apply (balanced_selection_two_per_band Fixtures.descending_table).
  intros g. destruct g; vm_compute; lia.
Defined.

(** C9.  Off its fallback path, i.e. for a non-empty history whose analysis
    window holds at least one six-number draw, the frequency generator
    returns the same result (numbers, confidence and metadata) whatever the
    entropy source: two calls agree. *)
Theorem frequency_predict_deterministic (historical_data : list Draw.t)
    (dataset_size : Z) (s1 s2 : Random.rng) :
  historical_data <> [] ->
  Utils.extract_red_balls (Py.take dataset_size historical_data) <> [] ->
  fst (Frequency.predict historical_data dataset_size s1) =
  fst (Frequency.predict historical_data dataset_size s2).
Proof.
  intros Hh Hreds.
  destruct (frequency_predict_eq historical_data dataset_size s1 Hh Hreds)
    as (blue & c & m & _ & Heq & _).
  now rewrite (Heq s1), (Heq s2).
Qed.

Lemma frequency_predict_deterministic_witness :
  fst (Frequency.predict Fixtures.SAMPLE_DATA 50 [5; 7; 11]%nat) =
  fst (Frequency.predict Fixtures.SAMPLE_DATA 50 []).
Proof.
  apply (frequency_predict_deterministic Fixtures.SAMPLE_DATA 50).
  - discriminate.
  - vm_compute. discriminate.
Defined.

(** ** random_forest.py *)

Section ForestFacts.

Context {ext : Externals}.

Lemma predict_blue_ball_range (blue_balls_history : list Z) (s : Random.rng) :
  1 <= fst (RandomForest._predict_blue_ball blue_balls_history s) <= 16.
Proof.
  unfold RandomForest._predict_blue_ball.
  destruct (length blue_balls_history <? 10)%nat;
    [apply randint_range; lia|].
  cbv zeta. unfold Random.ret. cbn [fst].
  match goal with |- context [Py.max_key ?d] =>
    assert (Hin : In (Py.max_key d) (map fst d)) end.
  { apply max_key_In. intros E. apply (f_equal (@length _)) in E.
    rewrite length_map, range_length in E. discriminate. }
  rewrite map_map in Hin. cbn [fst] in Hin. rewrite map_id in Hin.
  apply range_In in Hin. lia.
Qed.

Lemma frequency_based_selection_shape (red_balls_history : list (list Z)) :
  let top := RandomForest._frequency_based_selection red_balls_history in
  length top = 6%nat /\ NoDup top /\ StronglySorted Z.lt top
  /\ Forall (fun n => 1 <= n <= 33) top.
Proof. apply top6_frequency_shape. Qed.

(** The degraded path returns either the random fallback or a frequency
    selection with confidence 55. *)
Lemma forest_fallback_predict_spec (historical_data : list Draw.t)
    (dataset_size : Z) (s : Random.rng) :
  let r := fst (RandomForest._fallback_predict historical_data dataset_size s) in
  Spec.valid_shape r
  /\ (Spec.is_fallback r
      \/ (historical_data <> [] /\ Base.confidence r = 55.0%Q
          /\ Spec.fallback_flag r = true)).
Proof.
  unfold RandomForest._fallback_predict.
  destruct historical_data as [|d0 h] eqn:Eh.
  { split; [apply fallback_spec|left; apply fallback_is_fallback]. }
  rewrite <- Eh. cbv zeta.
  destruct (Utils.extract_red_balls _) as [|r0 reds] eqn:Ereds.
  { split; [apply fallback_spec|left; apply fallback_is_fallback]. }
  unfold Random.bind, Random.ret.
  set (bluegen := match Utils.extract_blue_balls _ with
                  | [] => Random.randint 1 16
                  | _ :: _ => _
                  end).
  assert (Hblue : 1 <= fst (bluegen s) <= 16).
  { unfold bluegen. destruct (Utils.extract_blue_balls _);
      [apply randint_range; lia|apply predict_blue_ball_range]. }
  destruct (bluegen s) as [blue s1]. cbn [fst] in *.
  destruct (frequency_based_selection_shape (r0 :: reds))
    as (Hlen & Hnd & Hst & Hrange).
  split.
  - unfold Spec.valid_shape. cbn [Base.red_balls Base.blue_ball]. auto.
  - right. split; [subst; discriminate|]. split; reflexivity.
Qed.

Lemma dict_set_keys_Forall {V} (P : Z -> Prop) (d : list (Z * V)) (k : Z) (v : V) :
  Forall (fun kv => P (fst kv)) d -> P k ->
  Forall (fun kv => P (fst kv)) (Py.dict_set d k v).
Proof.
  intros Hall Hk. induction Hall as [|[k0 v0] d H0 Hd IH]; simpl.
  - now repeat constructor.
  - destruct (k =? k0); constructor; auto.
Qed.

Lemma aggregate_keys_range (probability_maps : list (list (Z * Q))) :
  Forall (fun kv => 1 <= fst kv <= 33)
         (RandomForest._aggregate_probabilities probability_maps).
Proof.
  unfold RandomForest._aggregate_probabilities.
  set (P := fun kv : Z * Q => 1 <= fst kv <= 33).
  assert (Hinit : Forall P (map (fun num => (num, 0%Q)) (Py.range 1 34))).
  { apply Forall_forall. intros kv Hkv. apply in_map_iff in Hkv.
    destruct Hkv as (num & <- & Hnum). apply range_In in Hnum.
    unfold P. cbn [fst]. lia. }
  revert Hinit. generalize (map (fun num => (num, 0%Q)) (Py.range 1 34)).
  induction probability_maps as [|slot_map maps IH]; intros combined Hc;
    [exact Hc|].
  cbn [fold_left]. apply IH. clear IH. revert combined Hc.
  induction slot_map as [|np slot_map IH]; intros combined Hc; [exact Hc|].
  cbn [fold_left]. apply IH.
  destruct ((1 <=? fst np) && (fst np <=? 33)) eqn:Hr; [|exact Hc].
  apply andb_true_iff in Hr. rewrite !Z.leb_le in Hr.
  apply (dict_set_keys_Forall (fun k => 1 <= k <= 33)); [exact Hc|lia].
Qed.

Lemma select_high_probability_range (combined_scores : list (Z * Q))
    (used_numbers : list Z) (s : Random.rng) :
  Forall (fun kv => 1 <= fst kv <= 33) combined_scores ->
  let num := fst (RandomForest._select_high_probability_number
                    combined_scores used_numbers s) in
  1 <= num <= 33.
Proof.
  intros Hkeys. unfold RandomForest._select_high_probability_number. cbv zeta.
  destruct (filter _ (map fst (Py.sorted_by_value_desc combined_scores)))
    as [|num rest] eqn:Ecand.
  - destruct (filter _ (Py.range 1 34)) as [|r remaining] eqn:Erem.
    + apply randint_range. lia.
    + assert (Hin : In (fst (Random.choice (r :: remaining) s)) (r :: remaining))
        by (apply choice_In; discriminate).
      assert (Hsub : forall x, In x (r :: remaining) -> 1 <= x <= 33).
      { rewrite <- Erem. intros x Hx. apply filter_In in Hx.
        destruct Hx as [Hx _]. apply range_In in Hx. lia. }
      now apply Hsub.
  - unfold Random.ret. cbn [fst].
    assert (Hin : In num (num :: rest)) by now left.
    rewrite <- Ecand in Hin. apply filter_In in Hin. destruct Hin as [Hin _].
    apply in_map_iff in Hin. destruct Hin as (kv & <- & Hkv).
    unfold Py.sorted_by_value_desc in Hkv.
    apply (proj1 (stable_sort_In _ _ _)) in Hkv.
    rewrite Forall_forall in Hkeys. now apply Hkeys.
Qed.

Lemma fill_predicted_range (combined_scores : list (Z * Q))
    (raw_prediction : list Z) :
  Forall (fun kv => 1 <= fst kv <= 33) combined_scores ->
  forall (predicted_numbers : list Z) (s : Random.rng),
    Forall (fun n => 1 <= n <= 33) predicted_numbers ->
    Forall (fun n => 1 <= n <= 33)
           (fst (RandomForest.fill_predicted combined_scores raw_prediction
                                             predicted_numbers s)).
Proof.
  intros Hkeys. induction raw_prediction as [|number rest IH];
    intros predicted s Hp; cbn [RandomForest.fill_predicted].
  - exact Hp.
  - destruct ((1 <=? number) && (number <=? 33)
              && negb (Py.mem number predicted)) eqn:Hok.
    + apply IH. apply Forall_app. split; [exact Hp|].
      apply andb_true_iff in Hok. destruct Hok as [Hok _].
      apply andb_true_iff in Hok. rewrite !Z.leb_le in Hok.
      repeat constructor; lia.
    + unfold Random.bind.
      pose proof (select_high_probability_range combined_scores predicted s Hkeys)
        as Hnum.
      destruct (RandomForest._select_high_probability_number _ _ s)
        as [fallback_num s1]. cbn [fst] in Hnum.
      apply IH. apply Forall_app. split; [exact Hp|].
      repeat constructor; lia.
Qed.

Lemma dict_get_nonneg (d : list (Z * Q)) (k : Z) :
  Forall (fun cp => (0 <= snd cp)%Q) d -> (0 <= Py.dict_get d k 0)%Q.
Proof.
  induction 1 as [|[k0 v0] d H0 _ IH]; simpl; [apply Qle_refl|].
  destruct (k =? k0); auto.
Qed.

Lemma predict_red_balls_spec (red_balls_history : list (list Z))
    (s : Random.rng) :
  let r := fst (RandomForest._predict_red_balls red_balls_history s) in
  Forall (fun n => 1 <= n <= 33) (fst r)
  /\ (Spec.probabilities_nonneg ext -> (0 <= snd r)%Q).
Proof.
  unfold RandomForest._predict_red_balls.
  destruct (RandomForest._prepare_training_data red_balls_history) as [X y].
  destruct (frequency_based_selection_shape red_balls_history)
    as (_ & _ & _ & Hfreq).
  destruct (length X <? 25)%nat.
  { unfold Random.ret. cbn [fst snd]. split; [exact Hfreq|discriminate]. }
  cbv zeta.
  destruct (pipeline_fit_predict X y _) as [slots|] eqn:Efit.
  2:{ unfold Random.ret. cbn [fst snd]. split; [exact Hfreq|discriminate]. }
  unfold Random.bind, Random.ret.
  pose proof (fill_predicted_range
                (RandomForest._aggregate_probabilities (map snd slots))
                (map fst slots) (aggregate_keys_range _) [] s (Forall_nil _))
    as Hfill.
  destruct (RandomForest.fill_predicted _ (map fst slots) [] s)
    as [predicted s1]. cbn [fst snd] in *.
  split.
  - apply Forall_forall. intros n Hn. apply (proj1 (sorted_In _ _)) in Hn.
    apply (firstn_incl 6) in Hn. rewrite Forall_forall in Hfill. auto.
  - intros Hprob. specialize (Hprob _ _ _ _ Efit).
    destruct (map _ slots) as [|p ps] eqn:Eprobs; [discriminate|].
    rewrite <- Eprobs. apply mean_nonneg.
    apply Forall_forall. intros x Hx. apply in_map_iff in Hx.
    destruct Hx as (slot & <- & Hslot).
    apply dict_get_nonneg. rewrite Forall_forall in Hprob. now apply Hprob.
Qed.

End ForestFacts.

Section ForestPredict.

Context {ext : Externals}.

Local Open Scope Q_scope.

Lemma data_factor_nonneg (n : nat) : 0 <= Qmin (Py.of_nat n / 400) 1.0.
Proof.
  apply Q.min_glb; [|discriminate].
  apply Qle_shift_div_l; [reflexivity|]. pose proof (of_nat_nonneg n). lra.
Qed.

(** The raw result the forest generator hands to the validator when the
    modelling library is present and at least 15 six-number draws are in
    the window. *)
Lemma forest_predict_real (historical_data : list Draw.t) (dataset_size : Z)
    (s : Random.rng) :
  HAS_SKLEARN = true ->
  (15 <= length historical_data)%nat ->
  (15 <= length (Utils.extract_red_balls
                   (Py.take dataset_size historical_data)))%nat ->
  exists result s',
    RandomForest.predict historical_data dataset_size s =
    Base.validate_prediction RandomForest.self result s'
    /\ Forall (fun n => (1 <= n <= 33)%Z) (Base.red_balls result)
    /\ (Spec.probabilities_nonneg ext -> 52 <= Base.confidence result)
    /\ Spec.fallback_flag result = false
    /\ Spec.metadata_str result "model" = Some "random_forest"%string.
Proof.
  intros Hsk Hh Hreds. unfold RandomForest.predict. rewrite Hsk. cbn [negb].
  change (RandomForest.lookback + 10)%nat with 15%nat.
  apply Nat.ltb_ge in Hh, Hreds. rewrite Hh. cbv zeta. rewrite Hreds.
  unfold Random.bind.
  pose proof (predict_red_balls_spec
                (Utils.extract_red_balls (Py.take dataset_size historical_data)) s)
    as Hred.
  destruct (RandomForest._predict_red_balls _ s) as [[reds avg] s1].
  cbv zeta in Hred. cbn [fst snd] in Hred. destruct Hred as [Hrange Havg].
  destruct (RandomForest._predict_blue_ball _ s1) as [blue s2].
  eexists _, s2. split; [reflexivity|].
  cbn [Base.red_balls Base.confidence].
  split; [exact Hrange|]. split; [|split; reflexivity].
  intros Hprob. specialize (Havg Hprob).
  pose proof (data_factor_nonneg
                (length (Utils.extract_red_balls
                           (Py.take dataset_size historical_data)))).
  nra.
Qed.

Lemma forest_predict_cases (historical_data : list Draw.t) (dataset_size : Z)
    (s : Random.rng) :
  (RandomForest.predict historical_data dataset_size s =
     RandomForest._fallback_predict historical_data dataset_size s
   /\ (HAS_SKLEARN = false
       \/ (length (Utils.extract_red_balls
                      (Py.take dataset_size historical_data)) < 15)%nat))
  \/ (RandomForest.predict historical_data dataset_size s =
        Base.generate_random_fallback RandomForest.self s
      /\ (length historical_data < 15)%nat)
  \/ (HAS_SKLEARN = true
      /\ (15 <= length historical_data)%nat
      /\ (15 <= length (Utils.extract_red_balls
                          (Py.take dataset_size historical_data)))%nat).
Proof.
  unfold RandomForest.predict.
  destruct HAS_SKLEARN; cbn [negb]; [|left; auto].
  change (RandomForest.lookback + 10)%nat with 15%nat.
  destruct (length historical_data <? 15)%nat eqn:Hh.
  { apply Nat.ltb_lt in Hh. right. left. auto. }
  cbv zeta. apply Nat.ltb_ge in Hh.
  destruct (length (Utils.extract_red_balls _) <? 15)%nat eqn:Hr.
  { apply Nat.ltb_lt in Hr. left. auto. }
  apply Nat.ltb_ge in Hr. right. right. auto.
Qed.

Lemma forest_predict_shape (historical_data : list Draw.t) (dataset_size : Z)
    (s : Random.rng) :
  Spec.valid_shape (fst (RandomForest.predict historical_data dataset_size s)).
Proof.
  destruct (forest_predict_cases historical_data dataset_size s)
    as [[E _]|[[E _]|(Hsk & Hh & Hr)]].
  - rewrite E. apply forest_fallback_predict_spec.
  - rewrite E. apply fallback_spec.
  - destruct (forest_predict_real historical_data dataset_size s Hsk Hh Hr)
      as (result & s' & E & Hrange & _).
    rewrite E. now apply validate_valid_shape.
Qed.

Lemma forest_predict_confidence (historical_data : list Draw.t)
    (dataset_size : Z) (s : Random.rng) :
  Spec.probabilities_nonneg ext ->
  let c := Base.confidence
             (fst (RandomForest.predict historical_data dataset_size s)) in
  0 <= c /\ c <= 72.
Proof.
  intros Hprob. cbv zeta.
  destruct (forest_predict_cases historical_data dataset_size s)
    as [[E _]|[[E _]|(Hsk & Hh & Hr)]].
  - rewrite E.
    destruct (forest_fallback_predict_spec historical_data dataset_size s)
      as (_ & [[Hc _]|(_ & Hc & _)]); cbv zeta in Hc; rewrite Hc;
      split; discriminate.
  - rewrite E. destruct (fallback_spec RandomForest.self s) as (_ & Hc & _).
    cbv zeta in Hc. rewrite Hc. split; discriminate.
  - destruct (forest_predict_real historical_data dataset_size s Hsk Hh Hr)
      as (result & s' & E & _ & Hconf & _).
    rewrite E, validate_confidence. specialize (Hconf Hprob). split.
    + apply Q.min_glb; [lra|discriminate].
    + eapply Qle_trans; [apply Q.le_min_r|discriminate].
Qed.

End ForestPredict.

(** ** numpy vectors *)

Section VectorFacts.

Local Open Scope Q_scope.

Lemma Qltb_lt (x y : Q) : Py.Qltb x y = true <-> x < y.
Proof.
  unfold Py.Qltb. rewrite negb_true_iff. split.
  - intros H. apply Qnot_le_lt. intros Hle.
    apply Qle_bool_iff in Hle. congruence.
  - intros H. destruct (Qle_bool y x) eqn:E; [|reflexivity].
    apply Qle_bool_iff in E. lra.
Qed.

Lemma Qdiv_nonneg (x c : Q) : 0 <= x -> 0 <= c -> 0 <= x / c.
Proof.
  intros Hx Hc. unfold Qdiv. apply Qmult_le_0_compat; [assumption|].
  now apply Qinv_le_0_compat.
Qed.

Lemma update_at_Forall {A} (P : A -> Prop) (f : A -> A) (l : list A) :
  (forall x, P x -> P (f x)) ->
  forall i, Forall P l -> Forall P (Np.update_at i f l).
Proof.
  intros Hf. induction l as [|x l IH]; intros [|i] Hall; simpl; auto;
    inversion Hall; subst; constructor; auto.
Qed.

Lemma update_at_length {A} (f : A -> A) (l : list A) (i : nat) :
  length (Np.update_at i f l) = length l.
Proof.
  revert i. induction l as [|x l IH]; intros [|i]; simpl; auto.
Qed.

Lemma zeros_nonneg (n : nat) : Spec.nonneg_vector (Np.zeros n).
Proof.
  unfold Spec.nonneg_vector, Np.zeros. apply Forall_forall. intros x Hx.
  apply repeat_spec in Hx. subst. apply Qle_refl.
Qed.

Lemma zeros_length (n : nat) : length (Np.zeros n) = n.
Proof. apply repeat_length. Qed.

Lemma nth_nonneg (v : list Q) (j : nat) : Spec.nonneg_vector v -> 0 <= nth j v 0.
Proof.
  intros Hv. destruct (Nat.lt_ge_cases j (length v)) as [H|H].
  - unfold Spec.nonneg_vector in Hv. rewrite Forall_forall in Hv.
    apply Hv. now apply nth_In.
  - rewrite nth_overflow by assumption. apply Qle_refl.
Qed.

Lemma scale_nonneg (c : Q) (v : list Q) :
  0 <= c -> Spec.nonneg_vector v -> Spec.nonneg_vector (Np.scale c v).
Proof.
  intros Hc Hv. unfold Spec.nonneg_vector, Np.scale in *.
  apply Forall_forall. intros x Hx. apply in_map_iff in Hx.
  destruct Hx as (y & <- & Hy). rewrite Forall_forall in Hv.
  apply Qmult_le_0_compat; auto.
Qed.

Lemma add_nonneg (u v : list Q) :
  Spec.nonneg_vector u -> Spec.nonneg_vector v -> Spec.nonneg_vector (Np.add u v).
Proof.
  intros Hu Hv. unfold Spec.nonneg_vector, Np.add in *.
  apply Forall_forall. intros x Hx. apply in_map_iff in Hx.
  destruct Hx as ([a b] & <- & Hab). cbn [fst snd].
  rewrite Forall_forall in Hu, Hv.
  pose proof (Hu a (in_combine_l _ _ _ _ Hab)).
  pose proof (Hv b (in_combine_r _ _ _ _ Hab)). lra.
Qed.

Lemma div_nonneg (v : list Q) (c : Q) :
  Spec.nonneg_vector v -> 0 <= c -> Spec.nonneg_vector (Np.div v c).
Proof.
  intros Hv Hc. unfold Spec.nonneg_vector, Np.div in *.
  apply Forall_forall. intros x Hx. apply in_map_iff in Hx.
  destruct Hx as (y & <- & Hy). rewrite Forall_forall in Hv.
  apply Qdiv_nonneg; auto.
Qed.

Lemma add_length_le (u v : list Q) : (length (Np.add u v) <= length u)%nat.
Proof. unfold Np.add. rewrite length_map, length_combine. lia. Qed.

Lemma scale_length (c : Q) (v : list Q) : length (Np.scale c v) = length v.
Proof. unfold Np.scale. apply length_map. Qed.

Lemma div_length (v : list Q) (c : Q) : length (Np.div v c) = length v.
Proof. unfold Np.div. apply length_map. Qed.

Lemma normalize_by_max_nonneg (v : list Q) :
  Spec.nonneg_vector v ->
  Spec.nonneg_vector (if Py.Qltb 0 (Py.max_list v) then Np.div v (Py.max_list v)
                 else v).
Proof.
  intros Hv. destruct (Py.Qltb 0 (Py.max_list v)) eqn:E; [|assumption].
  apply Qltb_lt in E. apply div_nonneg; [assumption|lra].
Qed.

Lemma argsort_range (v : list Q) :
  Forall (fun i => (i < length v)%nat) (Np.argsort v).
Proof.
  unfold Np.argsort. apply Forall_forall. intros i Hi.
  apply in_map_iff in Hi. destruct Hi as ([i' x] & <- & Hix).
  apply (proj1 (stable_sort_In _ _ _)) in Hix.
  apply in_combine_l in Hix. apply in_seq in Hix. cbn [fst]. lia.
Qed.

End VectorFacts.

(** ** lstm.py *)

Section LSTMFacts.

Context {ext : Externals}.

Local Open Scope Q_scope.

Lemma sequence_matrix_nonneg (history : list (list Z)) (size : nat) :
  Forall Spec.nonneg_vector (LSTM._build_sequence_matrix history size).
Proof.
  unfold LSTM._build_sequence_matrix. apply Forall_forall. intros row Hrow.
  apply in_map_iff in Hrow. destruct Hrow as (draw & <- & _).
  generalize (zeros_nonneg size). generalize (Np.zeros size).
  induction draw as [|number draw IH]; intros row Hrow; [exact Hrow|].
  cbn [fold_left]. apply IH.
  destruct ((1 <=? number)%Z && (number <=? Z.of_nat size)%Z); [|exact Hrow].
  apply update_at_Forall; [intros; discriminate|exact Hrow].
Qed.

Lemma sine_ramp_nonneg (n : nat) :
  Spec.sine_nonneg ext -> Spec.nonneg_vector (LSTM.sine_ramp n).
Proof.
  intros Hsin. unfold LSTM.sine_ramp, Spec.nonneg_vector.
  apply Forall_forall. intros w Hw. apply in_map_iff in Hw.
  destruct Hw as (i & <- & Hi). apply in_seq in Hi.
  destruct (n - 1)%nat as [|m] eqn:Em.
  - assert (E : Py.of_nat i / Py.of_nat 0 == 0).
    { unfold Qdiv. change (/ Py.of_nat 0) with 0. ring. }
    apply Hsin; rewrite E; discriminate.
  - assert (Hpos : 0 < Py.of_nat (S m)) by (apply of_nat_pos; lia).
    assert (Hle : Py.of_nat i <= Py.of_nat (S m)).
    { unfold Py.of_nat. rewrite <- Zle_Qle. lia. }
    apply Hsin.
    + apply Qdiv_nonneg; [apply of_nat_nonneg|lra].
    + apply Qle_shift_div_r; [assumption|lra].
Qed.

Lemma recent_weighted_profile_spec (ncols : nat) (matrix : list (list Q)) :
  length (LSTM._recent_weighted_profile ncols matrix) = ncols
  /\ (Spec.sine_nonneg ext -> Forall Spec.nonneg_vector matrix ->
      Spec.nonneg_vector (LSTM._recent_weighted_profile ncols matrix)).
Proof.
  unfold LSTM._recent_weighted_profile. cbv zeta.
  set (window := Py.last_n _ matrix).
  destruct (length window * ncols =? 0)%nat.
  { split; [apply zeros_length|intros; apply zeros_nonneg]. }
  split.
  - now rewrite div_length, length_map, length_seq.
  - intros Hsin Hm.
    pose proof (sine_ramp_nonneg (length window) Hsin) as Hw.
    assert (Hwin : Forall Spec.nonneg_vector window).
    { eapply Forall_incl; [apply last_n_incl|exact Hm]. }
    apply div_nonneg; [|now apply sum_nonneg].
    unfold Spec.nonneg_vector. apply Forall_forall. intros x Hx.
    apply in_map_iff in Hx. destruct Hx as (j & <- & _).
    apply sum_nonneg. apply Forall_forall. intros y Hy.
    apply in_map_iff in Hy. destruct Hy as ([row w] & <- & Hrw).
    cbn [fst snd]. rewrite Forall_forall in Hwin.
    unfold Spec.nonneg_vector in Hw. rewrite Forall_forall in Hw.
    apply Qmult_le_0_compat.
    + apply nth_nonneg, Hwin. eapply in_combine_l; eassumption.
    + apply Hw. eapply in_combine_r; eassumption.
Qed.

Lemma exponential_memory_nonneg (ncols : nat) (matrix : list (list Q))
    (alpha : Q) :
  0 <= alpha -> alpha <= 1 -> Forall Spec.nonneg_vector matrix ->
  Spec.nonneg_vector (LSTM._exponential_memory ncols matrix alpha).
Proof.
  intros Ha0 Ha1 Hm. unfold LSTM._exponential_memory. cbv zeta.
  apply normalize_by_max_nonneg.
  generalize (zeros_nonneg ncols). generalize (Np.zeros ncols).
  induction Hm as [|row matrix Hrow _ IH]; intros ema Hema; [exact Hema|].
  cbn [fold_left]. apply IH.
  apply add_nonneg; apply scale_nonneg; auto. lra.
Qed.

Lemma co_occurrence_nonneg (history : list (list Z)) :
  Spec.nonneg_vector (LSTM._co_occurrence_scores history).
Proof.
  unfold LSTM._co_occurrence_scores.
  destruct (Py.last_n _ history) as [|d0 window]; [apply zeros_nonneg|].
  cbv zeta. apply normalize_by_max_nonneg.
  unfold Spec.nonneg_vector. apply Forall_forall. intros x Hx.
  apply in_map_iff in Hx. destruct Hx as (row & <- & Hrow).
  apply sum_nonneg. revert row Hrow. apply Forall_forall.
  assert (Hinit : Forall Spec.nonneg_vector (repeat (Np.zeros 33) 33)).
  { apply Forall_forall. intros row Hrow. apply repeat_spec in Hrow.
    subst. apply zeros_nonneg. }
  revert Hinit. generalize (repeat (Np.zeros 33) 33).
  generalize (d0 :: window). clear d0 window.
  intros window. induction window as [|draw window IH]; intros m Hm;
    [exact Hm|].
  cbn [fold_left]. apply IH. clear IH.
  revert m Hm. generalize (LSTM.combinations2 (Py.sorted (Py.set draw))).
  intros pairs. induction pairs as [|[a b] pairs IH]; intros m Hm; [exact Hm|].
  cbn [fold_left]. apply IH.
  destruct ((1 <=? a)%Z && (a <=? 33)%Z && (1 <=? b)%Z && (b <=? 33)%Z);
    [|exact Hm].
  assert (Hincr : forall i j m0, Forall Spec.nonneg_vector m0 ->
            Forall Spec.nonneg_vector
              (Np.update_at i (Np.update_at j (fun c => c + 1)) m0)).
  { intros i j m0 Hm0. apply update_at_Forall; [|exact Hm0].
    intros row Hrow. apply update_at_Forall; [|exact Hrow].
    intros c Hc. lra. }
  now apply Hincr, Hincr.
Qed.

Lemma predict_red_sequence_spec (red_balls_history : list (list Z))
    (s : Random.rng) :
  let r := fst (LSTM._predict_red_sequence red_balls_history s) in
  Forall (fun n => (1 <= n <= 33)%Z) (fst r)
  /\ (Spec.sine_nonneg ext -> Spec.nonneg_vector (snd r)).
Proof.
  unfold LSTM._predict_red_sequence. cbv zeta.
  pose proof (sequence_matrix_nonneg red_balls_history 33) as Hm.
  destruct (LSTM._build_sequence_matrix red_balls_history 33)
    as [|row0 rows] eqn:Ematrix.
  - unfold Random.bind, Random.ret.
    destruct (sample_spec 6 (Py.range 1 34) s) as (Hincl & _).
    destruct (Random.sample (Py.range 1 34) 6 s) as [picked s1].
    cbn [fst snd] in *. split; [|intros; apply zeros_nonneg].
    apply Forall_forall. intros n Hn. apply (proj1 (sorted_In _ _)) in Hn.
    apply Hincl, range_In in Hn. lia.
  - unfold Random.ret. cbn [fst snd].
    destruct (recent_weighted_profile_spec 33 (row0 :: rows)) as [Hlen Hrecent].
    set (recent := LSTM._recent_weighted_profile 33 (row0 :: rows)) in *.
    set (ema := LSTM._exponential_memory 33 (row0 :: rows) 0.18).
    set (co := LSTM._co_occurrence_scores red_balls_history).
    set (combined := Np.add (Np.add (Np.scale 0.4 recent) (Np.scale 0.3 ema))
                            (Np.scale 0.3 co)).
    set (normalized := if Py.Qltb 0 (Py.max_list combined)
                       then Np.div combined (Py.max_list combined)
                       else combined).
    assert (Hnlen : (length normalized <= 33)%nat).
    { assert (Hc : (length combined <= 33)%nat).
      { unfold combined.
        pose proof (add_length_le (Np.add (Np.scale 0.4 recent) (Np.scale 0.3 ema))
                                  (Np.scale 0.3 co)).
        pose proof (add_length_le (Np.scale 0.4 recent) (Np.scale 0.3 ema)).
        rewrite scale_length in *. lia. }
      unfold normalized. destruct (Py.Qltb 0 _); [rewrite div_length|]; exact Hc. }
    split.
    + apply Forall_forall. intros n Hn. apply (proj1 (sorted_In _ _)) in Hn.
      apply in_map_iff in Hn. destruct Hn as (i & <- & Hi).
      apply (firstn_incl 6) in Hi.
      pose proof (argsort_range (map Qopp normalized)) as Hr.
      rewrite Forall_forall in Hr. apply Hr in Hi. rewrite length_map in Hi. lia.
    + intros Hsin. unfold normalized. apply normalize_by_max_nonneg.
      unfold combined. repeat apply add_nonneg; apply scale_nonneg;
        try discriminate.
      * now apply Hrecent.
      * apply exponential_memory_nonneg; [discriminate|discriminate|exact Hm].
      * apply co_occurrence_nonneg.
Qed.

Lemma lstm_confidence_bounds (score_profile : list Q) (predicted : list Z) :
  Spec.nonneg_vector score_profile ->
  0 <= LSTM._calculate_confidence score_profile predicted
  /\ LSTM._calculate_confidence score_profile predicted <= 68.
Proof.
  intros Hp. unfold LSTM._calculate_confidence.
  destruct score_profile as [|p0 profile]; [split; discriminate|].
  destruct predicted as [|n0 rest]; [split; discriminate|].
  cbv zeta.
  assert (Hsel : Spec.nonneg_vector
                   (LSTM.selected_entries (p0 :: profile) (n0 :: rest))).
  { unfold LSTM.selected_entries, Spec.nonneg_vector.
    apply Forall_forall. intros x Hx. apply in_map_iff in Hx.
    destruct Hx as (num & <- & _). now apply nth_nonneg. }
  destruct (LSTM.selected_entries (p0 :: profile) (n0 :: rest))
    as [|e0 entries]; [split; discriminate|].
  split.
  - apply Q.min_glb; [|discriminate].
    pose proof (mean_nonneg _ Hsel) as Havg.
    pose proof (Q.le_max_l 0.0 (1.0 - Np.std (p0 :: profile))) as Hstab.
    assert (0 <= Qmax 0.0 (1.0 - Np.std (p0 :: profile))) by lra.
    nra.
  - eapply Qle_trans; [apply Q.le_min_r|discriminate].
Qed.

(** The raw result the sequence-memory generator hands to the validator. *)
Lemma lstm_predict_real (historical_data : list Draw.t) (dataset_size : Z)
    (s : Random.rng) :
  (30 <= length historical_data)%nat ->
  (30 <= length (Utils.extract_red_balls
                   (Py.take dataset_size historical_data)))%nat ->
  exists result s',
    LSTM.predict historical_data dataset_size s =
    Base.validate_prediction LSTM.self result s'
    /\ Forall (fun n => (1 <= n <= 33)%Z) (Base.red_balls result)
    /\ (Spec.sine_nonneg ext -> 0 <= Base.confidence result)
    /\ Spec.fallback_flag result = false
    /\ Spec.metadata_str result "model" = Some "lstm_inspired"%string.
Proof.
  intros Hh Hreds. unfold LSTM.predict.
  apply Nat.ltb_ge in Hh, Hreds. rewrite Hh. cbv zeta. rewrite Hreds.
  unfold Random.bind.
  pose proof (predict_red_sequence_spec
                (Utils.extract_red_balls (Py.take dataset_size historical_data)) s)
    as Hred.
  destruct (LSTM._predict_red_sequence _ s) as [[reds profile] s1].
  cbv zeta in Hred. cbn [fst snd] in Hred. destruct Hred as [Hrange Hprofile].
  destruct (LSTM._predict_blue_sequence _ s1) as [blue s2].
  eexists _, s2. split; [reflexivity|].
  cbn [Base.red_balls Base.confidence].
  split; [exact Hrange|]. split; [|split; reflexivity].
  intros Hsin. now apply lstm_confidence_bounds, Hprofile.
Qed.

Lemma lstm_predict_fallback (historical_data : list Draw.t)
    (dataset_size : Z) (s : Random.rng) :
  (length historical_data < 30)%nat
  \/ (length (Utils.extract_red_balls
                (Py.take dataset_size historical_data)) < 30)%nat ->
  LSTM.predict historical_data dataset_size s =
  Base.generate_random_fallback LSTM.self s.
Proof.
  intros H. unfold LSTM.predict.
  destruct (length historical_data <? 30)%nat eqn:Hh; [reflexivity|].
  cbv zeta. apply Nat.ltb_ge in Hh. destruct H as [H|H]; [lia|].
  apply Nat.ltb_lt in H. now rewrite H.
Qed.

Lemma lstm_predict_shape (historical_data : list Draw.t) (dataset_size : Z)
    (s : Random.rng) :
  Spec.valid_shape (fst (LSTM.predict historical_data dataset_size s)).
Proof.
  destruct (Nat.lt_ge_cases (length historical_data) 30) as [H|H];
    [rewrite lstm_predict_fallback by auto; apply fallback_spec|].
  destruct (Nat.lt_ge_cases
              (length (Utils.extract_red_balls
                         (Py.take dataset_size historical_data))) 30) as [H'|H'];
    [rewrite lstm_predict_fallback by auto; apply fallback_spec|].
  destruct (lstm_predict_real historical_data dataset_size s H H')
    as (result & s' & Heq & Hrange & _).
  rewrite Heq. now apply validate_valid_shape.
Qed.

Lemma lstm_predict_confidence (historical_data : list Draw.t)
    (dataset_size : Z) (s : Random.rng) :
  Spec.sine_nonneg ext ->
  let c := Base.confidence (fst (LSTM.predict historical_data dataset_size s)) in
  0 <= c /\ c <= 68.
Proof.
  intros Hsin. cbv zeta.
  assert (Hfb : 0 <= Base.confidence (fst (Base.generate_random_fallback LSTM.self s))
                /\ Base.confidence (fst (Base.generate_random_fallback LSTM.self s))
                   <= 68).
  { destruct (fallback_spec LSTM.self s) as (_ & Hc & _).
    cbv zeta in Hc. rewrite Hc. split; discriminate. }
  destruct (Nat.lt_ge_cases (length historical_data) 30) as [H|H];
    [rewrite lstm_predict_fallback by auto; apply Hfb|].
  destruct (Nat.lt_ge_cases
              (length (Utils.extract_red_balls
                         (Py.take dataset_size historical_data))) 30) as [H'|H'];
    [rewrite lstm_predict_fallback by auto; apply Hfb|].
  destruct (lstm_predict_real historical_data dataset_size s H H')
    as (result & s' & Heq & _ & Hconf & _).
  rewrite Heq, validate_confidence. specialize (Hconf Hsin). split.
  - apply Q.min_glb; [assumption|discriminate].
  - eapply Qle_trans; [apply Q.le_min_r|discriminate].
Qed.

End LSTMFacts.

(** ** ensemble.py: predict *)

Section EnsembleFacts.

Context {ext : Externals}.

Local Open Scope Q_scope.

Lemma combine_scores_keys (base_scores vote_scores : list (Z * Q))
    (base_weight : Q) :
  map fst (Ensemble._combine_scores base_scores vote_scores base_weight)
  = map fst base_scores.
Proof.
  unfold Ensemble._combine_scores.
  rewrite normalize_scores_keys, map_map. reflexivity.
Qed.

Lemma build_red_probability_keys (self : Ensemble.EnsemblePredictor)
    (red_history : list (list Z)) (historical_data : list Draw.t) :
  map fst (Ensemble._build_red_probability self red_history historical_data)
  = Py.range 1 34.
Proof.
  unfold Ensemble._build_red_probability. cbv zeta.
  rewrite normalize_scores_keys, map_map. apply map_id.
Qed.

Lemma build_blue_probability_keys (blue_history : list Z)
    (historical_data : list Draw.t) :
  map fst (Ensemble._build_blue_probability blue_history historical_data)
  = Py.range 1 17.
Proof.
  unfold Ensemble._build_blue_probability. cbv zeta.
  rewrite normalize_scores_keys, map_map. apply map_id.
Qed.

Lemma ensemble_confidence_clamped (self : Ensemble.EnsemblePredictor)
    (predictions : list (string * Base.PredictionResult))
    (combined_scores : list (Z * Q)) (selected_numbers : list Z)
    (sample_size : nat) :
  52 <= Base.max_confidence (Ensemble.base self) ->
  let c := Ensemble._calculate_ensemble_confidence
             self predictions combined_scores selected_numbers sample_size in
  52 <= c /\ c <= Base.max_confidence (Ensemble.base self).
Proof.
  intros Hmax. unfold Ensemble._calculate_ensemble_confidence. cbv zeta. split.
  - apply Q.min_glb; [|assumption].
    eapply Qle_trans; [|apply Q.le_max_r]. discriminate.
  - apply Q.le_min_r.
Qed.

(** The ensemble either takes the random fallback or validates a raw
    result whose primary numbers are pool numbers and whose confidence is
    already clamped. *)
Lemma ensemble_predict_cases (self : Ensemble.EnsemblePredictor)
    (historical_data : list Draw.t) (dataset_size : Z) (s : Random.rng) :
  (Ensemble.predict self historical_data dataset_size s =
     Base.generate_random_fallback (Ensemble.base self) s
   /\ (historical_data = []
       \/ (length (Utils.extract_red_balls
                     (Py.take dataset_size historical_data)) < 20)%nat))
  \/ (exists result s',
        Ensemble.predict self historical_data dataset_size s =
        Base.validate_prediction (Ensemble.base self) result s'
        /\ Forall (fun n => (1 <= n <= 33)%Z) (Base.red_balls result)
        /\ (52 <= Base.max_confidence (Ensemble.base self) ->
            52 <= Base.confidence result)
        /\ Spec.fallback_flag result = false
        /\ (20 <= length (Utils.extract_red_balls
                            (Py.take dataset_size historical_data)))%nat).
Proof.
  unfold Ensemble.predict.
  destruct historical_data as [|d0 h] eqn:Eh; [left; auto|].
  rewrite <- Eh. cbv zeta.
  destruct (length (Utils.extract_red_balls _) <? 20)%nat eqn:Hlen.
  { apply Nat.ltb_lt in Hlen. left. auto. }
  apply Nat.ltb_ge in Hlen. right. unfold Random.bind.
  destruct (Ensemble._run_component_predictors _ dataset_size s)
    as [component_predictions s1].
  destruct (Ensemble._score_blue_candidates self _ component_predictions _ s1)
    as [[predicted_blue blue_candidates] s2].
  eexists _, s2. split; [reflexivity|].
  cbn [Base.red_balls Base.confidence].
  split; [|split; [|split; [reflexivity|exact Hlen]]].
  - apply Forall_forall. intros n Hn. apply select_numbers_incl in Hn.
    rewrite combine_scores_keys, build_red_probability_keys in Hn.
    apply range_In in Hn. lia.
  - intros Hmax. now apply ensemble_confidence_clamped.
Qed.

Lemma ensemble_predict_shape (self : Ensemble.EnsemblePredictor)
    (historical_data : list Draw.t) (dataset_size : Z) (s : Random.rng) :
  Spec.valid_shape (fst (Ensemble.predict self historical_data dataset_size s)).
Proof.
  destruct (ensemble_predict_cases self historical_data dataset_size s)
    as [[E _]|(result & s' & E & Hrange & _)]; rewrite E.
  - apply fallback_spec.
  - now apply validate_valid_shape.
Qed.

Lemma ensemble_predict_confidence (weights : option (list (string * Q)))
    (historical_data : list Draw.t) (dataset_size : Z) (s : Random.rng) :
  let c := Base.confidence
             (fst (Ensemble.predict (Ensemble.__init__ weights)
                                    historical_data dataset_size s)) in
  0 <= c /\ c <= 80.
Proof.
  cbv zeta.
  destruct (ensemble_predict_cases (Ensemble.__init__ weights)
                                   historical_data dataset_size s)
    as [[E _]|(result & s' & E & _ & Hconf & _)]; rewrite E.
  - destruct (fallback_spec (Ensemble.base (Ensemble.__init__ weights)) s)
      as (_ & Hc & _).
    cbv zeta in Hc. rewrite Hc. split; discriminate.
  - rewrite validate_confidence.
    assert (H52 : 52 <= Base.confidence result) by (apply Hconf; discriminate).
    split.
    + apply Q.min_glb; [lra|discriminate].
    + eapply Qle_trans; [apply Q.le_min_r|discriminate].
Qed.

End EnsembleFacts.

(** ** frequency.py: confidence *)

Section FrequencyConfidence.

Local Open Scope Q_scope.

Lemma sumZ_acc (l : list Z) (acc : Z) :
  fold_left Z.add l acc = (acc + Py.sumZ l)%Z.
Proof.
  unfold Py.sumZ. revert acc. induction l as [|x l IH]; intros acc; simpl.
  - lia.
  - rewrite IH, (IH x). lia.
Qed.

Lemma sumZ_nonneg (l : list Z) :
  Forall (fun x => (0 <= x)%Z) l -> (0 <= Py.sumZ l)%Z.
Proof.
  induction 1 as [|x l Hx _ IH]; [unfold Py.sumZ; simpl; lia|].
  unfold Py.sumZ. simpl. rewrite sumZ_acc. lia.
Qed.

Lemma calculate_frequency_nonneg (numbers : list Z) (range_max : Z) :
  Forall (fun kv => (0 <= snd kv)%Z)
         (Utils.calculate_frequency numbers range_max).
Proof.
  unfold Utils.calculate_frequency. apply Forall_forall. intros kv Hkv.
  apply in_map_iff in Hkv. destruct Hkv as (num & <- & _). cbn [snd]. lia.
Qed.

Lemma dict_getZ_nonneg (d : list (Z * Z)) (k : Z) :
  Forall (fun kv => (0 <= snd kv)%Z) d -> (0 <= Py.dict_get d k 0%Z)%Z.
Proof.
  induction 1 as [|[k0 v0] d H0 _ IH]; simpl; [lia|].
  destruct (k =? k0)%Z; auto.
Qed.

(** [calculate_frequency_confidence] stays within its documented range
    whenever the table holds counts. *)
Lemma frequency_confidence_bounds (selected_numbers : list Z)
    (frequency_dict : list (Z * Z)) :
  Forall (fun kv => (0 <= snd kv)%Z) frequency_dict ->
  let c := Utils.calculate_frequency_confidence selected_numbers frequency_dict in
  50 <= c /\ c <= 75.
Proof.
  intros Hd. unfold Utils.calculate_frequency_confidence. cbv zeta.
  destruct (Z.eqb_spec (Py.sumZ (map snd frequency_dict)) 0) as [|Hne];
    [split; discriminate|].
  assert (Htotal : (0 < Py.sumZ (map snd frequency_dict))%Z).
  { assert (0 <= Py.sumZ (map snd frequency_dict))%Z; [|lia].
    apply sumZ_nonneg. apply Forall_forall. intros x Hx.
    apply in_map_iff in Hx. destruct Hx as (kv & <- & Hkv).
    rewrite Forall_forall in Hd. now apply Hd. }
  assert (Hsel : (0 <= Py.sumZ (map (fun num => Py.dict_get frequency_dict num 0%Z)
                                    selected_numbers))%Z).
  { apply sumZ_nonneg. apply Forall_forall. intros x Hx.
    apply in_map_iff in Hx. destruct Hx as (num & <- & _).
    now apply dict_getZ_nonneg. }
  set (sel := Py.sumZ (map _ selected_numbers)) in *.
  set (total := Py.sumZ (map snd frequency_dict)) in *.
  assert (Hq : 0 <= inject_Z sel / inject_Z total).
  { apply Qdiv_nonneg; change 0 with (inject_Z 0); rewrite <- Zle_Qle; lia. }
  split.
  - apply Q.min_glb; [|discriminate]. nra.
  - eapply Qle_trans; [apply Q.le_min_r|discriminate].
Qed.

Lemma frequency_predict_confidence (historical_data : list Draw.t)
    (dataset_size : Z) (s : Random.rng) :
  let c := Base.confidence
             (fst (Frequency.predict historical_data dataset_size s)) in
  0 <= c /\ c <= 75.
Proof.
  cbv zeta.
  assert (Hfb : 0 <= Base.confidence
                       (fst (Base.generate_random_fallback Frequency.self s))
                /\ Base.confidence
                     (fst (Base.generate_random_fallback Frequency.self s)) <= 75).
  { destruct (fallback_spec Frequency.self s) as (_ & Hc & _).
    cbv zeta in Hc. rewrite Hc. split; discriminate. }
  destruct historical_data as [|d0 h] eqn:Eh; [exact Hfb|]. rewrite <- Eh.
  destruct (Utils.extract_red_balls (Py.take dataset_size historical_data))
    as [|r0 reds] eqn:Ereds.
  - subst historical_data. unfold Frequency.predict. rewrite Ereds. exact Hfb.
  - destruct (frequency_predict_eq historical_data dataset_size s)
      as (blue & c & m & _ & Heq & Hc & _);
      [subst; discriminate|congruence|].
    rewrite Heq. cbn [Base.confidence].
    pose proof (frequency_confidence_bounds
                  (Py.sorted
                     (map fst
                        (firstn 6
                           (Py.sorted_by_count_desc
                              (Utils.calculate_frequency
                                 (concat (Utils.extract_red_balls
                                            (Py.take dataset_size historical_data)))
                                 33)))))
                  _ (calculate_frequency_nonneg
                       (concat (Utils.extract_red_balls
                                  (Py.take dataset_size historical_data))) 33))
      as Hb.
    cbv zeta in Hb. rewrite <- Hc in Hb. split.
    + apply Q.min_glb; [lra|discriminate].
    + eapply Qle_trans; [apply Q.le_min_r|discriminate].
Qed.

End FrequencyConfidence.

(** ** All generators *)

Section Generators.

Context {ext : Externals}.

(** C1.  For every generator and every history (degenerate or not), analysis
    window and entropy source, the result of [predict] has exactly six
    distinct primary numbers within 1..33 in strictly ascending order and a
    secondary number within 1..16. *)
Theorem every_generator_returns_valid_shape (g : generator)
    (historical_data : list Draw.t) (dataset_size : Z) (s : Random.rng) :
  Spec.valid_shape (fst (predict g historical_data dataset_size s)).
Proof.
  destruct g; cbn [predict].
  - apply frequency_predict_shape.
  - apply trend_predict_shape.
  - apply forest_predict_shape.
  - apply lstm_predict_shape.
  - apply ensemble_predict_shape.
Qed.

Lemma empty_history_is_fallback (g : generator) (dataset_size : Z)
    (s : Random.rng) :
  exists self : Base.LotteryPredictor,
    predict g [] dataset_size s = Base.generate_random_fallback self s.
Proof.
  destruct g; cbn [predict].
  - now exists Frequency.self.
  - now exists Trend.self.
  - exists RandomForest.self. unfold RandomForest.predict.
    destruct HAS_SKLEARN; reflexivity.
  - now exists LSTM.self.
  - now exists (Ensemble.base (Ensemble.__init__ weights)).
Qed.

(** C2.  Called with an empty history, every generator returns (nothing is
    raised: [predict] is total) the random fallback: a validly shaped
    result with confidence exactly 30 and [fallback = True] in its
    metadata, whose numbers are drawn from the entropy source: the primary
    numbers are a sample of six from 1..33, sorted, the secondary number is
    the next draw from 1..16.  The result is random indeed: every
    combination of six pool numbers and a secondary number is returned for
    some entropy source. *)
Theorem empty_history_gives_random_fallback (g : generator)
    (dataset_size : Z) :
  (forall s : Random.rng,
      let r := fst (predict g [] dataset_size s) in
      let picked := Random.sample (Py.range 1 34) 6 s in
      Spec.valid_shape r
      /\ Base.confidence r = 30.0%Q
      /\ Base.metadata r = Some [("fallback"%string, Base.PBool true)]
      /\ Base.red_balls r = Py.sorted (fst picked)
      /\ Base.blue_ball r = fst (Random.randint 1 16 (snd picked)))
  /\ (forall (red : list Z) (blue : Z),
         length red = 6%nat -> StronglySorted Z.lt red ->
         Forall (fun n => 1 <= n <= 33) red -> 1 <= blue <= 16 ->
         exists s : Random.rng,
           Base.red_balls (fst (predict g [] dataset_size s)) = red
           /\ Base.blue_ball (fst (predict g [] dataset_size s)) = blue).
Proof.
  split.
  - intros s. cbv zeta.
    destruct (empty_history_is_fallback g dataset_size s) as (self & E).
    rewrite E.
    destruct (fallback_spec self s) as (Hshape & Hc & Hm).
    destruct (fallback_numbers self s) as (Hr & Hb).
    split; [exact Hshape|]. split; [exact Hc|]. split; [exact Hm|].
    split; [exact Hr|exact Hb].
  - intros red blue Hlen Hst Hpool Hblue.
    destruct (empty_history_is_fallback g dataset_size []) as (self & _).
    destruct (fallback_reaches self red blue Hlen Hst Hpool Hblue)
      as (s & Hr & Hb).
    exists s.
    destruct (empty_history_is_fallback g dataset_size s) as (self' & E).
    rewrite E.
    destruct (fallback_numbers self s) as (Hr1 & Hb1).
    destruct (fallback_numbers self' s) as (Hr2 & Hb2).
    cbv zeta in *. split; congruence.
Qed.

(** C3.  The ceilings are 75 (frequency), 70 (trend), 72 (forest), 68
    (sequence memory) and 80 (ensemble).  Provided the sine is not negative
    on the quarter period and the classifier's probabilities are not
    negative, the confidence of every generator on every history lies
    between 0 and that generator's ceiling. *)
Theorem confidence_within_zero_and_ceiling :
  Spec.sine_nonneg ext -> Spec.probabilities_nonneg ext ->
  ((ceiling GFrequency == 75)%Q /\ (ceiling GTrend == 70)%Q
   /\ (ceiling GForest == 72)%Q /\ (ceiling GSequenceMemory == 68)%Q
   /\ forall weights, (ceiling (GEnsemble weights) == 80)%Q)
  /\ forall (g : generator) (historical_data : list Draw.t)
            (dataset_size : Z) (s : Random.rng),
       (0 <= Base.confidence (fst (predict g historical_data dataset_size s)))%Q
       /\ (Base.confidence (fst (predict g historical_data dataset_size s))
           <= ceiling g)%Q.
Proof.
  intros Hsin Hprob. split.
  { repeat split; try reflexivity. }
  intros g historical_data dataset_size s. destruct g; cbn [predict].
  - destruct (frequency_predict_confidence historical_data dataset_size s)
      as [H0 H1]. split; [exact H0|].
    eapply Qle_trans; [exact H1|discriminate].
  - destruct (trend_predict_confidence historical_data dataset_size s)
      as [H0 H1]. split; [exact H0|].
    eapply Qle_trans; [exact H1|discriminate].
  - destruct (forest_predict_confidence historical_data dataset_size s Hprob)
      as [H0 H1]. split; [exact H0|].
    eapply Qle_trans; [exact H1|discriminate].
  - destruct (lstm_predict_confidence historical_data dataset_size s Hsin)
      as [H0 H1]. split; [exact H0|].
    eapply Qle_trans; [exact H1|discriminate].
  - destruct (ensemble_predict_confidence weights historical_data dataset_size s)
      as [H0 H1]. split; [exact H0|].
    eapply Qle_trans; [exact H1|discriminate].
Qed.

End Generators.

Lemma confidence_within_zero_and_ceiling_witness :
  (0 <= Base.confidence
          (fst (@predict Fixtures.fitted_externals GForest
                         Fixtures.SAMPLE_DATA 50 [])))%Q
  /\ (Base.confidence
        (fst (@predict Fixtures.fitted_externals GForest
                       Fixtures.SAMPLE_DATA 50 []))
      <= ceiling GForest)%Q.
Proof.
  apply (@confidence_within_zero_and_ceiling Fixtures.fitted_externals).
  - intros t H0 H1. exact H0.
  - intros X y latest slots E. cbn in E. injection E as <-.
    repeat constructor; discriminate.
Defined.

(** ** History length thresholds *)

Section Thresholds.

Context {ext : Externals}.

Lemma take_incl {A} (n : Z) (l : list A) : incl (Py.take n l) l.
Proof. unfold Py.take. destruct (0 <=? n); apply firstn_incl. Qed.

Lemma take_length {A} (n : Z) (l : list A) :
  0 <= n -> length (Py.take n l) = Nat.min (Z.to_nat n) (length l).
Proof.
  intros Hn. unfold Py.take. apply Z.leb_le in Hn. rewrite Hn.
  apply length_firstn.
Qed.

Lemma extract_red_balls_well_formed (historical_data : list Draw.t) :
  Forall Spec.well_formed historical_data ->
  length (Utils.extract_red_balls historical_data) = length historical_data.
Proof.
  induction 1 as [|draw h Hwf _ IH]; [reflexivity|].
  unfold Utils.extract_red_balls in *. cbn [flat_map].
  rewrite length_app, IH. cbn [length]. f_equal.
  destruct Hwf as (red & blue & Hred & _ & Hlen & _).
  unfold Draw.get_red. rewrite Hred.
  destruct red as [|r0 red]; [discriminate|]. now rewrite Hlen.
Qed.

Lemma window_red_length (historical_data : list Draw.t) (dataset_size : Z) :
  Forall Spec.well_formed historical_data -> 0 <= dataset_size ->
  length (Utils.extract_red_balls (Py.take dataset_size historical_data))
  = Nat.min (Z.to_nat dataset_size) (length historical_data).
Proof.
  intros Hwf Hds. rewrite extract_red_balls_well_formed.
  - now apply take_length.
  - eapply Forall_incl; [apply take_incl|exact Hwf].
Qed.

Lemma fallback_flag_validate (self : Base.LotteryPredictor)
    (result : Base.PredictionResult) (s : Random.rng) :
  Spec.fallback_flag (fst (Base.validate_prediction self result s))
  = Spec.fallback_flag result.
Proof. unfold Spec.fallback_flag. now rewrite validate_metadata. Qed.

Lemma metadata_str_validate (self : Base.LotteryPredictor)
    (result : Base.PredictionResult) (s : Random.rng) (key : string) :
  Spec.metadata_str (fst (Base.validate_prediction self result s)) key
  = Spec.metadata_str result key.
Proof. unfold Spec.metadata_str. now rewrite validate_metadata. Qed.

Lemma not_fallback_without_flag (r : Base.PredictionResult) :
  Spec.fallback_flag r = false -> ~ Spec.is_fallback r.
Proof. intros H [_ H']. congruence. Qed.

(** With some six-number draw in its window the degraded forest path
    reports confidence 55. *)
Lemma forest_fallback_predict_real (historical_data : list Draw.t)
    (dataset_size : Z) (s : Random.rng) :
  historical_data <> [] ->
  Utils.extract_red_balls
    (Py.take (Z.min dataset_size (Z.of_nat (length historical_data)))
             historical_data) <> [] ->
  Base.confidence
    (fst (RandomForest._fallback_predict historical_data dataset_size s))
  = 55.0%Q.
Proof.
  intros Hh Hreds. unfold RandomForest._fallback_predict.
  destruct historical_data as [|d0 h] eqn:Eh; [congruence|].
  rewrite <- Eh in *. cbv zeta.
  destruct (Utils.extract_red_balls _) as [|r0 reds]; [congruence|].
  unfold Random.bind, Random.ret.
  match goal with |- context [match ?b with [] => _ | _ :: _ => _ end s] =>
    destruct (match b with
              | [] => Random.randint 1 16
              | _ :: _ => RandomForest._predict_blue_ball b
              end s) as [blue s1] end.
  reflexivity.
Qed.

Lemma forest_not_fallback (historical_data : list Draw.t) (dataset_size : Z)
    (s : Random.rng) :
  Forall Spec.well_formed historical_data ->
  (15 <= length historical_data)%nat -> 15 <= dataset_size ->
  ~ Spec.is_fallback
      (fst (RandomForest.predict historical_data dataset_size s))
  /\ (HAS_SKLEARN = true ->
      Spec.metadata_str
        (fst (RandomForest.predict historical_data dataset_size s)) "model"
      = Some "random_forest"%string).
Proof.
  intros Hwf Hlen Hds.
  assert (Hwin : (15 <= length (Utils.extract_red_balls
                                  (Py.take dataset_size historical_data)))%nat).
  { rewrite window_red_length by (auto; lia). lia. }
  destruct (forest_predict_cases historical_data dataset_size s)
    as [[E [Hsk|Hshort]]|[[E Hshort]|(Hsk & _ & _)]].
  - rewrite E. split; [|congruence].
    intros [Hc _]. rewrite forest_fallback_predict_real in Hc.
    + vm_compute in Hc. discriminate.
    + intros ->. simpl in Hlen. lia.
    + intros Hnil. apply (f_equal (@length _)) in Hnil.
      rewrite window_red_length in Hnil by (auto; lia).
      simpl in Hnil. lia.
  - lia.
  - lia.
  - destruct (forest_predict_real historical_data dataset_size s Hsk Hlen Hwin)
      as (result & s' & E & _ & _ & Hflag & Hmodel).
    rewrite E. split.
    + apply not_fallback_without_flag. now rewrite fallback_flag_validate.
    + intros _. now rewrite metadata_str_validate.
Qed.

End Thresholds.

(** C4 (as amended).  On a history of well-formed draws:
    - with exactly 49 draws and an analysis window of at least 30, the
      trend, sequence-memory and forest generators do not return the
      fallback shape; trend and sequence memory report their own method in
      the metadata, and so does the forest when the modelling library is
      installed;
    - with exactly 19 draws the trend and sequence-memory generators return
      the fallback shape, whereas the forest generator, whose minimum is 15
      draws, does not (for a window of at least 15). *)
Theorem history_length_thresholds {ext : Externals}
    (historical_data : list Draw.t) (dataset_size : Z) (s : Random.rng) :
  Forall Spec.well_formed historical_data ->
  (length historical_data = 49%nat -> 30 <= dataset_size ->
   (~ Spec.is_fallback (fst (Trend.predict historical_data dataset_size s))
    /\ Spec.metadata_str (fst (Trend.predict historical_data dataset_size s))
                         "trend_method"
       = Some (if HAS_STATSMODELS then "arima" else "moving_average")%string)
   /\ (~ Spec.is_fallback (fst (LSTM.predict historical_data dataset_size s))
       /\ Spec.metadata_str (fst (LSTM.predict historical_data dataset_size s))
                            "model"
          = Some "lstm_inspired"%string)
   /\ (~ Spec.is_fallback
           (fst (RandomForest.predict historical_data dataset_size s))
       /\ (HAS_SKLEARN = true ->
           Spec.metadata_str
             (fst (RandomForest.predict historical_data dataset_size s)) "model"
           = Some "random_forest"%string)))
  /\ (length historical_data = 19%nat ->
      Spec.is_fallback (fst (Trend.predict historical_data dataset_size s))
      /\ Spec.is_fallback (fst (LSTM.predict historical_data dataset_size s))
      /\ (15 <= dataset_size ->
          ~ Spec.is_fallback
              (fst (RandomForest.predict historical_data dataset_size s)))).
Proof.
  intros Hwf. split.
  - intros Hlen Hds.
    assert (Hwin : (30 <= length (Utils.extract_red_balls
                                    (Py.take dataset_size historical_data)))%nat).
    { rewrite window_red_length by (auto; lia). lia. }
    assert (Hh : (30 <= length historical_data)%nat) by lia.
    split; [|split].
    + destruct (trend_predict_real historical_data dataset_size Hh Hwin)
        as (result & E & _ & _ & Hflag & Hmethod).
      rewrite E. split.
      * apply not_fallback_without_flag. now rewrite fallback_flag_validate.
      * now rewrite metadata_str_validate.
    + destruct (lstm_predict_real historical_data dataset_size s Hh Hwin)
        as (result & s' & E & _ & _ & Hflag & Hmodel).
      rewrite E. split.
      * apply not_fallback_without_flag. now rewrite fallback_flag_validate.
      * now rewrite metadata_str_validate.
    + apply forest_not_fallback; auto; lia.
  - intros Hlen. split; [|split].
    + rewrite trend_predict_fallback by lia. apply fallback_is_fallback.
    + rewrite lstm_predict_fallback by lia. apply fallback_is_fallback.
    + intros Hds. apply forest_not_fallback; auto; lia.
Qed.

Lemma sample_data_well_formed : Forall Spec.well_formed Fixtures.SAMPLE_DATA.
Proof.
  unfold Fixtures.SAMPLE_DATA.
  repeat (constructor;
          [eexists _, _; split; [reflexivity|]; split; [reflexivity|];
           split; [reflexivity|]; split;
           [repeat (constructor; [cbn; intuition discriminate|]); constructor
           |split; [repeat constructor; lia|lia]]|]).
  constructor.
Qed.

Lemma history_length_thresholds_witness :
  Spec.is_fallback
    (fst (@Trend.predict (Fixtures.plain_externals true)
                         Fixtures.history19 50 [])).
Proof.
  apply (@history_length_thresholds (Fixtures.plain_externals true)
                                    Fixtures.history19 50 []).
  - eapply Forall_incl; [apply firstn_incl|apply sample_data_well_formed].
  - reflexivity.
Defined.

(** C4 as stated fails: given the 19 newest draws of the sample history the
    forest generator does not return the fallback shape, whether or not the
    modelling library is installed; its confidence is not 30. *)
Lemma forest_runs_on_19_draws :
  ~ Spec.is_fallback
      (fst (@RandomForest.predict (Fixtures.plain_externals true)
                                  Fixtures.history19 50 []))
  /\ ~ Spec.is_fallback
         (fst (@RandomForest.predict (Fixtures.plain_externals false)
                                     Fixtures.history19 50 [])).
Proof.
  split; intros [Hc _]; vm_compute in Hc; discriminate.
Qed.

(** * Further properties of the code *)

(** ** utils.py: extraction and counting *)

(** X1.  [extract_red_balls] keeps, in history order, exactly the draws
    whose primary list has six entries: every row it returns has six
    numbers, and nothing else about a row is checked. *)
Theorem extract_red_balls_keeps_six_number_draws
    (historical_data : list Draw.t) :
  Utils.extract_red_balls historical_data =
    filter (fun red => (length red =? 6)%nat)
           (map Draw.get_red historical_data)
  /\ Forall (fun red => length red = 6%nat)
            (Utils.extract_red_balls historical_data)
  /\ (length (Utils.extract_red_balls historical_data)
      <= length historical_data)%nat.
Proof.
  assert (E : Utils.extract_red_balls historical_data =
              filter (fun red => (length red =? 6)%nat)
                     (map Draw.get_red historical_data)).
  { unfold Utils.extract_red_balls.
    induction historical_data as [|draw h IH]; [reflexivity|].
    cbn [flat_map map filter]. rewrite IH. cbv zeta.
    destruct (Draw.get_red draw) as [|x red]; [reflexivity|].
    destruct (length (x :: red) =? 6)%nat; reflexivity. }
  rewrite E. split; [reflexivity|]. split.
  - apply Forall_forall. intros red Hred. apply filter_In in Hred.
    now apply Nat.eqb_eq.
  - etransitivity; [apply filter_length_le|]. now rewrite length_map.
Qed.

(** X2.  [extract_blue_balls] returns the secondary numbers of the
    history that lie within 1..16, one entry per draw that has one, in the
    order of the draws: it is the list of the secondary numbers present,
    filtered by the pool.  So a draw without one (or with one out of the
    pool) contributes nothing and the list can be shorter than the
    history. *)
Theorem extract_blue_balls_within_pool (historical_data : list Draw.t) :
  Utils.extract_blue_balls historical_data =
  filter (fun b => (1 <=? b) && (b <=? 16))
         (flat_map (fun draw => match Draw.get_blue draw with
                                | Some b => [b]
                                | None => []
                                end)
                   historical_data)
  /\ (forall b,
         In b (Utils.extract_blue_balls historical_data) <->
         1 <= b <= 16
         /\ exists draw, In draw historical_data /\ Draw.get_blue draw = Some b)
  /\ (length (Utils.extract_blue_balls historical_data)
      <= length historical_data)%nat.
Proof.
  split; [|split].
  - unfold Utils.extract_blue_balls.
    induction historical_data as [|draw h IH]; [reflexivity|].
    cbn [flat_map]. rewrite filter_app, <- IH. f_equal.
    destruct (Draw.get_blue draw) as [v|]; [|reflexivity].
    cbn [filter].
    destruct (Z.eqb_spec v 0) as [->|Hv]; [reflexivity|].
    cbn [negb andb]. now destruct ((1 <=? v) && (v <=? 16)).
  - intros b. unfold Utils.extract_blue_balls. rewrite in_flat_map. split.
    + intros (draw & Hin & Hb).
      destruct (Draw.get_blue draw) as [v|] eqn:E; [|destruct Hb].
      destruct (negb (v =? 0) && (1 <=? v) && (v <=? 16)) eqn:Hc;
        [|destruct Hb].
      destruct Hb as [<-|[]].
      apply andb_true_iff in Hc. destruct Hc as [Hc H16].
      apply andb_true_iff in Hc. destruct Hc as [_ H1].
      rewrite Z.leb_le in H1, H16. split; [lia|]. exists draw. auto.
    + intros (Hr & draw & Hin & E). exists draw. split; [assumption|].
      rewrite E.
      assert (Hc : negb (b =? 0) && (1 <=? b) && (b <=? 16) = true).
      { rewrite !andb_true_iff, negb_true_iff, Z.eqb_neq, !Z.leb_le. lia. }
      rewrite Hc. now left.
  - unfold Utils.extract_blue_balls.
    induction historical_data as [|draw h IH]; [apply Nat.le_refl|].
    cbn [flat_map length]. rewrite length_app.
    destruct (Draw.get_blue draw) as [v|]; [|cbn [length]; lia].
    destruct (negb (v =? 0) && (1 <=? v) && (v <=? 16)); cbn [length]; lia.
Qed.

Lemma sumZ_cons (x : Z) (l : list Z) : Py.sumZ (x :: l) = x + Py.sumZ l.
Proof. unfold Py.sumZ. cbn [fold_left]. now rewrite sumZ_acc. Qed.

Lemma sumZ_app (l l' : list Z) : Py.sumZ (l ++ l') = Py.sumZ l + Py.sumZ l'.
Proof.
  induction l as [|x l IH]; [reflexivity|].
  cbn [app]. rewrite !sumZ_cons, IH. lia.
Qed.

Lemma dict_get_tabulate {V} (f : Z -> V) (keys : list Z) (k : Z) (default : V) :
  Py.dict_get (map (fun num => (num, f num)) keys) k default =
  if Py.mem k keys then f k else default.
Proof.
  induction keys as [|k0 keys IH].
  - reflexivity.
  - cbn [map Py.dict_get]. destruct (Z.eqb_spec k k0) as [->|Hne].
    + assert (H : Py.mem k0 (k0 :: keys) = true) by (apply mem_true; now left).
      now rewrite H.
    + rewrite IH. destruct (Py.mem k keys) eqn:Hm.
      * assert (H : Py.mem k (k0 :: keys) = true)
          by (apply mem_true; right; now apply mem_true).
        now rewrite H.
      * assert (H : Py.mem k (k0 :: keys) = false).
        { apply mem_false. rewrite mem_false in Hm. intros [H|H]; congruence. }
        now rewrite H.
Qed.

Lemma mem_range (a b x : Z) :
  Py.mem x (Py.range a b) = (a <=? x) && (x <? b).
Proof.
  destruct ((a <=? x) && (x <? b)) eqn:E.
  - apply mem_true, range_In. apply andb_true_iff in E.
    rewrite Z.leb_le, Z.ltb_lt in E. lia.
  - apply mem_false. rewrite range_In. apply andb_false_iff in E.
    rewrite Z.leb_gt, Z.ltb_ge in E. lia.
Qed.

(** Over distinct keys, the counts of a list add up to the number of its
    elements that are keys. *)
Lemma count_occ_total (numbers keys : list Z) :
  NoDup keys ->
  Py.sumZ (map (fun num => Z.of_nat (count_occ Z.eq_dec numbers num)) keys) =
  Z.of_nat (length (filter (fun n => Py.mem n keys) numbers)).
Proof.
  intros Hnd. induction numbers as [|x numbers IH].
  - cbn [count_occ filter length]. clear Hnd.
    induction keys as [|k keys IHk]; [reflexivity|].
    cbn [map]. rewrite sumZ_cons, IHk. reflexivity.
  - cbn [filter].
    assert (Hsplit :
      Py.sumZ (map (fun num => Z.of_nat (count_occ Z.eq_dec (x :: numbers) num))
                   keys) =
      (if Py.mem x keys then 1 else 0)
      + Py.sumZ (map (fun num => Z.of_nat (count_occ Z.eq_dec numbers num)) keys)).
    { clear IH. induction Hnd as [|k keys Hk Hnd IHk]; [reflexivity|].
      cbn [map]. rewrite !sumZ_cons, IHk. cbn [count_occ].
      destruct (Z.eq_dec x k) as [->|Hne].
      - assert (H1 : Py.mem k (k :: keys) = true) by (apply mem_true; now left).
        assert (H2 : Py.mem k keys = false) by (now apply mem_false).
        rewrite H1, H2. lia.
      - assert (H1 : Py.mem x (k :: keys) = Py.mem x keys).
        { destruct (Py.mem x keys) eqn:Hm.
          - apply mem_true. right. now apply mem_true.
          - apply mem_false. rewrite mem_false in Hm.
            intros [H|H]; congruence. }
        rewrite H1. lia. }
    rewrite Hsplit, IH. destruct (Py.mem x keys); cbn [length]; lia.
Qed.

(** X3.  [calculate_frequency] gives every number of 1..[range_max] its
    number of occurrences (0 when absent), has no entry for any other
    number, and its counts add up to the number of in-range elements of the
    input: out-of-range input is ignored, not an error. *)
Theorem calculate_frequency_counts (numbers : list Z) (range_max : Z) :
  (forall num default,
      Py.dict_get (Utils.calculate_frequency numbers range_max) num default =
      if (1 <=? num) && (num <=? range_max)
      then Z.of_nat (count_occ Z.eq_dec numbers num)
      else default)
  /\ Py.sumZ (map snd (Utils.calculate_frequency numbers range_max)) =
     Z.of_nat (length (filter (fun n => (1 <=? n) && (n <=? range_max))
                              numbers)).
Proof.
  unfold Utils.calculate_frequency. split.
  - intros num default.
    rewrite (dict_get_tabulate
               (fun num => Z.of_nat (count_occ Z.eq_dec numbers num))).
    rewrite mem_range.
    replace (num <? range_max + 1) with (num <=? range_max); [reflexivity|].
    destruct (Z.leb_spec num range_max), (Z.ltb_spec num (range_max + 1));
      auto; lia.
  - rewrite map_map. cbn [snd]. rewrite count_occ_total by apply range_NoDup.
    f_equal. f_equal. apply filter_ext. intros n. rewrite mem_range.
    f_equal. destruct (Z.leb_spec n range_max), (Z.ltb_spec n (range_max + 1));
      auto; lia.
Qed.

(** X4.  On a table of counts [calculate_frequency_confidence] stays
    within 50..75, and it is exactly 50 when the table counts nothing. *)
Theorem frequency_confidence_between_50_and_75 (selected_numbers : list Z)
    (frequency_dict : list (Z * Z)) :
  Forall (fun kv => 0 <= snd kv) frequency_dict ->
  (50 <= Utils.calculate_frequency_confidence selected_numbers frequency_dict
   /\ Utils.calculate_frequency_confidence selected_numbers frequency_dict <= 75
   /\ (Py.sumZ (map snd frequency_dict) = 0%Z ->
       Utils.calculate_frequency_confidence selected_numbers frequency_dict
       = 50.0))%Q.
Proof.
  intros Hd.
  destruct (frequency_confidence_bounds selected_numbers frequency_dict Hd)
    as [Hlo Hhi].
  split; [exact Hlo|]. split; [exact Hhi|].
  intros Hz. unfold Utils.calculate_frequency_confidence. now rewrite Hz.
Qed.

Lemma frequency_confidence_between_50_and_75_witness :
  let table := Utils.calculate_frequency [1; 1; 2; 3] 3 in
  let selected := [1; 2] in
  (50 <= Utils.calculate_frequency_confidence selected table)%Q
  /\ (Utils.calculate_frequency_confidence selected table <= 75)%Q
  /\ (Py.sumZ (map snd table) = 0 ->
      Utils.calculate_frequency_confidence selected table = 50.0%Q).
Proof.
  apply (frequency_confidence_between_50_and_75
           [1; 2] (Utils.calculate_frequency [1; 1; 2; 3] 3)).
  repeat (constructor; [cbn; lia|]). constructor.
Defined.

Lemma filter_three_way {A} (p q : A -> bool) (l : list A) :
  Permutation
    (filter p l ++ filter (fun x => negb (p x) && q x) l
     ++ filter (fun x => negb (p x) && negb (q x)) l)
    l.
Proof.
  induction l as [|x l IH]; [constructor|].
  cbn [filter]. destruct (p x), (q x); cbn [negb andb app].
  - now constructor.
  - now constructor.
  - rewrite <- Permutation_middle. now constructor.
  - rewrite app_assoc, <- Permutation_middle, <- app_assoc. now constructor.
Qed.

Local Open Scope Q_scope.

(** Inside numpy's range a percentile is a value between two elements of
    the list. *)
Lemma np_percentile_between (values : list Q) (q : Q) :
  values <> [] -> 0 <= q <= 100 ->
  exists a b t : Q,
    In a values /\ In b values /\ 0 <= t <= 1
    /\ Utils.np_percentile values q = a + t * (b - a).
Proof.
  intros Hne [Hq0 Hq1]. unfold Utils.np_percentile.
  set (ordered := Py.sortedQ values).
  assert (Hlen : length ordered = length values)
    by apply stable_sort_length.
  assert (Hpos : (0 < length ordered)%nat).
  { rewrite Hlen. destruct values; [congruence|cbn [length]; lia]. }
  assert (Hin : forall x, In x ordered -> In x values).
  { intros x. apply stable_sort_In. }
  set (top := Py.of_nat (length ordered - 1)).
  assert (Htop : 0 <= top).
  { unfold top, Py.of_nat. change 0 with (inject_Z 0).
    rewrite <- Zle_Qle. lia. }
  set (position := q / 100 * top).
  assert (Hp0 : 0 <= position).
  { unfold position. apply Qmult_le_0_compat; [|exact Htop].
    apply Qle_shift_div_l; lra. }
  assert (Hp1 : position <= top).
  { unfold position.
    assert (Hq : q / 100 <= 1) by (apply Qle_shift_div_r; lra).
    setoid_replace top with (1 * top) at 2 by ring.
    apply Qmult_le_compat_r; assumption. }
  assert (Hf0 : (0 <= Qfloor position)%Z).
  { change 0%Z with (Qfloor 0). now apply Qfloor_resp_le. }
  assert (Hf1 : (Qfloor position <= Z.of_nat (length ordered - 1))%Z).
  { rewrite <- (Qfloor_Z (Z.of_nat (length ordered - 1))).
    now apply Qfloor_resp_le. }
  set (lower := Z.to_nat (Qfloor position)).
  assert (Hlower : (lower < length ordered)%nat) by (unfold lower; lia).
  assert (Eof : Py.of_nat lower = inject_Z (Qfloor position)).
  { unfold Py.of_nat, lower. now rewrite Z2Nat.id. }
  pose proof (Qfloor_le position) as Hfl.
  pose proof (Qlt_floor position) as Hfu.
  rewrite inject_Z_plus in Hfu.
  set (a := nth lower ordered 0).
  assert (Ha : In a values) by (apply Hin, nth_In, Hlower).
  exists a, (nth (S lower) ordered a), (position - Py.of_nat lower).
  split; [exact Ha|]. split; [|split; [|reflexivity]].
  - destruct (Nat.lt_ge_cases (S lower) (length ordered)) as [H|H].
    + apply Hin, nth_In, H.
    + now rewrite nth_overflow.
  - rewrite Eof. change (inject_Z 1) with 1 in Hfu. split; lra.
Qed.

Lemma convex_upper (a b t hi : Q) :
  a <= hi -> b <= hi -> 0 <= t <= 1 -> a + t * (b - a) <= hi.
Proof.
  intros Ha Hb [Ht0 Ht1].
  assert (H1 : 0 <= (1 - t) * (hi - a)) by (apply Qmult_le_0_compat; lra).
  assert (H2 : 0 <= t * (hi - b)) by (apply Qmult_le_0_compat; lra).
  setoid_replace (a + t * (b - a))
    with (hi - ((1 - t) * (hi - a) + t * (hi - b))) by ring.
  lra.
Qed.

Lemma convex_lower (a b t lo : Q) :
  lo <= a -> lo <= b -> 0 <= t <= 1 -> lo <= a + t * (b - a).
Proof.
  intros Ha Hb [Ht0 Ht1].
  assert (H1 : 0 <= (1 - t) * (a - lo)) by (apply Qmult_le_0_compat; lra).
  assert (H2 : 0 <= t * (b - lo)) by (apply Qmult_le_0_compat; lra).
  setoid_replace (a + t * (b - a))
    with (lo + ((1 - t) * (a - lo) + t * (b - lo))) by ring.
  lra.
Qed.

Lemma np_percentile_upper (values : list Q) (q hi : Q) :
  values <> [] -> 0 <= q <= 100 -> Forall (fun x => x <= hi) values ->
  Utils.np_percentile values q <= hi.
Proof.
  intros Hne Hq Hall. rewrite Forall_forall in Hall.
  destruct (np_percentile_between values q Hne Hq)
    as (a & b & t & Ha & Hb & Ht & ->).
  apply convex_upper; auto.
Qed.

Lemma np_percentile_lower (values : list Q) (q lo : Q) :
  values <> [] -> 0 <= q <= 100 -> Forall (fun x => lo <= x) values ->
  lo <= Utils.np_percentile values q.
Proof.
  intros Hne Hq Hall. rewrite Forall_forall in Hall.
  destruct (np_percentile_between values q Hne Hq)
    as (a & b & t & Ha & Hb & Ht & ->).
  apply convex_lower; auto.
Qed.

Lemma percent_in_range (threshold : Q) :
  0 <= threshold <= 1 -> 0 <= threshold * 100 <= 100.
Proof. intros [H0 H1]. split; lra. Qed.

(** X5.  For thresholds within 0..1 (the percentiles numpy accepts)
    [calculate_hot_cold_numbers] sorts every key of a non-empty table into
    exactly one of its three lists; both cutoffs lie between the least and
    the greatest count, so a key with the greatest count is hot and a key
    with the least count is hot or cold, never neutral.  On an empty table
    hot and cold are empty and neutral is 1..33. *)
Theorem hot_cold_neutral_partition (frequency_dict : list (Z * Z))
    (hot_threshold cold_threshold : Q) :
  0 <= hot_threshold <= 1 -> 0 <= cold_threshold <= 1 ->
  let '(hot, cold, neutral) :=
    Utils.calculate_hot_cold_numbers frequency_dict hot_threshold
                                     cold_threshold in
  match frequency_dict with
  | [] => hot = [] /\ cold = [] /\ neutral = Py.range 1 34
  | _ :: _ =>
      Permutation (hot ++ cold ++ neutral) (map fst frequency_dict)
      /\ (forall (num count : Z),
             In (num, count) frequency_dict ->
             Forall (fun kv => (snd kv <= count)%Z) frequency_dict ->
             In num hot)
      /\ (forall (num count : Z),
             In (num, count) frequency_dict ->
             Forall (fun kv => (count <= snd kv)%Z) frequency_dict ->
             In num hot \/ In num cold)
  end.
Proof.
  intros Hhot Hcold. unfold Utils.calculate_hot_cold_numbers.
  destruct frequency_dict as [|kv d]; [repeat split|].
  cbv zeta.
  set (table := kv :: d).
  set (frequencies := map (fun kv => inject_Z (snd kv)) table).
  assert (Hne : frequencies <> []) by discriminate.
  set (hot_cutoff := Utils.np_percentile frequencies (hot_threshold * 100)).
  set (cold_cutoff := Utils.np_percentile frequencies (cold_threshold * 100)).
  split; [|split].
  - rewrite <- !map_app. apply Permutation_map, filter_three_way.
  - intros num count Hin Hmax.
    assert (Hle : hot_cutoff <= inject_Z count).
    { apply np_percentile_upper;
        [exact Hne|now apply percent_in_range|].
      apply Forall_forall. intros x Hx. apply in_map_iff in Hx.
      destruct Hx as (kv' & <- & Hkv'). rewrite <- Zle_Qle.
      rewrite Forall_forall in Hmax. now apply Hmax. }
    apply Qle_bool_iff in Hle.
    apply in_map_iff. exists (num, count). split; [reflexivity|].
    apply filter_In. split; [exact Hin|exact Hle].
  - intros num count Hin Hmin.
    assert (Hle : inject_Z count <= cold_cutoff).
    { apply np_percentile_lower;
        [exact Hne|now apply percent_in_range|].
      apply Forall_forall. intros x Hx. apply in_map_iff in Hx.
      destruct Hx as (kv' & <- & Hkv'). rewrite <- Zle_Qle.
      rewrite Forall_forall in Hmin. now apply Hmin. }
    apply Qle_bool_iff in Hle.
    destruct (Qle_bool hot_cutoff (inject_Z count)) eqn:Eh.
    + left. apply in_map_iff. exists (num, count). split; [reflexivity|].
      apply filter_In. split; [exact Hin|exact Eh].
    + right. apply in_map_iff. exists (num, count). split; [reflexivity|].
      apply filter_In. split; [exact Hin|].
      cbn [snd]. fold frequencies. fold hot_cutoff. fold cold_cutoff.
      now rewrite Eh, Hle.
Qed.

Lemma hot_cold_neutral_partition_witness :
  let table := [(1, 3); (2, 1); (3, 2)]%Z in
  let '(hot, cold, neutral) :=
    Utils.calculate_hot_cold_numbers table 0.7 0.3 in
  Permutation (hot ++ cold ++ neutral) (map fst table)
  /\ (forall (num count : Z),
         In (num, count) table ->
         Forall (fun kv => (snd kv <= count)%Z) table -> In num hot)
  /\ (forall (num count : Z),
         In (num, count) table ->
         Forall (fun kv => (count <= snd kv)%Z) table ->
         In num hot \/ In num cold).
Proof.
  apply (hot_cold_neutral_partition [(1, 3); (2, 1); (3, 2)]%Z 0.7 0.3);
    split; discriminate.
Defined.

Local Close Scope Q_scope.

(** ** utils.py: moving average, gaps and the feature matrix *)

(** X6.  For a positive window [moving_average] returns one value per
    input value, and every value lies between any bounds that hold for the
    input: it is an average of a non-empty stretch of the series. *)
Theorem moving_average_keeps_length_and_bounds (data : list Q) (window : nat)
    (a b : Q) :
  (0 < window)%nat ->
  Forall (fun x => a <= x /\ x <= b)%Q data ->
  length (Utils.moving_average data window) = length data
  /\ Forall (fun x => a <= x /\ x <= b)%Q (Utils.moving_average data window).
Proof.
  intros Hw Hall. unfold Utils.moving_average.
  destruct (length data <? window)%nat; [split; [reflexivity|assumption]|].
  split; [now rewrite length_map, length_seq|].
  apply Forall_forall. intros x Hx. apply in_map_iff in Hx.
  destruct Hx as (i & <- & Hi). apply in_seq in Hi.
  destruct (S i <? window)%nat eqn:Hiw.
  - apply mean_bounds.
    + intros E. apply (f_equal (@length Q)) in E.
      rewrite length_firstn in E. cbn [length] in E. lia.
    + eapply Forall_incl; [apply firstn_incl|exact Hall].
  - apply Nat.ltb_ge in Hiw. apply mean_bounds.
    + intros E. apply (f_equal (@length Q)) in E. unfold Py.slice in E.
      rewrite length_firstn, length_skipn in E. cbn [length] in E. lia.
    + unfold Py.slice. eapply Forall_incl; [|exact Hall].
      intros y Hy. apply (firstn_incl (S i - (S i - window))) in Hy.
      now apply (skipn_incl (S i - window)) in Hy.
Qed.

Lemma moving_average_keeps_length_and_bounds_witness :
  length (Utils.moving_average [0%Q; 1%Q; 1%Q] 2) = 3%nat
  /\ Forall (fun x => 0 <= x /\ x <= 1)%Q
            (Utils.moving_average [0%Q; 1%Q; 1%Q] 2).
Proof.
  apply (moving_average_keeps_length_and_bounds [0%Q; 1%Q; 1%Q] 2 0%Q 1%Q).
  - lia.
  - repeat (constructor; [split; discriminate|]). constructor.
Defined.

Lemma first_index_app {A} (p : A -> bool) (l l' : list A) :
  Spec.first_index p (l ++ l') =
  match Spec.first_index p l with
  | Some i => Some i
  | None => option_map (fun i => (length l + i)%nat) (Spec.first_index p l')
  end.
Proof.
  induction l as [|x l IH]; cbn [app Spec.first_index length].
  - destruct (Spec.first_index p l'); reflexivity.
  - destruct (p x); [reflexivity|]. rewrite IH.
    destruct (Spec.first_index p l); [reflexivity|].
    destruct (Spec.first_index p l'); reflexivity.
Qed.

(** The loop of [calculate_number_gaps] from any state. *)
Lemma gaps_loop_spec (number : Z) (is_red : bool) (draws : list Draw.t) :
  forall (gaps : list Z) (current_gap : Z),
    0 <= current_gap -> Forall (fun g => 0 <= g) gaps ->
    let out := UtilsRest.gaps_loop number is_red draws gaps current_gap in
    length (fst out) =
      (length gaps
       + length (filter (UtilsRest.appears number is_red) draws))%nat
    /\ Forall (fun g => 0 <= g) (fst out)
    /\ Py.sumZ (fst out) + Z.of_nat (length (fst out)) + snd out =
       Py.sumZ gaps + Z.of_nat (length gaps) + current_gap
       + Z.of_nat (length draws)
    /\ snd out =
       match Spec.first_index (UtilsRest.appears number is_red) (rev draws) with
       | Some trailing => Z.of_nat trailing
       | None => current_gap + Z.of_nat (length draws)
       end.
Proof.
  induction draws as [|draw draws IH]; intros gaps current_gap Hc Hg; cbv zeta.
  - cbn [UtilsRest.gaps_loop fst snd filter length rev Spec.first_index].
    repeat split; try assumption; lia.
  - cbn [UtilsRest.gaps_loop filter rev]. rewrite first_index_app.
    cbn [Spec.first_index]. rewrite length_rev.
    destruct (UtilsRest.appears number is_red draw) eqn:Hap.
    + specialize (IH (gaps ++ [current_gap]) 0 ltac:(lia)).
      destruct IH as (Hlen & Hnn & Hsum & Hsnd).
      { apply Forall_app. split; [assumption|]. now constructor. }
      rewrite sumZ_app, length_app in Hsum. rewrite length_app in Hlen.
      change (Py.sumZ [current_gap]) with (0 + current_gap) in Hsum.
      cbn [length] in *.
      split; [lia|]. split; [assumption|]. split; [lia|].
      rewrite Hsnd.
      destruct (Spec.first_index _ (rev draws)); cbn [option_map]; lia.
    + specialize (IH gaps (current_gap + 1) ltac:(lia) Hg).
      destruct IH as (Hlen & Hnn & Hsum & Hsnd).
      cbn [length] in *.
      split; [lia|]. split; [assumption|]. split; [lia|].
      rewrite Hsnd.
      destruct (Spec.first_index _ (rev draws)); cbn [option_map]; lia.
Qed.

(** X7.  [calculate_number_gaps] returns one non-negative gap per draw that
    contains the number, and the gaps account for the history: the gaps,
    the appearances and the draws scanned after the last appearance add up
    to the number of draws.  A number that never appears has no gap at
    all, so its absence over the whole history is not reported. *)
Theorem number_gaps_account_for_history (historical_data : list Draw.t)
    (number : Z) (is_red : bool) :
  let gaps := UtilsRest.calculate_number_gaps historical_data number is_red in
  length gaps =
    length (filter (UtilsRest.appears number is_red) historical_data)
  /\ Forall (fun g => 0 <= g) gaps
  /\ match Spec.first_index (UtilsRest.appears number is_red)
                            (rev historical_data) with
     | Some trailing =>
         Py.sumZ gaps + Z.of_nat (length gaps) + Z.of_nat trailing =
         Z.of_nat (length historical_data)
     | None => gaps = []
     end.
Proof.
  cbv zeta. unfold UtilsRest.calculate_number_gaps.
  destruct (gaps_loop_spec number is_red historical_data [] 0 ltac:(lia)
                           (Forall_nil _))
    as (Hlen & Hnn & Hsum & Hsnd).
  split; [exact Hlen|]. split; [exact Hnn|].
  destruct (Spec.first_index _ (rev historical_data)) as [trailing|].
  - rewrite <- Hsnd, Hsum. unfold Py.sumZ. cbn [fold_left length]. lia.
  - rewrite Hsnd in Hsum. cbn [length] in Hsum.
    assert (H0 : length (fst (UtilsRest.gaps_loop number is_red historical_data
                                                  [] 0)) = O).
    { assert (0 <= Py.sumZ (fst (UtilsRest.gaps_loop number is_red
                                   historical_data [] 0)))
        by (now apply sumZ_nonneg).
      change (Py.sumZ []) with 0 in Hsum. lia. }
    now apply length_zero_iff_nil.
Qed.

Lemma gaps_loop_acc (number : Z) (is_red : bool) (draws : list Draw.t) :
  forall (gaps : list Z) (current_gap : Z),
    fst (UtilsRest.gaps_loop number is_red draws gaps current_gap) =
    gaps ++ fst (UtilsRest.gaps_loop number is_red draws [] current_gap).
Proof.
  induction draws as [|draw draws IH]; intros gaps current_gap.
  - cbn [UtilsRest.gaps_loop fst]. now rewrite app_nil_r.
  - cbn [UtilsRest.gaps_loop].
    destruct (UtilsRest.appears number is_red draw); [|apply IH].
    rewrite IH, (IH ([] ++ [current_gap])). now rewrite <- app_assoc.
Qed.

Lemma gaps_loop_head (number : Z) (is_red : bool) (draws : list Draw.t) :
  forall current_gap : Z,
    hd_error (fst (UtilsRest.gaps_loop number is_red draws [] current_gap)) =
    option_map (fun i => current_gap + Z.of_nat i)
               (Spec.first_index (UtilsRest.appears number is_red) draws).
Proof.
  induction draws as [|draw draws IH]; intros current_gap; [reflexivity|].
  cbn [UtilsRest.gaps_loop Spec.first_index].
  destruct (UtilsRest.appears number is_red draw).
  - rewrite gaps_loop_acc. cbn [app hd_error option_map]. f_equal. lia.
  - rewrite IH. destruct (Spec.first_index _ draws); cbn [option_map];
      [f_equal; lia|reflexivity].
Qed.

(** The overdue score of a pool number, as one quotient. *)
Lemma gap_scores_lookup (historical_data : list Draw.t) (range_max : Z)
    (is_red : bool) (num : Z) :
  historical_data <> [] -> 1 <= num <= range_max ->
  Py.dict_get (Ensemble._current_gap_scores historical_data range_max is_red)
              num 0.0%Q =
  (inject_Z
     (match Spec.first_index
              (fun draw => Py.mem num (Ensemble.gap_values is_red draw))
              historical_data with
      | Some i => Z.of_nat i
      | None => Z.of_nat (length historical_data)
      end)
   / inject_Z (Z.of_nat (length historical_data)))%Q.
Proof.
  intros Hne Hnum. unfold Ensemble._current_gap_scores.
  destruct historical_data as [|d0 h] eqn:Eh; [congruence|]. rewrite <- Eh.
  set (n := Z.of_nat (length historical_data)).
  assert (Hn : 0 < n) by (subst historical_data n; cbn [length]; lia).
  destruct (Z.eqb_spec n 0) as [|_]; [lia|].
  set (init := map (fun num0 => (num0, n)) (Py.range 1 (range_max + 1))).
  assert (Hinit : forall k, 1 <= k <= range_max -> In k (map fst init)).
  { intros k Hk. unfold init. rewrite map_map. cbn [fst]. rewrite map_id.
    apply range_In. lia. }
  rewrite (dict_get_default _ num 0.0%Q (inject_Z 0 / inject_Z n)%Q).
  2:{ rewrite map_map. cbn [fst]. rewrite gap_scan_keys by exact Hinit.
      now apply Hinit. }
  rewrite (dict_get_map (fun g => (inject_Z g / inject_Z n)%Q) _ num 0).
  rewrite gap_scan_get; [|lia|subst n; lia|assumption].
  unfold init. rewrite dict_get_const by (apply range_In; lia).
  rewrite Z.eqb_refl.
  destruct (Spec.first_index _ historical_data); reflexivity.
Qed.

Lemma first_index_lt {A} (p : A -> bool) (l : list A) (i : nat) :
  Spec.first_index p l = Some i -> (i < length l)%nat.
Proof.
  revert i. induction l as [|x l IH]; intros i; cbn [Spec.first_index length];
    [discriminate|].
  destruct (p x); [intros [= <-]; lia|].
  destruct (Spec.first_index p l) as [j|]; cbn [option_map]; [|discriminate].
  intros [= <-]. specialize (IH j eq_refl). lia.
Qed.

Lemma first_index_none {A} (p : A -> bool) (l : list A) :
  Spec.first_index p l = None <-> forall x, In x l -> p x = false.
Proof.
  induction l as [|x l IH]; cbn [Spec.first_index].
  - split; [intros _ y []|reflexivity].
  - destruct (p x) eqn:Hp.
    + split; [discriminate|]. intros H. specialize (H x (or_introl eq_refl)).
      congruence.
    + destruct (Spec.first_index p l); cbn [option_map].
      * split; [discriminate|]. intros H.
        assert (Hl : forall y, In y l -> p y = false)
          by (intros y Hy; apply H; now right).
        apply IH in Hl. discriminate.
      * split; [|reflexivity]. intros _ y [<-|Hy]; [assumption|].
        now apply (proj1 IH).
Qed.

(** X8.  The two gap computations agree on the newest gap: for a pool
    number, the overdue score of the ensemble is the first entry of
    [calculate_number_gaps] over the history length, and 1 when that list
    is empty. *)
Theorem first_gap_is_overdue_gap (historical_data : list Draw.t) (number : Z) :
  historical_data <> [] -> 1 <= number <= 33 ->
  (Py.dict_get (Ensemble._current_gap_scores historical_data 33 true)
               number 0.0
   == match UtilsRest.calculate_number_gaps historical_data number true with
      | g :: _ => inject_Z g / Py.of_nat (length historical_data)
      | [] => 1
      end)%Q.
Proof.
  intros Hne Hnum. rewrite gap_scores_lookup by assumption.
  pose proof (gaps_loop_head number true historical_data 0) as Hhd.
  change (UtilsRest.appears number true)
    with (fun draw => Py.mem number (Ensemble.gap_values true draw)) in Hhd.
  unfold UtilsRest.calculate_number_gaps.
  destruct (fst (UtilsRest.gaps_loop number true historical_data [] 0))
    as [|g gaps];
    destruct (Spec.first_index _ historical_data) as [i|];
    cbn [hd_error option_map] in Hhd; try discriminate.
  - apply Qmult_inv_r. change 0%Q with (inject_Z 0).
    rewrite inject_Z_injective.
    destruct historical_data; [congruence|cbn [length]; lia].
  - injection Hhd as ->. reflexivity.
Qed.

Lemma first_gap_is_overdue_gap_witness :
  (Py.dict_get (Ensemble._current_gap_scores Fixtures.history2 33 true)
               11 0.0
   == match UtilsRest.calculate_number_gaps Fixtures.history2 11 true with
      | g :: _ => inject_Z g / Py.of_nat (length Fixtures.history2)
      | [] => 1
      end)%Q.
Proof.
  apply (first_gap_is_overdue_gap Fixtures.history2 11).
  - discriminate.
  - lia.
Defined.

(** X9.  On a non-empty history every overdue score of a pool number lies
    within 0..1; it is 0 exactly for the numbers of the newest draw and 1
    exactly for the numbers no draw contains. *)
Theorem overdue_scores_within_unit_interval (historical_data : list Draw.t)
    (range_max : Z) (is_red : bool) (num : Z) :
  historical_data <> [] -> 1 <= num <= range_max ->
  let score :=
    Py.dict_get (Ensemble._current_gap_scores historical_data range_max is_red)
                num 0.0%Q in
  (0 <= score /\ score <= 1)%Q
  /\ ((score == 0)%Q <->
      exists newest rest,
        historical_data = newest :: rest
        /\ In num (Ensemble.gap_values is_red newest))
  /\ ((score == 1)%Q <->
      forall draw, In draw historical_data ->
                   ~ In num (Ensemble.gap_values is_red draw)).
Proof.
  intros Hne Hnum. cbv zeta. rewrite gap_scores_lookup by assumption.
  set (p := fun draw => Py.mem num (Ensemble.gap_values is_red draw)).
  set (n := length historical_data).
  assert (Hn : (0 < n)%nat)
    by (subst n; destruct historical_data; [congruence|cbn [length]; lia]).
  assert (Hq : (0 < inject_Z (Z.of_nat n))%Q).
  { change 0%Q with (inject_Z 0). rewrite <- Zlt_Qlt. lia. }
  destruct (Spec.first_index p historical_data) as [i|] eqn:Ei.
  - pose proof (first_index_lt _ _ _ Ei) as Hi. fold n in Hi.
    assert (Hle : (inject_Z (Z.of_nat i) <= inject_Z (Z.of_nat n))%Q)
      by (rewrite <- Zle_Qle; lia).
    assert (H0 : (0 <= inject_Z (Z.of_nat i))%Q).
    { change 0%Q with (inject_Z 0). rewrite <- Zle_Qle. lia. }
    split; [|split].
    + split; [apply Qle_shift_div_l|apply Qle_shift_div_r]; try assumption;
        lra.
    + split.
      * intros Hz.
        assert (Hi0 : i = O).
        { assert (H : (inject_Z (Z.of_nat i) == 0)%Q).
          { rewrite <- (Qmult_div_r (inject_Z (Z.of_nat i))
                                    (inject_Z (Z.of_nat n))) by lra.
            rewrite Hz. ring. }
          change 0%Q with (inject_Z 0) in H. rewrite inject_Z_injective in H.
          lia. }
        subst i. destruct historical_data as [|newest rest]; [congruence|].
        exists newest, rest. split; [reflexivity|].
        cbn [Spec.first_index] in Ei.
        destruct (p newest) eqn:Hp.
        -- now apply mem_true.
        -- destruct (Spec.first_index p rest); discriminate.
      * intros (newest & rest & E & Hin). subst historical_data.
        cbn [Spec.first_index] in Ei.
        assert (Hp : p newest = true) by (now apply mem_true).
        rewrite Hp in Ei. injection Ei as <-.
        unfold Qdiv. cbn [Z.of_nat]. ring.
    + split.
      * intros H1.
        assert (Hin : (inject_Z (Z.of_nat i) == inject_Z (Z.of_nat n))%Q).
        { rewrite <- (Qmult_div_r (inject_Z (Z.of_nat i))
                                  (inject_Z (Z.of_nat n))) by lra.
          rewrite H1. ring. }
        rewrite inject_Z_injective in Hin. lia.
      * intros Hall. exfalso.
        assert (Hnone : Spec.first_index p historical_data = None).
        { apply first_index_none. intros x Hx. apply mem_false.
          now apply Hall. }
        congruence.
  - assert (E1 : (inject_Z (Z.of_nat n) / inject_Z (Z.of_nat n) == 1)%Q)
      by (apply Qmult_inv_r; lra).
    split; [|split].
    + rewrite E1. split; discriminate.
    + rewrite E1. split; [discriminate|].
      intros (newest & rest & E & Hin). subst historical_data.
      cbn [Spec.first_index] in Ei.
      assert (Hp : p newest = true) by (now apply mem_true).
      rewrite Hp in Ei. discriminate.
    + split; [|intros _; exact E1].
      intros _ draw Hdraw. apply mem_false.
      exact (proj1 (first_index_none p historical_data) Ei draw Hdraw).
Qed.

Lemma overdue_scores_within_unit_interval_witness :
  let score :=
    Py.dict_get (Ensemble._current_gap_scores Fixtures.history2 16 false)
                8 0.0%Q in
  (0 <= score /\ score <= 1)%Q
  /\ ((score == 0)%Q <->
      exists newest rest,
        Fixtures.history2 = newest :: rest
        /\ In 8 (Ensemble.gap_values false newest))
  /\ ((score == 1)%Q <->
      forall draw, In draw Fixtures.history2 ->
                   ~ In 8 (Ensemble.gap_values false draw)).
Proof.
  apply (overdue_scores_within_unit_interval Fixtures.history2 16 false 8).
  - discriminate.
  - lia.
Defined.

(** ** One-hot rows *)

Lemma update_at_nth {A} (f : A -> A) (l : list A) (d : A) :
  forall i j : nat,
    nth j (Np.update_at i f l) d =
    if ((i =? j) && (j <? length l))%nat then f (nth j l d) else nth j l d.
Proof.
  induction l as [|x l IH]; intros i j.
  - rewrite andb_false_r. destruct i; reflexivity.
  - destruct i as [|i], j as [|j]; cbn [Np.update_at nth length]; try reflexivity.
    rewrite IH. reflexivity.
Qed.

Lemma one_hot_fold (size : nat) (draw : list Z) :
  forall row : list Q,
    length row = size ->
    let out :=
      fold_left (fun row ball =>
                   if (1 <=? ball) && (ball <=? Z.of_nat size)
                   then Np.update_at (Z.to_nat (ball - 1)) (fun _ => 1%Q) row
                   else row)
                draw row in
    length out = size
    /\ forall j, (j < size)%nat ->
                 nth j out 0%Q =
                 if Py.mem (Z.of_nat j + 1) draw then 1%Q else nth j row 0%Q.
Proof.
  induction draw as [|ball draw IH]; intros row Hrow; cbv zeta.
  - cbn [fold_left]. split; [assumption|reflexivity].
  - cbn [fold_left].
    set (row' := if (1 <=? ball) && (ball <=? Z.of_nat size)
                 then Np.update_at (Z.to_nat (ball - 1)) (fun _ => 1%Q) row
                 else row).
    assert (Hrow' : length row' = size).
    { unfold row'. destruct ((1 <=? ball) && (ball <=? Z.of_nat size));
        [now rewrite update_at_length|assumption]. }
    destruct (IH row' Hrow') as [Hlen Hnth]. split; [exact Hlen|].
    intros j Hj. rewrite (Hnth j Hj).
    assert (Hmem : Py.mem (Z.of_nat j + 1) (ball :: draw) =
                   (Z.of_nat j + 1 =? ball) || Py.mem (Z.of_nat j + 1) draw).
    { destruct (Z.eqb_spec (Z.of_nat j + 1) ball) as [E|E].
      - apply mem_true. now left.
      - cbn [orb]. destruct (Py.mem (Z.of_nat j + 1) draw) eqn:Hm.
        + apply mem_true. right. now apply mem_true.
        + apply mem_false. rewrite mem_false in Hm.
          intros [H|H]; congruence. }
    rewrite Hmem.
    destruct (Py.mem (Z.of_nat j + 1) draw); [now rewrite orb_true_r|].
    rewrite orb_false_r. unfold row'.
    destruct (Z.eqb_spec (Z.of_nat j + 1) ball) as [E|E].
    + assert (Hr : (1 <=? ball) && (ball <=? Z.of_nat size) = true).
      { apply andb_true_iff. rewrite !Z.leb_le. lia. }
      rewrite Hr, update_at_nth.
      assert (Hc : ((Z.to_nat (ball - 1) =? j) && (j <? length row))%nat = true).
      { apply andb_true_iff. rewrite Nat.eqb_eq, Nat.ltb_lt. lia. }
      now rewrite Hc.
    + destruct ((1 <=? ball) && (ball <=? Z.of_nat size)) eqn:Hr;
        [|reflexivity].
      apply andb_true_iff in Hr. rewrite !Z.leb_le in Hr.
      rewrite update_at_nth.
      assert (Hc : ((Z.to_nat (ball - 1) =? j))%nat = false).
      { apply Nat.eqb_neq. lia. }
      now rewrite Hc.
Qed.

(** The one-hot row of a draw is its membership table over 1..[size]. *)
Lemma one_hot_table (size : nat) (draw : list Z) :
  RandomForest.one_hot size draw =
  map (fun j => if Py.mem (Z.of_nat j + 1) draw then 1%Q else 0%Q) (seq 0 size).
Proof.
  unfold RandomForest.one_hot.
  destruct (one_hot_fold size draw (Np.zeros size) (zeros_length size))
    as [Hlen Hnth].
  apply (nth_ext _ _ 0%Q 0%Q).
  - now rewrite Hlen, length_map, length_seq.
  - intros j Hj. rewrite Hlen in Hj. rewrite (Hnth j Hj).
    unfold Np.zeros. rewrite nth_repeat.
    set (f := fun j => if Py.mem (Z.of_nat j + 1) draw then 1%Q else 0%Q).
    rewrite (nth_indep (map f (seq 0 size)) 0%Q (f O))
      by (now rewrite length_map, length_seq).
    rewrite map_nth, seq_nth by assumption. reflexivity.
Qed.

Lemma one_hot_length (size : nat) (draw : list Z) :
  length (RandomForest.one_hot size draw) = size.
Proof. now rewrite one_hot_table, length_map, length_seq. Qed.

Lemma one_hot_binary (size : nat) (draw : list Z) :
  Forall (fun v => v = 0%Q \/ v = 1%Q) (RandomForest.one_hot size draw).
Proof.
  rewrite one_hot_table. apply Forall_forall. intros v Hv.
  apply in_map_iff in Hv. destruct Hv as (j & <- & _).
  destruct (Py.mem _ draw); auto.
Qed.

(** X10.  The sequence matrix is the membership table of the history: row
    [i], column [j] holds 1 when the number [j + 1] occurs in draw [i] and
    0 otherwise, whatever the order or multiplicity of the draw's numbers;
    numbers outside 1..[size] leave no trace. *)
Theorem sequence_matrix_is_membership_table (history : list (list Z))
    (size : nat) :
  LSTM._build_sequence_matrix history size =
  map (fun draw =>
         map (fun j => if Py.mem (Z.of_nat j + 1) draw then 1%Q else 0%Q)
             (seq 0 size))
      history.
Proof.
  unfold LSTM._build_sequence_matrix. apply map_ext. intros draw.
  exact (one_hot_table size draw).
Qed.

Lemma map_nth_seq {A} (d : A) (l : list A) :
  map (fun i => nth i l d) (seq 0 (length l)) = l.
Proof.
  induction l as [|x l IH]; [reflexivity|].
  cbn [length seq map nth]. f_equal.
  rewrite <- seq_shift, map_map. exact IH.
Qed.

Lemma map_nth_skipn {A} (d : A) (l : list A) (k : nat) :
  map (fun i => nth (i + k) l d) (seq 0 (length l - k)) = skipn k l.
Proof.
  transitivity (map (fun i => nth i (skipn k l) d)
                    (seq 0 (length (skipn k l)))); [|apply map_nth_seq].
  rewrite length_skipn.
  apply map_ext. intros i. rewrite nth_skipn. f_equal. lia.
Qed.

(** X11.  [create_feature_matrix] returns one feature row per draw after
    the first [lookback] ones and nothing when there are too few draws; the
    targets are those draws themselves, in order; every feature row has
    33 entries per draw of its window, each of them 0 or 1. *)
Theorem create_feature_matrix_shape (red_balls_history : list (list Z))
    (lookback : nat) :
  let X := fst (UtilsRest.create_feature_matrix red_balls_history lookback) in
  let y := snd (UtilsRest.create_feature_matrix red_balls_history lookback) in
  length X = (length red_balls_history - lookback)%nat
  /\ y = skipn lookback red_balls_history
  /\ Forall (fun row => length row = (33 * lookback)%nat
                        /\ Forall (fun v => v = 0%Q \/ v = 1%Q) row) X.
Proof.
  cbv zeta. unfold UtilsRest.create_feature_matrix.
  destruct (length red_balls_history <? lookback + 1)%nat eqn:Hshort.
  - apply Nat.ltb_lt in Hshort. cbn [fst snd length]. split; [lia|]. split.
    + symmetry. apply skipn_all2. lia.
    + constructor.
  - cbn [fst snd]. split; [now rewrite length_map, length_seq|]. split.
    + apply map_nth_skipn.
    + apply Forall_forall. intros row Hrow. apply in_map_iff in Hrow.
      destruct Hrow as (i & <- & _). split.
      * replace (33 * lookback)%nat with (33 * length (seq 0 lookback))%nat
          by (now rewrite length_seq).
        generalize (seq 0 lookback). intros js.
        induction js as [|j js IH]; [cbn [flat_map length]; lia|].
        cbn [flat_map length]. rewrite length_app, one_hot_length, IH. lia.
      * apply Forall_forall. intros v Hv. apply in_flat_map in Hv.
        destruct Hv as (j & _ & Hv).
        pose proof (one_hot_binary 33 (nth (i + j) red_balls_history [])) as Hb.
        rewrite Forall_forall in Hb. now apply Hb.
Qed.

(** ** Stable sorting *)

Section StableSort.

Context {A : Type} (before : A -> A -> bool) (earlier : A -> A -> Prop).

Hypothesis before_asym : forall a b, before a b = true -> before b a = false.

Hypothesis before_negtrans :
  forall a b c, before a b = false -> before b c = false -> before a c = false.

Lemma insert_by_ordered (x : A) (l : list A) :
  StronglySorted (Notions.ordered_by before earlier) l ->
  Forall (earlier x) l ->
  StronglySorted (Notions.ordered_by before earlier) (Py.insert_by before x l).
Proof.
  intros Hs Hx. induction Hs as [|y l Hs IH Hy]; cbn [Py.insert_by].
  - repeat constructor.
  - inversion Hx as [|? ? Hxy Hxl]; subst.
    destruct (before y x) eqn:Hyx.
    + constructor; [now apply IH|].
      apply Forall_forall. intros z Hz.
      apply (Permutation_in _ (insert_by_perm before x l)) in Hz.
      destruct Hz as [<-|Hz].
      * split; [now apply before_asym|congruence].
      * rewrite Forall_forall in Hy. now apply Hy.
    + constructor; [now constructor|].
      constructor; [split; auto|].
      apply Forall_forall. intros z Hz.
      rewrite Forall_forall in Hy, Hxl. destruct (Hy z Hz) as [Hzy _].
      split; [now apply (before_negtrans z y x)|]. intros _. now apply Hxl.
Qed.

Lemma stable_sort_ordered (l : list A) :
  StronglySorted earlier l ->
  StronglySorted (Notions.ordered_by before earlier) (Py.stable_sort before l).
Proof.
  induction 1 as [|x l Hs IH Hx]; [constructor|].
  change (Py.stable_sort before (x :: l))
    with (Py.insert_by before x (Py.stable_sort before l)).
  apply insert_by_ordered; [exact IH|].
  eapply Permutation_Forall; [|exact Hx].
  symmetry. apply stable_sort_perm.
Qed.

End StableSort.

Lemma sorted_app_cross {A} (R : A -> A -> Prop) (l1 l2 : list A) :
  StronglySorted R (l1 ++ l2) ->
  forall a b, In a l1 -> In b l2 -> R a b.
Proof.
  induction l1 as [|x l1 IH]; intros Hs a b Ha Hb; [destruct Ha|].
  cbn [app] in Hs. inversion Hs as [|? ? Hs' Hx]; subst.
  destruct Ha as [<-|Ha].
  - rewrite Forall_forall in Hx. apply Hx, in_or_app. now right.
  - now apply IH.
Qed.

Lemma range_sorted (a b : Z) : StronglySorted Z.lt (Py.range a b).
Proof.
  unfold Py.range. generalize (Z.to_nat (b - a)). intros n.
  assert (H : forall start,
             StronglySorted Z.lt (map (fun i => a + Z.of_nat i) (seq start n))).
  { induction n as [|n IH]; intros start; [constructor|].
    cbn [seq map]. constructor; [apply IH|].
    apply Forall_forall. intros x Hx. apply in_map_iff in Hx.
    destruct Hx as (i & <- & Hi). apply in_seq in Hi. lia. }
  apply H.
Qed.

Lemma tabulate_sorted {V} (f : Z -> V) (keys : list Z) :
  StronglySorted Z.lt keys ->
  StronglySorted (fun a b : Z * V => fst a < fst b)
                 (map (fun num => (num, f num)) keys).
Proof.
  induction 1 as [|k keys Hs IH Hk]; [constructor|].
  cbn [map]. constructor; [exact IH|].
  apply Forall_forall. intros kv Hkv. apply in_map_iff in Hkv.
  destruct Hkv as (num & <- & Hnum). rewrite Forall_forall in Hk.
  cbn [fst]. now apply Hk.
Qed.

(** The first [k] keys of a count table sorted by descending count: a key
    left out is not more frequent than a key taken, and at equal counts
    the smaller key is taken. *)
Lemma top_by_count (numbers : list Z) (range_max : Z) (k : nat)
    (chosen other : Z) :
  let ranked :=
    Py.sorted_by_count_desc (Utils.calculate_frequency numbers range_max) in
  In chosen (map fst (firstn k ranked)) ->
  1 <= other <= range_max ->
  ~ In other (map fst (firstn k ranked)) ->
  (count_occ Z.eq_dec numbers other < count_occ Z.eq_dec numbers chosen)%nat
  \/ (count_occ Z.eq_dec numbers other = count_occ Z.eq_dec numbers chosen
      /\ chosen < other).
Proof.
  cbv zeta. unfold Py.sorted_by_count_desc.
  set (before := fun y x : Z * Z => snd x <? snd y).
  set (items := Utils.calculate_frequency numbers range_max).
  set (ranked := Py.stable_sort before items).
  intros Hc Ho Hno.
  assert (Hsorted : StronglySorted
                      (Notions.ordered_by before (fun a b => fst a < fst b))
                      ranked).
  { apply stable_sort_ordered.
    - intros a b. unfold before. rewrite Z.ltb_lt, Z.ltb_ge. lia.
    - intros a b c. unfold before. rewrite !Z.ltb_ge. lia.
    - apply tabulate_sorted, range_sorted. }
  assert (Hitem : forall kv, In kv ranked ->
            snd kv = Z.of_nat (count_occ Z.eq_dec numbers (fst kv))).
  { intros kv Hkv. apply (proj1 (stable_sort_In _ _ _)) in Hkv.
    unfold items, Utils.calculate_frequency in Hkv. apply in_map_iff in Hkv.
    destruct Hkv as (num & <- & _). reflexivity. }
  apply in_map_iff in Hc. destruct Hc as (a & Ea & Ha).
  assert (Hb : In (other, Z.of_nat (count_occ Z.eq_dec numbers other))
                  (skipn k ranked)).
  { assert (Hin : In (other, Z.of_nat (count_occ Z.eq_dec numbers other)) ranked).
    { apply stable_sort_In. unfold items, Utils.calculate_frequency.
      apply in_map_iff. exists other. split; [reflexivity|].
      apply range_In. lia. }
    rewrite <- (firstn_skipn k ranked) in Hin. apply in_app_or in Hin.
    destruct Hin as [Hin|Hin]; [|exact Hin].
    exfalso. apply Hno. apply in_map_iff.
    exists (other, Z.of_nat (count_occ Z.eq_dec numbers other)). auto. }
  rewrite <- (firstn_skipn k ranked) in Hsorted.
  destruct (sorted_app_cross _ _ _ Hsorted _ _ Ha Hb) as [H1 H2].
  pose proof (Hitem a (firstn_incl k ranked a Ha)) as Hsa.
  unfold before in H1, H2. cbn [fst snd] in H1, H2.
  rewrite Z.ltb_ge in H1. rewrite Z.ltb_ge in H2. subst chosen.
  destruct (Nat.lt_ge_cases (count_occ Z.eq_dec numbers other)
                            (count_occ Z.eq_dec numbers (fst a))) as [Hlt|Hge];
    [now left|right].
  split; [lia|]. apply H2. lia.
Qed.

(** ** frequency.py *)

(** X12.  Off its fallback path the frequency generator returns the six
    most frequent primary numbers of the window: a pool number it leaves
    out occurs no more often than any number it returns, and at equal
    counts the smaller number is returned. *)
Theorem frequency_predicts_most_frequent (historical_data : list Draw.t)
    (dataset_size : Z) (s : Random.rng) (chosen other : Z) :
  Utils.extract_red_balls (Py.take dataset_size historical_data) <> [] ->
  In chosen
     (Base.red_balls (fst (Frequency.predict historical_data dataset_size s))) ->
  1 <= other <= 33 ->
  ~ In other
       (Base.red_balls (fst (Frequency.predict historical_data dataset_size s))) ->
  (Notions.red_count historical_data dataset_size other
   < Notions.red_count historical_data dataset_size chosen)%nat
  \/ (Notions.red_count historical_data dataset_size other
      = Notions.red_count historical_data dataset_size chosen
      /\ chosen < other).
Proof.
  intros Hred.
  assert (Hh : historical_data <> []).
  { intros ->. apply Hred. unfold Py.take.
    destruct (0 <=? dataset_size); now rewrite firstn_nil. }
  destruct (frequency_predict_eq historical_data dataset_size s Hh Hred)
    as (blue & c & m & _ & Heq & _).
  rewrite Heq. cbn [Base.red_balls]. intros Hc Ho Hno.
  unfold Notions.red_count.
  set (numbers := concat (Utils.extract_red_balls
                            (Py.take dataset_size historical_data))) in *.
  clearbody numbers.
  pose proof (top_by_count numbers 33 6 chosen other) as Htop.
  cbv zeta in Htop. apply Htop.
  - apply (proj1 (sorted_In _ _)). exact Hc.
  - exact Ho.
  - intros H. apply Hno. apply (proj2 (sorted_In _ _)). exact H.
Qed.

Lemma frequency_predicts_most_frequent_witness :
  (Notions.red_count Fixtures.history2 2 22
   < Notions.red_count Fixtures.history2 2 3)%nat
  \/ (Notions.red_count Fixtures.history2 2 22
      = Notions.red_count Fixtures.history2 2 3
      /\ 3 < 22).
Proof.
  apply (frequency_predicts_most_frequent Fixtures.history2 2 [] 3 22).
  - vm_compute. discriminate.
  - vm_compute. tauto.
  - lia.
  - vm_compute. intuition discriminate.
Defined.

(** The secondary number of the frequency generator off its fallback path:
    the head of the ranked table, kept by the validator. *)
Lemma frequency_predict_blue (historical_data : list Draw.t) (dataset_size : Z)
    (s : Random.rng) :
  Utils.extract_red_balls (Py.take dataset_size historical_data) <> [] ->
  In (Base.blue_ball (fst (Frequency.predict historical_data dataset_size s)))
     (map fst
        (firstn 1
           (Py.sorted_by_count_desc
              (Utils.calculate_frequency
                 (Utils.extract_blue_balls
                    (Py.take dataset_size historical_data)) 16)))).
Proof.
  intros Hred. unfold Frequency.predict.
  destruct historical_data as [|d0 h].
  { exfalso. apply Hred. unfold Py.take.
    destruct (0 <=? dataset_size); now rewrite firstn_nil. }
  cbv zeta.
  set (data := Py.take dataset_size (d0 :: h)) in *.
  destruct (Utils.extract_red_balls data) as [|r0 reds] eqn:Ereds; [congruence|].
  set (numbers := concat (r0 :: reds)).
  destruct (frequency_blue_head (Utils.extract_blue_balls data))
    as (kv & rest & Eblue & Hblue).
  destruct (top6_frequency_shape numbers) as (Hlen & Hnd & Hst & Hrange).
  destruct (Utils.calculate_hot_cold_numbers
              (Utils.calculate_frequency numbers 33) 0.7 0.3)
    as [[hot cold] neutral] eqn:Ehc.
  rewrite Eblue. unfold Random.bind, Random.ret.
  rewrite validate_deterministic; cbn [Base.red_balls Base.blue_ball]; auto.
  cbn [firstn map]. left. reflexivity.
Qed.

(** X13.  Off its fallback path the frequency generator returns the most
    frequent secondary number of the window, the smallest one among equally
    frequent ones; so with no usable secondary number at all it returns 1
    and never draws a random one. *)
Theorem frequency_predicts_most_frequent_blue (historical_data : list Draw.t)
    (dataset_size : Z) (s : Random.rng) (other : Z) :
  Utils.extract_red_balls (Py.take dataset_size historical_data) <> [] ->
  1 <= other <= 16 ->
  let blue :=
    Base.blue_ball (fst (Frequency.predict historical_data dataset_size s)) in
  let count :=
    count_occ Z.eq_dec
      (Utils.extract_blue_balls (Py.take dataset_size historical_data)) in
  (count other <= count blue)%nat /\ (count other = count blue -> blue <= other).
Proof.
  intros Hred Ho. cbv zeta.
  pose proof (frequency_predict_blue historical_data dataset_size s Hred) as Hb.
  set (blue := Base.blue_ball _) in *. clearbody blue.
  set (numbers := Utils.extract_blue_balls _) in *. clearbody numbers.
  destruct (Z.eq_dec other blue) as [->|Hne]; [split; [lia|intros _; lia]|].
  pose proof (top_by_count numbers 16 1 blue other) as Htop.
  cbv zeta in Htop.
  destruct Htop as [Hlt|[Heq Hlt]]; [exact Hb|exact Ho| |lia|lia].
  intros Hin.
  destruct (Py.sorted_by_count_desc (Utils.calculate_frequency numbers 16))
    as [|kv rest]; [destruct Hb|].
  cbn [firstn map] in Hb, Hin.
  destruct Hb as [Hb|[]], Hin as [Hin|[]]. congruence.
Qed.

Lemma frequency_predicts_most_frequent_blue_witness :
  let blue := Base.blue_ball (fst (Frequency.predict Fixtures.history2 2 [])) in
  let count :=
    count_occ Z.eq_dec
      (Utils.extract_blue_balls (Py.take 2 Fixtures.history2)) in
  (count 12%Z <= count blue)%nat /\ (count 12 = count blue -> blue <= 12).
Proof.
  apply (frequency_predicts_most_frequent_blue Fixtures.history2 2 [] 12).
  - vm_compute. discriminate.
  - lia.
Defined.

(** ** base.py: the validator *)

(** X14.  [validate_prediction] is idempotent: a validated result passes
    the validator again unchanged, and that second pass consumes no
    entropy. *)
Theorem validate_prediction_idempotent (self : Base.LotteryPredictor)
    (result : Base.PredictionResult) (s s' : Random.rng) :
  Base.validate_prediction self
    (fst (Base.validate_prediction self result s)) s' =
  (fst (Base.validate_prediction self result s), s').
Proof.
  destruct (validate_spec self result s)
    as (red & blue & s1 & E & Hlen & Hnd & Hst & _ & Hblue & _).
  rewrite E. cbn [fst]. unfold Base.validate_prediction.
  cbn [Base.red_balls Base.blue_ball Base.confidence Base.metadata].
  assert (Hset : Py.set red = red) by (now apply nodup_fixed_point).
  rewrite Hset, (sorted_fixed _ Hst), Hlen. cbn [Nat.ltb Nat.leb].
  assert (Hb : (blue <? 1) || (16 <? blue) = false).
  { apply orb_false_iff. rewrite !Z.ltb_ge. lia. }
  rewrite Hb. unfold Random.bind, Random.ret. f_equal. f_equal.
  unfold Qmin, GenericMinMax.gmin.
  destruct (Base.confidence result ?= Base.max_confidence self)%Q eqn:Ec;
    rewrite ?Ec; try reflexivity.
  destruct (Base.max_confidence self ?= Base.max_confidence self)%Q;
    reflexivity.
Qed.

(** X15.  What [validate_prediction] does to the primary numbers: with at
    most six distinct values it returns all of them (adding pool numbers
    when there are fewer), with more it keeps the six smallest; a value it
    returns is a value it was given or a number of 1..33. *)
Theorem validate_prediction_keeps_numbers (self : Base.LotteryPredictor)
    (result : Base.PredictionResult) (s : Random.rng) :
  let distinct := Py.set (Base.red_balls result) in
  let out := Base.red_balls (fst (Base.validate_prediction self result s)) in
  ((length distinct <= 6)%nat -> incl (Base.red_balls result) out)
  /\ ((6 <= length distinct)%nat -> out = firstn 6 (Py.sorted distinct))
  /\ (forall n, In n out -> In n (Base.red_balls result) \/ 1 <= n <= 33).
Proof.
  cbv zeta. split; [|split].
  3:{ destruct (validate_spec self result s)
        as (red & blue & s1 & E & _ & _ & _ & Hin & _).
      rewrite E. exact Hin. }
  - intros Hle n Hn.
    assert (Hin : In n (Py.sorted (Py.set (Base.red_balls result)))).
    { apply sorted_In. unfold Py.set. apply nodup_In. exact Hn. }
    unfold Base.validate_prediction.
    set (red := Py.sorted (Py.set (Base.red_balls result))) in *.
    assert (Hlen : length red = length (Py.set (Base.red_balls result)))
      by apply sorted_length.
    unfold Random.bind, Random.ret.
    destruct (length red <? 6)%nat eqn:Hlt.
    + destruct (Random.shuffle _ s) as [shuffled s1].
      match goal with
      | |- context [(if ?c then ?a else ?b) s1] =>
          destruct ((if c then a else b) s1) as [blue s2]
      end.
      cbn [fst Base.red_balls]. apply sorted_In, in_or_app. now left.
    + apply Nat.ltb_ge in Hlt.
      assert (Hgt : (6 <? length red)%nat = false) by (apply Nat.ltb_ge; lia).
      rewrite Hgt.
      match goal with
      | |- context [(if ?c then ?a else ?b) s] =>
          destruct ((if c then a else b) s) as [blue s2]
      end.
      cbn [fst Base.red_balls]. exact Hin.
  - intros Hge. unfold Base.validate_prediction.
    set (red := Py.sorted (Py.set (Base.red_balls result))) in *.
    assert (Hlen : length red = length (Py.set (Base.red_balls result)))
      by apply sorted_length.
    unfold Random.bind, Random.ret.
    assert (Hlt : (length red <? 6)%nat = false) by (apply Nat.ltb_ge; lia).
    rewrite Hlt.
    destruct (6 <? length red)%nat eqn:Hgt.
    + match goal with
      | |- context [(if ?c then ?a else ?b) s] =>
          destruct ((if c then a else b) s) as [blue s2]
      end.
      reflexivity.
    + apply Nat.ltb_ge in Hgt.
      match goal with
      | |- context [(if ?c then ?a else ?b) s] =>
          destruct ((if c then a else b) s) as [blue s2]
      end.
      cbn [fst Base.red_balls]. symmetry. apply firstn_all2. lia.
Qed.

(** ** trend.py *)

Section TrendMore.

Local Open Scope Q_scope.

Lemma sum_map_Qeq {A} (f g : A -> Q) (l : list A) :
  (forall x, In x l -> f x == g x) ->
  Py.sum (map f l) == Py.sum (map g l).
Proof.
  induction l as [|x l IH]; intros H; [reflexivity|].
  assert (Hx : f x == g x) by (apply H; now left).
  assert (Hl : Py.sum (map f l) == Py.sum (map g l))
    by (apply IH; intros y Hy; apply H; now right).
  cbn [map]. rewrite !sum_cons, Hl, Hx. reflexivity.
Qed.

Lemma sum_map_scale {A} (c : Q) (f : A -> Q) (l : list A) :
  Py.sum (map (fun x => c * f x) l) == c * Py.sum (map f l).
Proof.
  induction l as [|x l IH].
  - unfold Py.sum. cbn [map fold_left]. ring.
  - cbn [map]. rewrite !sum_cons, IH. ring.
Qed.

Lemma sum_map_affine (a b : Q) (l : list Q) :
  Py.sum (map (fun x => a + b * x) l)
  == Py.of_nat (length l) * a + b * Py.sum l.
Proof.
  induction l as [|x l IH].
  - unfold Py.sum. cbn [map fold_left length]. change (Py.of_nat 0) with 0. ring.
  - cbn [map length]. rewrite !sum_cons, IH, of_nat_S. ring.
Qed.

Lemma combine_map_self {A B} (f : A -> B) (l : list A) :
  combine l (map f l) = map (fun x => (x, f x)) l.
Proof.
  induction l as [|x l IH]; [reflexivity|]. cbn [map combine]. now rewrite IH.
Qed.

Lemma sum_squares_positive (m : Q) (n : nat) :
  (2 <= n)%nat ->
  0 < Py.sum (map (fun x => (x - m) * (x - m)) (map Py.of_nat (seq 0 n))).
Proof.
  intros Hn. destruct n as [|[|n]]; try lia.
  cbn [seq map]. rewrite !sum_cons.
  change (Py.of_nat 0) with 0. change (Py.of_nat 1) with 1.
  assert (Hrest : 0 <= Py.sum (map (fun x => (x - m) * (x - m))
                                   (map Py.of_nat (seq 2 n)))).
  { apply sum_nonneg. apply Forall_forall. intros y Hy.
    apply in_map_iff in Hy. destruct Hy as (x & <- & _). cbv beta.
    generalize (x - m). intros t.
    destruct (Qlt_le_dec t 0); [|now apply Qmult_le_0_compat].
    setoid_replace (t * t) with ((- t) * (- t)) by ring.
    apply Qmult_le_0_compat; lra. }
  set (r := Py.sum _) in *. clearbody r.
  assert (Hsq : 0 <= (m - (1 # 2)) * (m - (1 # 2))).
  { generalize (m - (1 # 2)). intros t.
    destruct (Qlt_le_dec t 0); [|now apply Qmult_le_0_compat].
    setoid_replace (t * t) with ((- t) * (- t)) by ring.
    apply Qmult_le_0_compat; lra. }
  setoid_replace ((0 - m) * (0 - m) + ((1 - m) * (1 - m) + r))
    with (2 * ((m - (1 # 2)) * (m - (1 # 2))) + (1 # 2) + r) by ring.
  lra.
Qed.

(** X16.  The slope helper is an exact least-squares fit: on a series that
    lies on a line it returns the slope of that line. *)
Theorem slope_of_a_line (a b : Q) (n : nat) :
  (2 <= n)%nat ->
  Trend._calculate_slope (map (fun i => a + b * Py.of_nat i) (seq 0 n)) == b.
Proof.
  intros Hn. unfold Trend._calculate_slope.
  rewrite length_map, length_seq.
  assert (Hlt : (n <? 2)%nat = false) by (apply Nat.ltb_ge; lia).
  rewrite Hlt. cbv zeta.
  set (xs := map Py.of_nat (seq 0 n)).
  assert (Hvalues : map (fun i => a + b * Py.of_nat i) (seq 0 n)
                    = map (fun x => a + b * x) xs)
    by (unfold xs; now rewrite map_map).
  rewrite Hvalues, combine_map_self, map_map. cbn [fst snd].
  assert (Hlen : length xs = n) by (unfold xs; now rewrite length_map, length_seq).
  assert (Hpos : 0 < Py.of_nat n) by (apply of_nat_pos; lia).
  assert (Hym : Utils.np_mean (map (fun x => a + b * x) xs)
                == a + b * Utils.np_mean xs).
  { unfold Utils.np_mean. rewrite length_map, sum_map_affine, Hlen.
    field. lra. }
  set (xm := Utils.np_mean xs) in *.
  set (ym := Utils.np_mean (map (fun x => a + b * x) xs)) in *.
  assert (Hnum :
    Py.sum (map (fun x => (x - xm) * (a + b * x - ym)) xs)
    == b * Py.sum (map (fun xi => (xi - xm) * (xi - xm)) xs)).
  { rewrite <- sum_map_scale. apply sum_map_Qeq. intros x _.
    rewrite Hym. ring. }
  pose proof (sum_squares_positive xm n Hn) as Hden. fold xs in Hden.
  set (den := Py.sum (map (fun xi => (xi - xm) * (xi - xm)) xs)) in *.
  destruct (Qeq_bool den 0) eqn:Ez.
  - apply Qeq_bool_iff in Ez. lra.
  - rewrite Hnum. field. lra.
Qed.

Lemma slope_of_a_line_witness :
  Trend._calculate_slope
    (map (fun i => (1 # 2) + (1 # 10) * Py.of_nat i) (seq 0 5)) == 1 # 10.
Proof.
  apply (slope_of_a_line (1 # 2) (1 # 10) 5). lia.
Defined.

Lemma slope5_bounds (values : list Q) :
  length values = 5%nat -> Forall Spec.unit_interval values ->
  -(3 # 10) <= Trend._calculate_slope values
  /\ Trend._calculate_slope values <= 3 # 10.
Proof.
  intros Hlen Hall.
  destruct values as [|a [|b [|c [|d [|e [|f values]]]]]]; try discriminate.
  rewrite slope5.
  inversion Hall as [|? ? [Ha0 Ha1] Hall1]; subst.
  inversion Hall1 as [|? ? [Hb0 Hb1] Hall2]; subst.
  inversion Hall2 as [|? ? [Hc0 Hc1] Hall3]; subst.
  inversion Hall3 as [|? ? [Hd0 Hd1] Hall4]; subst.
  inversion Hall4 as [|? ? [He0 He1] _]; subst.
  split; lra.
Qed.

Lemma appearances_sum (num : Z) (history : list (list Z)) :
  Py.sum (map (fun draw => if Py.mem num draw then 1 else 0) history)
  == Py.of_nat (length (filter (Py.mem num) history)).
Proof.
  induction history as [|draw history IH].
  - unfold Py.sum. cbn [map fold_left filter length]. reflexivity.
  - cbn [map filter]. rewrite sum_cons, IH.
    destruct (Py.mem num draw); [cbn [length]; rewrite of_nat_S|]; ring.
Qed.

(** X17.  Every trend score lies within -0.3..0.3, and a number that
    occurs in fewer than three draws of the history scores exactly 0. *)
Theorem trend_scores_bounded (red_balls_history : list (list Z))
    (range_max : Z) :
  Forall (fun kv => -(3 # 10) <= snd kv /\ snd kv <= 3 # 10)
         (Trend._calculate_trend_scores red_balls_history range_max)
  /\ (forall num default,
         (length (filter (Py.mem num) red_balls_history) < 3)%nat ->
         (1 <= num <= range_max)%Z ->
         Py.dict_get (Trend._calculate_trend_scores red_balls_history range_max)
                     num default = 0).
Proof.
  split.
  - apply Forall_forall. intros kv Hkv.
    unfold Trend._calculate_trend_scores in Hkv. apply in_map_iff in Hkv.
    destruct Hkv as (num & <- & _). cbv zeta.
    destruct (Py.Qltb _ 3); [cbn [snd]; split; lra|].
    destruct (5 <=? _)%nat eqn:Hlen; [|cbn [snd]; split; lra].
    apply Nat.leb_le in Hlen. cbn [snd].
    apply slope5_bounds.
    + apply last_n_length. lia.
    + eapply Forall_incl; [apply last_n_incl|].
      apply moving_average_unit.
      apply Forall_forall. intros x Hx. apply in_map_iff in Hx.
      destruct Hx as (draw & <- & _).
      destruct (Py.mem num draw); unfold Spec.unit_interval; split; lra.
  - intros num default Hfew Hnum.
    pose proof (trend_scores_keys red_balls_history range_max) as Hkeys.
    assert (Hin : In num (map fst (Trend._calculate_trend_scores
                                     red_balls_history range_max))).
    { rewrite Hkeys. apply range_In. lia. }
    pose proof (dict_get_In _ num default Hin) as Hget.
    set (v := Py.dict_get _ num default) in *. clearbody v.
    unfold Trend._calculate_trend_scores in Hget. apply in_map_iff in Hget.
    destruct Hget as (num' & E & _). cbv zeta in E.
    assert (Hq : forall k,
               (length (filter (Py.mem k) red_balls_history) < 3)%nat ->
               Py.Qltb (Py.sum (map (fun draw => if Py.mem k draw then 1 else 0)
                                    red_balls_history)) 3 = true).
    { intros k Hk. apply Qltb_lt. rewrite appearances_sum.
      unfold Py.of_nat. change 3 with (inject_Z 3). rewrite <- Zlt_Qlt. lia. }
    destruct (Py.Qltb _ 3) eqn:Hlt.
    + now injection E as _ <-.
    + assert (num' = num).
      { destruct (5 <=? _)%nat; now injection E as -> _. }
      subst num'. rewrite (Hq num Hfew) in Hlt. discriminate.
Qed.

Context {ext : Externals}.

(** X18.  Off its fallback path the trend generator's confidence lies
    within 44..56: the ceiling of 70 is never reached. *)
Theorem trend_confidence_between_44_and_56 (historical_data : list Draw.t)
    (dataset_size : Z) (s : Random.rng) :
  (30 <= length historical_data)%nat ->
  (30 <= length (Utils.extract_red_balls
                   (Py.take dataset_size historical_data)))%nat ->
  let r := fst (Trend.predict historical_data dataset_size s) in
  44 <= Base.confidence r /\ Base.confidence r <= 56
  /\ Spec.fallback_flag r = false.
Proof.
  intros Hh Hreds. cbv zeta. unfold Trend.predict.
  apply Nat.ltb_ge in Hh, Hreds. rewrite Hh. cbv zeta. rewrite Hreds.
  rewrite validate_confidence, fallback_flag_validate.
  cbn [Base.confidence].
  destruct (trend_scores_bounded
              (Utils.extract_red_balls (Py.take dataset_size historical_data))
              33) as [Hall _].
  set (scores := Trend._calculate_trend_scores _ 33) in *. clearbody scores.
  unfold Py.sorted_by_value_desc.
  set (ranked := Py.stable_sort _ scores).
  assert (Hranked : incl (firstn 6 ranked) scores).
  { intros kv Hkv. apply (firstn_incl 6) in Hkv.
    apply (proj1 (stable_sort_In _ _ _)) in Hkv. exact Hkv. }
  clearbody ranked.
  assert (Hb : Forall (fun x => -(3 # 10) <= x /\ x <= 3 # 10)
                      (map snd (firstn 6 ranked))).
  { apply Forall_forall. intros x Hx. apply in_map_iff in Hx.
    destruct Hx as (kv & <- & Hkv). apply Hranked in Hkv.
    rewrite Forall_forall in Hall. apply Hall. exact Hkv. }
  assert (Havg : -(3 # 10) <= match map snd (firstn 6 ranked) with
                              | [] => 0
                              | _ :: _ => Utils.np_mean (map snd (firstn 6 ranked))
                              end
                 /\ match map snd (firstn 6 ranked) with
                    | [] => 0
                    | _ :: _ => Utils.np_mean (map snd (firstn 6 ranked))
                    end <= 3 # 10).
  { destruct (map snd (firstn 6 ranked)) as [|x top]; [split; lra|].
    apply mean_bounds; [discriminate|exact Hb]. }
  set (avg := match map snd (firstn 6 ranked) with
              | [] => 0
              | _ :: _ => _
              end) in *.
  clearbody avg. destruct Havg as [Hlo Hhi].
  split; [|split].
  - apply Q.min_glb; [lra|discriminate].
  - eapply Qle_trans; [apply Q.le_min_l|]. lra.
  - reflexivity.
Qed.

End TrendMore.

Lemma trend_confidence_between_44_and_56_witness :
  let r := fst (@Trend.predict (Fixtures.plain_externals true)
                               Fixtures.SAMPLE_DATA 50 []) in
  (44 <= Base.confidence r /\ Base.confidence r <= 56
   /\ Spec.fallback_flag r = false)%Q.
Proof.
  apply (@trend_confidence_between_44_and_56 (Fixtures.plain_externals true)
           Fixtures.SAMPLE_DATA 50 []).
  - vm_compute. lia.
  - vm_compute. lia.
Defined.

(** ** random_forest.py *)

Lemma split_map {A B} (l : list (A * B)) :
  List.split l = (map fst l, map snd l).
Proof.
  induction l as [|[a b] l IH]; [reflexivity|].
  cbn [List.split map fst snd]. now rewrite IH.
Qed.

Lemma map_seq_offset {A} (f : nat -> A) (n : nat) :
  forall k, map f (seq k n) = map (fun i => f (i + k)%nat) (seq 0 n).
Proof.
  revert f. induction n as [|n IH]; intros f k; [reflexivity|].
  cbn [seq map]. f_equal.
  rewrite (IH f (S k)), (IH (fun i => f (i + k)%nat) 1%nat).
  apply map_ext. intros i. f_equal. lia.
Qed.

Lemma flat_map_length_le {A B} (f : A -> list B) (l : list A) :
  (forall x, length (f x) <= 1)%nat ->
  (length (flat_map f l) <= length l)%nat.
Proof.
  intros Hf. induction l as [|x l IH]; [apply Nat.le_refl|].
  cbn [flat_map length]. rewrite length_app. specialize (Hf x). lia.
Qed.

Lemma flat_map_singletons {A B} (f : A -> list B) (g : A -> B) (l : list A) :
  (forall x, In x l -> f x = [g x]) -> flat_map f l = map g l.
Proof.
  induction l as [|x l IH]; intros H; [reflexivity|].
  cbn [flat_map map]. rewrite (H x (or_introl eq_refl)), IH; [reflexivity|].
  intros y Hy. apply H. now right.
Qed.

Section ForestMore.

Context {ext : Externals}.

Lemma encode_window_features_length (window : list (list Z)) :
  length (RandomForest._encode_window_features window)
  = (40 * length window + 4)%nat.
Proof.
  unfold RandomForest._encode_window_features. cbv zeta.
  rewrite length_app.
  assert (Htail : forall l : list Z,
             length (match l with
                     | [] => [0%Q; 0%Q; 0%Q; 0%Q]
                     | _ :: _ =>
                         [Utils.np_mean (map inject_Z l); Np.std (map inject_Z l);
                          Py.max_list (map inject_Z l);
                          Py.min_list (map inject_Z l)]
                     end) = 4%nat)
    by (intros [|x l]; reflexivity).
  rewrite Htail. f_equal.
  induction window as [|draw window IH]; [reflexivity|].
  cbn [flat_map length]. rewrite !length_app, one_hot_length, IH.
  cbn [length]. lia.
Qed.

(** The training rows and targets as one list of pairs. *)
Lemma prepare_training_data_spec (red_balls_history : list (list Z)) :
  let X := fst (RandomForest._prepare_training_data red_balls_history) in
  let y := snd (RandomForest._prepare_training_data red_balls_history) in
  length X = length y
  /\ (length X <= length red_balls_history - 5)%nat
  /\ Forall (fun row => length row = 204%nat) X
  /\ Forall (fun target => length target = 6%nat) y
  /\ (Forall (fun draw => length draw = 6%nat) red_balls_history ->
      y = skipn 5 red_balls_history
      /\ length X = (length red_balls_history - 5)%nat).
Proof.
  cbv zeta. unfold RandomForest._prepare_training_data.
  change RandomForest.lookback with 5%nat.
  set (n := length red_balls_history).
  set (g := fun idx : nat =>
              if (length (nth idx red_balls_history []) <? 6)%nat then []
              else [(RandomForest._encode_window_features
                       (Py.slice (idx - 5) idx red_balls_history),
                     firstn 6 (nth idx red_balls_history []))]).
  change (flat_map _ (seq 5 (n - 5))) with (flat_map g (seq 5 (n - 5))).
  rewrite split_map. cbn [fst snd].
  assert (Hpair : forall p, In p (flat_map g (seq 5 (n - 5))) ->
            length (fst p) = 204%nat /\ length (snd p) = 6%nat).
  { intros p Hp. apply in_flat_map in Hp. destruct Hp as (idx & Hidx & Hp).
    apply in_seq in Hidx. unfold g in Hp.
    destruct (length (nth idx red_balls_history []) <? 6)%nat eqn:Hshort;
      [destruct Hp|].
    apply Nat.ltb_ge in Hshort. destruct Hp as [<-|[]]. cbn [fst snd]. split.
    - rewrite encode_window_features_length. unfold Py.slice.
      rewrite length_firstn, length_skipn. fold n. lia.
    - rewrite length_firstn. lia. }
  split; [now rewrite !length_map|]. split; [|split; [|split]].
  - rewrite length_map. etransitivity.
    + apply flat_map_length_le. intros idx. unfold g.
      destruct (_ <? 6)%nat; cbn [length]; lia.
    + now rewrite length_seq.
  - apply Forall_forall. intros row Hrow. apply in_map_iff in Hrow.
    destruct Hrow as (p & <- & Hp). now apply Hpair.
  - apply Forall_forall. intros t Ht. apply in_map_iff in Ht.
    destruct Ht as (p & <- & Hp). now apply Hpair.
  - intros Hsix.
    assert (Hg : forall idx, In idx (seq 5 (n - 5)) ->
               g idx = [(RandomForest._encode_window_features
                           (Py.slice (idx - 5) idx red_balls_history),
                         nth idx red_balls_history [])]).
    { intros idx Hidx. apply in_seq in Hidx. unfold g.
      assert (Hlen : length (nth idx red_balls_history []) = 6%nat).
      { rewrite Forall_forall in Hsix. apply Hsix, nth_In. fold n. lia. }
      rewrite Hlen. cbn [Nat.ltb Nat.leb]. rewrite firstn_all2 by lia.
      reflexivity. }
    rewrite (flat_map_singletons g _ _ Hg), !map_map, !length_map, length_seq.
    cbn [snd]. split; [|reflexivity].
    rewrite map_seq_offset. apply map_nth_skipn.
Qed.

(** X19.  The forest's training set has one row per draw after the first
    five at most; a row has 204 features (40 per draw of its five-draw
    window and 4 for the window) and a target has six numbers.  On a
    history of six-number draws no draw is skipped and the targets are the
    draws after the first five, in order. *)
Theorem training_data_shape (red_balls_history : list (list Z)) :
  let X := fst (RandomForest._prepare_training_data red_balls_history) in
  let y := snd (RandomForest._prepare_training_data red_balls_history) in
  length X = length y
  /\ (length X <= length red_balls_history - 5)%nat
  /\ Forall (fun row => length row = 204%nat) X
  /\ Forall (fun target => length target = 6%nat) y
  /\ (Forall (fun draw => length draw = 6%nat) red_balls_history ->
      y = skipn 5 red_balls_history
      /\ length X = (length red_balls_history - 5)%nat).
Proof. exact (prepare_training_data_spec red_balls_history). Qed.

(** Below 30 draws the classifier is never consulted. *)
Lemma predict_red_balls_untrained (red_balls_history : list (list Z))
    (s : Random.rng) :
  (length red_balls_history < 30)%nat ->
  RandomForest._predict_red_balls red_balls_history s =
  ((RandomForest._frequency_based_selection red_balls_history, 0.45%Q), s).
Proof.
  intros Hlen. unfold RandomForest._predict_red_balls.
  destruct (prepare_training_data_spec red_balls_history) as (_ & Hle & _).
  cbv zeta in Hle.
  destruct (RandomForest._prepare_training_data red_balls_history) as [X y].
  cbn [fst] in Hle.
  assert (Hlt : (length X <? 25)%nat = true) by (apply Nat.ltb_lt; lia).
  rewrite Hlt. reflexivity.
Qed.

(** X20.  With the library present and 15 to 29 six-number draws in the
    window the forest generator never trains a model: it returns the six
    most frequent numbers, with confidence 64.6 + n/40 for n draws, and
    the answer does not depend on the classifier. *)
Theorem forest_below_thirty_draws_is_frequency_selection
    (historical_data : list Draw.t) (dataset_size : Z) (s : Random.rng) :
  HAS_SKLEARN = true ->
  (15 <= length historical_data)%nat ->
  (15 <= length (Utils.extract_red_balls
                   (Py.take dataset_size historical_data)) < 30)%nat ->
  let reds := Utils.extract_red_balls (Py.take dataset_size historical_data) in
  let r := fst (RandomForest.predict historical_data dataset_size s) in
  Base.red_balls r = RandomForest._frequency_based_selection reds
  /\ (Base.confidence r == (646 # 10) + Py.of_nat (length reds) / 40)%Q.
Proof.
  intros Hsk Hh [Hlo Hhi]. cbv zeta. unfold RandomForest.predict.
  rewrite Hsk. cbn [negb].
  change (RandomForest.lookback + 10)%nat with 15%nat.
  apply Nat.ltb_ge in Hh, Hlo. rewrite Hh. cbv zeta. rewrite Hlo.
  unfold Random.bind. rewrite predict_red_balls_untrained by exact Hhi.
  set (reds := Utils.extract_red_balls (Py.take dataset_size historical_data))
    in *.
  pose proof (predict_blue_ball_range
                (Utils.extract_blue_balls (Py.take dataset_size historical_data))
                s) as Hblue.
  destruct (RandomForest._predict_blue_ball _ s) as [blue s1].
  cbn [fst] in Hblue.
  destruct (frequency_based_selection_shape reds) as (Hlen & Hnd & Hst & _).
  rewrite validate_deterministic; cbn [Base.red_balls Base.blue_ball]; auto.
  cbn [Base.confidence]. split; [apply sorted_fixed; exact Hst|].
  set (n := Py.of_nat (length reds)).
  assert (Hn0 : (0 <= n)%Q) by apply of_nat_nonneg.
  assert (Hn30 : (n <= 30)%Q).
  { unfold n, Py.of_nat. change 30%Q with (inject_Z 30).
    rewrite <- Zle_Qle. lia. }
  assert (Hmin : (Qmin (n / 400) 1.0 == n / 400)%Q).
  { apply Q.min_l. apply Qle_shift_div_r; [reflexivity|].
    eapply Qle_trans; [exact Hn30|discriminate]. }
  rewrite Hmin.
  assert (Hraw : (52.0 + 0.45 * 28.0 + n / 400 * 10.0
                  == (646 # 10) + n / 40)%Q) by field.
  rewrite Hraw. apply Q.min_l.
  assert (Hq : (n / 40 <= 30 / 40)%Q).
  { apply Qle_shift_div_r; [reflexivity|]. 
    setoid_replace (30 / 40 * 40)%Q with 30%Q by field. exact Hn30. }
  eapply Qle_trans; [apply Qplus_le_r; exact Hq|discriminate].
Qed.

End ForestMore.

Lemma forest_below_thirty_draws_is_frequency_selection_witness :
  let reds := Utils.extract_red_balls (Py.take 19 Fixtures.history19) in
  let r := fst (@RandomForest.predict (Fixtures.plain_externals true)
                                      Fixtures.history19 19 []) in
  Base.red_balls r = RandomForest._frequency_based_selection reds
  /\ (Base.confidence r == (646 # 10) + Py.of_nat (length reds) / 40)%Q.
Proof.
  apply (@forest_below_thirty_draws_is_frequency_selection
           (Fixtures.plain_externals true) Fixtures.history19 19 []).
  - reflexivity.
  - vm_compute. lia.
  - vm_compute. lia.
Defined.

Lemma aggregate_slot_get (slot_map : list (Z * Q)) (num : Z) :
  1 <= num <= 33 ->
  forall combined : list (Z * Q),
    (Py.dict_get
       (fold_left
          (fun combined np =>
             let num := fst np in
             if (1 <=? num) && (num <=? 33)
             then Py.dict_set combined num
                    (Py.dict_get combined num 0 + snd np)%Q
             else combined)
          slot_map combined) num 0
     == Py.dict_get combined num 0
        + Py.sum (map snd (filter (fun np => fst np =? num) slot_map)))%Q.
Proof.
  intros Hnum. induction slot_map as [|[k p] slot_map IH]; intros combined.
  - cbn [fold_left filter map]. unfold Py.sum. cbn [fold_left]. ring.
  - cbn [fold_left filter]. rewrite IH. cbv zeta. cbn [fst snd].
    destruct (Z.eqb_spec k num) as [->|Hne].
    + assert (Hr : (1 <=? num) && (num <=? 33) = true).
      { apply andb_true_iff. rewrite !Z.leb_le. lia. }
      rewrite Hr, dict_get_set, Z.eqb_refl. cbn [map snd]. rewrite sum_cons.
      ring.
    + destruct ((1 <=? k) && (k <=? 33)); [|reflexivity].
      rewrite dict_get_set.
      destruct (Z.eqb_spec num k); [congruence|reflexivity].
Qed.

Lemma aggregate_slot_keys (slot_map : list (Z * Q)) :
  forall combined : list (Z * Q),
    map fst combined = Py.range 1 34 ->
    map fst
      (fold_left
         (fun combined np =>
            let num := fst np in
            if (1 <=? num) && (num <=? 33)
            then Py.dict_set combined num
                   (Py.dict_get combined num 0 + snd np)%Q
            else combined)
         slot_map combined) = Py.range 1 34.
Proof.
  induction slot_map as [|[k p] slot_map IH]; intros combined Hkeys;
    [exact Hkeys|].
  cbn [fold_left]. apply IH. cbv zeta. cbn [fst snd].
  destruct ((1 <=? k) && (k <=? 33)) eqn:Hr; [|exact Hkeys].
  apply andb_true_iff in Hr. rewrite !Z.leb_le in Hr.
  rewrite dict_set_keys; [exact Hkeys|]. rewrite Hkeys. apply range_In. lia.
Qed.

Lemma aggregate_keys_eq (probability_maps : list (list (Z * Q))) :
  map fst (RandomForest._aggregate_probabilities probability_maps)
  = Py.range 1 34.
Proof.
  unfold RandomForest._aggregate_probabilities.
  set (init := map (fun num => (num, 0%Q)) (Py.range 1 34)).
  assert (Hkeys : map fst init = Py.range 1 34).
  { unfold init. rewrite map_map. apply map_id. }
  clearbody init. revert init Hkeys.
  induction probability_maps as [|slot_map maps IH]; intros init Hkeys;
    [exact Hkeys|].
  cbn [fold_left]. apply IH. apply aggregate_slot_keys. exact Hkeys.
Qed.

(** X21.  [_aggregate_probabilities] returns a table over exactly 1..33 in
    which a number's score is the sum of the probabilities the slots give
    it; classes outside 1..33 are ignored. *)
Theorem aggregate_probabilities_adds_up
    (probability_maps : list (list (Z * Q))) :
  map fst (RandomForest._aggregate_probabilities probability_maps)
  = Py.range 1 34
  /\ forall num,
       1 <= num <= 33 ->
       (Py.dict_get (RandomForest._aggregate_probabilities probability_maps)
                    num 0
        == Py.sum
             (map (fun slot_map =>
                     Py.sum (map snd (filter (fun np => fst np =? num)
                                             slot_map)))
                  probability_maps))%Q.
Proof.
  unfold RandomForest._aggregate_probabilities.
  set (init := map (fun num => (num, 0%Q)) (Py.range 1 34)).
  assert (Hkeys : map fst init = Py.range 1 34).
  { unfold init. rewrite map_map. apply map_id. }
  assert (Hzero : forall num, 1 <= num <= 33 ->
                              (Py.dict_get init num 0 == 0)%Q).
  { intros num Hnum. unfold init. rewrite dict_get_const; [reflexivity|].
    apply range_In. lia. }
  clearbody init. split.
  - clear Hzero. revert init Hkeys.
    induction probability_maps as [|slot_map maps IH]; intros init Hkeys;
      [exact Hkeys|].
    cbn [fold_left]. apply IH. apply aggregate_slot_keys. exact Hkeys.
  - intros num Hnum.
    assert (Hgen : forall combined : list (Z * Q),
      (Py.dict_get
         (fold_left
            (fun combined slot_map =>
               fold_left
                 (fun combined np =>
                    let num := fst np in
                    if (1 <=? num) && (num <=? 33)
                    then Py.dict_set combined num
                           (Py.dict_get combined num 0 + snd np)%Q
                    else combined)
                 slot_map combined)
            probability_maps combined) num 0
       == Py.dict_get combined num 0
          + Py.sum
              (map (fun slot_map =>
                      Py.sum (map snd (filter (fun np => fst np =? num)
                                              slot_map)))
                   probability_maps))%Q).
    { induction probability_maps as [|slot_map maps IH]; intros combined.
      - cbn [fold_left map]. unfold Py.sum. cbn [fold_left]. ring.
      - cbn [fold_left map]. rewrite IH, aggregate_slot_get, sum_cons by exact Hnum.
        ring. }
    rewrite Hgen, (Hzero num Hnum). ring.
Qed.

Lemma first_match_split {A} (p : Z -> bool) (f : A -> Z) (l : list A)
    (x : Z) (rest : list Z) :
  filter p (map f l) = x :: rest ->
  exists l1 e l2,
    l = l1 ++ e :: l2 /\ f e = x /\ p x = true
    /\ Forall (fun y => p (f y) = false) l1.
Proof.
  induction l as [|a l IH]; cbn [map filter]; [discriminate|].
  destruct (p (f a)) eqn:Hp.
  - intros [= <- _]. exists [], a, l. repeat split; auto.
  - intros H. destruct (IH H) as (l1 & e & l2 & -> & He & Hx & Hall).
    exists (a :: l1), e, l2. repeat split; auto.
Qed.

Lemma sorted_by_value_desc_ordered {K} (items : list (K * Q)) :
  StronglySorted
    (Notions.ordered_by (fun y x : K * Q => Py.Qltb (snd x) (snd y))
                        (fun _ _ => True))
    (Py.sorted_by_value_desc items).
Proof.
  unfold Py.sorted_by_value_desc. apply stable_sort_ordered.
  - intros a b H. apply Qltb_lt in H.
    destruct (Py.Qltb (snd a) (snd b)) eqn:E; [|reflexivity].
    apply Qltb_lt in E. lra.
  - intros a b c Hab Hbc.
    destruct (Py.Qltb (snd c) (snd a)) eqn:E; [|reflexivity].
    apply Qltb_lt in E.
    assert (Hba : (snd a <= snd b)%Q).
    { apply Qnot_lt_le. intros H. apply Qltb_lt in H. congruence. }
    assert (Hcb : (snd b <= snd c)%Q).
    { apply Qnot_lt_le. intros H. apply Qltb_lt in H. congruence. }
    lra.
  - induction items as [|x items IH]; constructor; [exact IH|].
    apply Forall_forall. intros y _. exact I.
Qed.

(** [_select_high_probability_number] when some scored number is still
    unused. *)
Lemma select_high_probability_spec (combined_scores : list (Z * Q))
    (used_numbers : list Z) (s : Random.rng) (kv : Z * Q) :
  In kv combined_scores -> ~ In (fst kv) used_numbers ->
  exists num score,
    RandomForest._select_high_probability_number combined_scores used_numbers s
    = (num, s)
    /\ ~ In num used_numbers
    /\ In (num, score) combined_scores
    /\ (snd kv <= score)%Q.
Proof.
  intros Hkv Hunused. unfold RandomForest._select_high_probability_number.
  cbv zeta.
  pose proof (sorted_by_value_desc_ordered combined_scores) as Hsorted.
  assert (Hperm : forall e, In e (Py.sorted_by_value_desc combined_scores)
                            <-> In e combined_scores)
    by (intros e; apply stable_sort_In).
  set (candidates := Py.sorted_by_value_desc combined_scores) in *.
  clearbody candidates.
  set (p := fun num => negb (Py.mem num used_numbers)).
  assert (Hp : p (fst kv) = true).
  { unfold p. apply negb_true_iff, mem_false. exact Hunused. }
  destruct (filter p (map fst candidates)) as [|num rest] eqn:Ecand.
  - exfalso.
    assert (Hin : In (fst kv) (filter p (map fst candidates))).
    { apply filter_In. split; [|exact Hp]. apply in_map, Hperm. exact Hkv. }
    rewrite Ecand in Hin. destruct Hin.
  - destruct (first_match_split p fst candidates num rest Ecand)
      as (l1 & e & l2 & -> & He & Hnum & Hall).
    exists num, (snd e). unfold Random.ret.
    split; [reflexivity|]. split; [|split].
    + unfold p in Hnum. apply negb_true_iff in Hnum. now apply mem_false.
    + apply Hperm. apply in_or_app. right. left. rewrite <- He.
      now destruct e.
    + apply Hperm, in_app_or in Hkv. destruct Hkv as [Hkv|[<-|Hkv]].
      * rewrite Forall_forall in Hall. rewrite (Hall kv Hkv) in Hp.
        discriminate.
      * apply Qle_refl.
      * change (l1 ++ e :: l2) with (l1 ++ [e] ++ l2) in Hsorted.
        rewrite app_assoc in Hsorted.
        destruct (sorted_app_cross _ _ _ Hsorted e kv) as [Hbefore _];
          [apply in_or_app; right; now left|exact Hkv|].
        cbn beta in Hbefore. apply Qnot_lt_le. intros Hlt.
        apply Qltb_lt in Hlt. congruence.
Qed.

(** X22.  While some scored number is unused,
    [_select_high_probability_number] returns an unused number whose score
    no unused number exceeds, and consumes no entropy: the random branch
    is only reached when every scored number is used. *)
Theorem select_high_probability_is_best_unused
    (combined_scores : list (Z * Q)) (used_numbers : list Z) (s : Random.rng)
    (kv : Z * Q) :
  In kv combined_scores -> ~ In (fst kv) used_numbers ->
  exists num score,
    RandomForest._select_high_probability_number combined_scores used_numbers s
    = (num, s)
    /\ ~ In num used_numbers
    /\ In (num, score) combined_scores
    /\ (snd kv <= score)%Q.
Proof. exact (select_high_probability_spec combined_scores used_numbers s kv). Qed.

Lemma select_high_probability_is_best_unused_witness :
  exists num score,
    RandomForest._select_high_probability_number
      [(1, 0.5%Q); (2, 0.75%Q); (3, 1%Q)] [3] []
    = (num, [])
    /\ ~ In num [3]
    /\ In (num, score) [(1, 0.5%Q); (2, 0.75%Q); (3, 1%Q)]
    /\ (snd (1, 0.5%Q) <= score)%Q.
Proof.
  apply (select_high_probability_is_best_unused
           [(1, 0.5%Q); (2, 0.75%Q); (3, 1%Q)] [3] [] (1, 0.5%Q)).
  - left. reflexivity.
  - cbn. lia.
Defined.

Lemma pool_has_unused (used : list Z) :
  (length used < 33)%nat -> exists n, 1 <= n <= 33 /\ ~ In n used.
Proof.
  intros Hlen. pose proof (complement_length used) as Hc.
  destruct (filter (fun n => negb (Py.mem n used)) (Py.range 1 34))
    as [|n rest] eqn:E; [cbn [length] in Hc; lia|].
  assert (Hin : In n (n :: rest)) by now left.
  rewrite <- E in Hin. apply filter_In in Hin. destruct Hin as [Hr Hm].
  apply range_In in Hr. apply negb_true_iff, mem_false in Hm.
  exists n. split; [lia|exact Hm].
Qed.

Lemma fill_predicted_distinct (combined_scores : list (Z * Q))
    (raw_prediction : list Z) :
  map fst combined_scores = Py.range 1 34 ->
  forall (predicted_numbers : list Z) (s : Random.rng),
    NoDup predicted_numbers ->
    (length predicted_numbers + length raw_prediction <= 33)%nat ->
    let out := RandomForest.fill_predicted combined_scores raw_prediction
                                           predicted_numbers s in
    NoDup (fst out)
    /\ length (fst out)
       = (length predicted_numbers + length raw_prediction)%nat
    /\ snd out = s.
Proof.
  intros Hkeys. induction raw_prediction as [|number rest IH];
    intros predicted s Hnd Hlen; cbv zeta; cbn [RandomForest.fill_predicted].
  - unfold Random.ret. cbn [fst snd length]. repeat split; [exact Hnd|lia].
  - cbn [length] in Hlen.
    assert (Hstep : forall x, ~ In x predicted ->
              NoDup (predicted ++ [x])
              /\ (length (predicted ++ [x]) + length rest <= 33)%nat
              /\ (length (predicted ++ [x]) + length rest
                  = length predicted + S (length rest))%nat).
    { intros x Hx. rewrite length_app. cbn [length]. split; [|lia].
      apply NoDup_app; [exact Hnd|repeat constructor; intros []|].
      intros y Hy [<-|[]]. contradiction. }
    destruct ((1 <=? number) && (number <=? 33)
              && negb (Py.mem number predicted)) eqn:Hok.
    + apply andb_true_iff in Hok. destruct Hok as [_ Hm].
      apply negb_true_iff, mem_false in Hm.
      destruct (Hstep number Hm) as (Hnd' & Hlen' & Heq).
      destruct (IH (predicted ++ [number]) s Hnd' Hlen') as (H1 & H2 & H3).
      split; [exact H1|split; [cbn [length]; lia|exact H3]].
    + destruct (pool_has_unused predicted ltac:(lia)) as (n & Hn & Hunused).
      assert (Hin : In (n, Py.dict_get combined_scores n 0%Q) combined_scores).
      { apply dict_get_In. rewrite Hkeys. apply range_In. lia. }
      destruct (select_high_probability_spec combined_scores predicted s _
                  Hin Hunused) as (num & score & E & Hnum & _).
      unfold Random.bind. rewrite E.
      destruct (Hstep num Hnum) as (Hnd' & Hlen' & Heq).
      destruct (IH (predicted ++ [num]) s Hnd' Hlen') as (H1 & H2 & H3).
      split; [exact H1|split; [cbn [length]; lia|exact H3]].
Qed.

Section ForestTrained.

Context {ext : Externals}.

(** X23.  When the classifier is trained and answers with six to 33
    slots, [_predict_red_balls] returns six distinct numbers of 1..33 in
    ascending order and consumes no entropy, even when the raw slot
    predictions repeat or leave the pool: every such slot is replaced by
    the best unused number. *)
Theorem forest_trained_prediction_needs_no_repair
    (red_balls_history : list (list Z)) (s : Random.rng)
    (slots : list (Z * list (Z * Q))) :
  (25 <= length (fst (RandomForest._prepare_training_data red_balls_history)))%nat ->
  pipeline_fit_predict
    (fst (RandomForest._prepare_training_data red_balls_history))
    (snd (RandomForest._prepare_training_data red_balls_history))
    (RandomForest._encode_window_features
       (Py.last_n RandomForest.lookback red_balls_history)) = Some slots ->
  (6 <= length slots <= 33)%nat ->
  let out := RandomForest._predict_red_balls red_balls_history s in
  length (fst (fst out)) = 6%nat
  /\ NoDup (fst (fst out))
  /\ StronglySorted Z.lt (fst (fst out))
  /\ Forall (fun n => 1 <= n <= 33) (fst (fst out))
  /\ snd out = s.
Proof.
  intros Hrows Hfit Hslots. cbv zeta.
  pose proof (predict_red_balls_spec red_balls_history s) as Hrange.
  cbv zeta in Hrange. destruct Hrange as [Hrange _].
  unfold RandomForest._predict_red_balls in *.
  destruct (RandomForest._prepare_training_data red_balls_history) as [X y].
  cbn [fst snd] in Hrows, Hfit.
  assert (Hlt : (length X <? 25)%nat = false) by (apply Nat.ltb_ge; lia).
  rewrite Hlt in *. cbv zeta in *. rewrite Hfit in *.
  unfold Random.bind, Random.ret in *.
  pose proof (aggregate_keys_eq (map snd slots)) as Hkeys.
  destruct (fill_predicted_distinct
              (RandomForest._aggregate_probabilities (map snd slots))
              (map fst slots) Hkeys [] s (NoDup_nil _))
    as (Hnd & Hlen & Hs).
  { cbn [length]. rewrite length_map. lia. }
  cbv zeta in Hnd, Hlen, Hs.
  destruct (RandomForest.fill_predicted _ (map fst slots) [] s)
    as [predicted s1].
  cbn [fst snd] in *. rewrite length_map in Hlen. cbn [length] in Hlen.
  assert (Hnd6 : NoDup (firstn 6 predicted)) by now apply firstn_NoDup.
  repeat split.
  - rewrite sorted_length, length_firstn. lia.
  - now apply sorted_NoDup.
  - now apply sorted_strict.
  - exact Hrange.
  - exact Hs.
Qed.

(** X24.  Without the modelling library, and with some six-number draw in
    the window, the forest generator returns the six most frequent numbers
    with confidence 55, flagged as a fallback with the reason
    [sklearn_unavailable]: a flagged result need not be a random one. *)
Theorem forest_without_library_is_frequency_selection
    (historical_data : list Draw.t) (dataset_size : Z) (s : Random.rng) :
  HAS_SKLEARN = false ->
  Utils.extract_red_balls
    (Py.take (Z.min dataset_size (Z.of_nat (length historical_data)))
             historical_data) <> [] ->
  let reds :=
    Utils.extract_red_balls
      (Py.take (Z.min dataset_size (Z.of_nat (length historical_data)))
               historical_data) in
  let r := fst (RandomForest.predict historical_data dataset_size s) in
  Base.red_balls r = RandomForest._frequency_based_selection reds
  /\ Base.confidence r = 55.0%Q
  /\ Spec.fallback_flag r = true
  /\ Spec.metadata_str r "reason" = Some "sklearn_unavailable"%string.
Proof.
  intros Hsk Hreds. cbv zeta. unfold RandomForest.predict.
  rewrite Hsk. cbn [negb]. unfold RandomForest._fallback_predict.
  destruct historical_data as [|d0 h] eqn:Eh.
  { exfalso. apply Hreds. unfold Py.take.
    destruct (0 <=? _); now rewrite firstn_nil. }
  rewrite <- Eh in *. cbv zeta.
  destruct (Utils.extract_red_balls _) as [|r0 reds] eqn:Ereds; [congruence|].
  unfold Random.bind, Random.ret.
  match goal with |- context [match ?b with [] => _ | _ :: _ => _ end s] =>
    destruct (match b with
              | [] => Random.randint 1 16
              | _ :: _ => RandomForest._predict_blue_ball b
              end s) as [blue s1] end.
  cbn [fst Base.red_balls Base.confidence]. repeat split.
Qed.

End ForestTrained.

Lemma forest_trained_prediction_needs_no_repair_witness :
  let out :=
    @RandomForest._predict_red_balls
      Fixtures.fitted_externals
      (Utils.extract_red_balls Fixtures.SAMPLE_DATA) [] in
  length (fst (fst out)) = 6%nat
  /\ NoDup (fst (fst out))
  /\ StronglySorted Z.lt (fst (fst out))
  /\ Forall (fun n => 1 <= n <= 33) (fst (fst out))
  /\ snd out = [].
Proof.
  apply (@forest_trained_prediction_needs_no_repair
           Fixtures.fitted_externals
           (Utils.extract_red_balls Fixtures.SAMPLE_DATA) []
           (map (fun cls => (cls, [(cls, 0.5%Q)])) [3; 3; 40; 4; 5; 6])).
  - vm_compute. lia.
  - reflexivity.
  - vm_compute. lia.
Defined.

Lemma forest_without_library_is_frequency_selection_witness :
  let reds :=
    Utils.extract_red_balls
      (Py.take (Z.min 2 (Z.of_nat (length Fixtures.history2)))
               Fixtures.history2) in
  let r := fst (@RandomForest.predict (Fixtures.plain_externals false)
                                      Fixtures.history2 2 []) in
  Base.red_balls r = RandomForest._frequency_based_selection reds
  /\ Base.confidence r = 55.0%Q
  /\ Spec.fallback_flag r = true
  /\ Spec.metadata_str r "reason" = Some "sklearn_unavailable"%string.
Proof.
  apply (@forest_without_library_is_frequency_selection
           (Fixtures.plain_externals false) Fixtures.history2 2 []).
  - reflexivity.
  - vm_compute. discriminate.
Defined.

(** ** The analysis window *)

Lemma take_empty {A} (n : Z) (l : list A) :
  n = 0 \/ n <= - Z.of_nat (length l) -> Py.take n l = [].
Proof.
  intros H. unfold Py.take. destruct (0 <=? n) eqn:E.
  - apply Z.leb_le in E. assert (n = 0) by lia. subst n. reflexivity.
  - apply Z.leb_gt in E.
    replace (length l - Z.to_nat (- n))%nat with O by lia. reflexivity.
Qed.

Lemma take_all {A} (n : Z) (l : list A) :
  Z.of_nat (length l) <= n -> Py.take n l = l.
Proof.
  intros H. unfold Py.take.
  assert (E : (0 <=? n) = true) by (apply Z.leb_le; lia).
  rewrite E. apply firstn_all2. lia.
Qed.

Section WindowFacts.

Context {ext : Externals}.

Lemma forest_fallback_predict_empty_window (historical_data : list Draw.t)
    (dataset_size : Z) :
  dataset_size = 0 \/ dataset_size <= - Z.of_nat (length historical_data) ->
  RandomForest._fallback_predict historical_data dataset_size
  = Base.generate_random_fallback RandomForest.self.
Proof.
  intros H. unfold RandomForest._fallback_predict.
  destruct historical_data as [|d0 h] eqn:Eh; [reflexivity|].
  rewrite <- Eh in *. cbv zeta.
  rewrite (take_empty (Z.min dataset_size (Z.of_nat (length historical_data)))
                      historical_data) by lia.
  reflexivity.
Qed.

(** X25.  An analysis window of size 0, or a negative size that removes
    every draw, sends every generator to the random fallback however long
    the history is. *)
Theorem empty_window_gives_random_fallback (g : generator)
    (historical_data : list Draw.t) (dataset_size : Z) (s : Random.rng) :
  dataset_size = 0 \/ dataset_size <= - Z.of_nat (length historical_data) ->
  Spec.is_fallback (fst (predict g historical_data dataset_size s)).
Proof.
  intros H.
  pose proof (take_empty dataset_size historical_data H) as Htake.
  assert (E : exists self,
             predict g historical_data dataset_size s
             = Base.generate_random_fallback self s).
  { destruct g; cbn [predict].
    - exists Frequency.self. unfold Frequency.predict.
      destruct historical_data as [|d0 h] eqn:Eh; [reflexivity|].
      rewrite <- Eh in *. cbv zeta. rewrite Htake. reflexivity.
    - exists Trend.self. unfold Trend.predict.
      destruct (length historical_data <? 30)%nat; [reflexivity|].
      cbv zeta. rewrite Htake. reflexivity.
    - exists RandomForest.self. unfold RandomForest.predict.
      destruct HAS_SKLEARN; cbn [negb];
        [|now rewrite forest_fallback_predict_empty_window].
      destruct (length historical_data <? RandomForest.lookback + 10)%nat;
        [reflexivity|].
      cbv zeta. rewrite Htake. cbn [Utils.extract_red_balls flat_map length].
      change (0 <? RandomForest.lookback + 10)%nat with true. cbv iota.
      now rewrite forest_fallback_predict_empty_window.
    - exists LSTM.self. unfold LSTM.predict.
      destruct (length historical_data <? 30)%nat; [reflexivity|].
      cbv zeta. rewrite Htake. reflexivity.
    - exists (Ensemble.base (Ensemble.__init__ weights)).
      unfold Ensemble.predict.
      destruct historical_data as [|d0 h] eqn:Eh; [reflexivity|].
      rewrite <- Eh in *. cbv zeta. rewrite Htake. reflexivity. }
  destruct E as (self & E). rewrite E. apply fallback_is_fallback.
Qed.

(** X26.  Asking for more draws than the history holds is asking for all
    of them: every generator computes the same result for any window size
    from the history length upwards. *)
Theorem oversized_window_is_whole_history (g : generator)
    (historical_data : list Draw.t) (dataset_size : Z) :
  Z.of_nat (length historical_data) <= dataset_size ->
  predict g historical_data dataset_size
  = predict g historical_data (Z.of_nat (length historical_data)).
Proof.
  intros H.
  pose proof (take_all dataset_size historical_data H) as H1.
  pose proof (take_all (Z.of_nat (length historical_data)) historical_data
                       (Z.le_refl _)) as H2.
  assert (Hmin1 : Z.min dataset_size (Z.of_nat (length historical_data))
                  = Z.of_nat (length historical_data)) by lia.
  assert (Hmin2 : Z.min (Z.of_nat (length historical_data))
                        (Z.of_nat (length historical_data))
                  = Z.of_nat (length historical_data)) by lia.
  assert (Ef : Frequency.predict historical_data dataset_size
               = Frequency.predict historical_data
                                   (Z.of_nat (length historical_data))).
  { unfold Frequency.predict. rewrite H1, H2. reflexivity. }
  assert (Et : Trend.predict historical_data dataset_size
               = Trend.predict historical_data
                               (Z.of_nat (length historical_data))).
  { unfold Trend.predict. rewrite H1, H2. reflexivity. }
  assert (Er : RandomForest.predict historical_data dataset_size
               = RandomForest.predict historical_data
                                      (Z.of_nat (length historical_data))).
  { unfold RandomForest.predict, RandomForest._fallback_predict.
    rewrite Hmin1, Hmin2, H1, H2. reflexivity. }
  assert (El : LSTM.predict historical_data dataset_size
               = LSTM.predict historical_data
                              (Z.of_nat (length historical_data))).
  { unfold LSTM.predict. rewrite H1, H2. reflexivity. }
  destruct g; cbn [predict]; try assumption.
  unfold Ensemble.predict, Ensemble._run_component_predictors.
  rewrite H1, H2, Ef, Et, Er, El. reflexivity.
Qed.

(** X27.  The ensemble needs 20 six-number draws in its window: with fewer
    it returns the random fallback, and with 20 or more its result is not
    flagged as a fallback and its confidence lies within 52..80. *)
Theorem ensemble_needs_twenty_draws (weights : option (list (string * Q)))
    (historical_data : list Draw.t) (dataset_size : Z) (s : Random.rng) :
  let r := fst (Ensemble.predict (Ensemble.__init__ weights)
                                 historical_data dataset_size s) in
  let usable :=
    length (Utils.extract_red_balls (Py.take dataset_size historical_data)) in
  ((usable < 20)%nat -> Spec.is_fallback r)
  /\ ((20 <= usable)%nat ->
      (52 <= Base.confidence r)%Q /\ (Base.confidence r <= 80)%Q
      /\ Spec.fallback_flag r = false).
Proof.
  cbv zeta.
  destruct (ensemble_predict_cases (Ensemble.__init__ weights)
                                   historical_data dataset_size s)
    as [[E Hshort]|(result & s' & E & _ & Hconf & Hflag & Hlong)].
  - rewrite E. split; [intros _; apply fallback_is_fallback|].
    intros Hlong. exfalso. destruct Hshort as [->|Hshort]; [|lia].
    unfold Py.take in Hlong. destruct (0 <=? dataset_size);
      rewrite firstn_nil in Hlong; cbn in Hlong; lia.
  - rewrite E. split; [intros Hshort; lia|]. intros _.
    rewrite validate_confidence, fallback_flag_validate.
    assert (Hmax : (52 <= Base.max_confidence
                            (Ensemble.base (Ensemble.__init__ weights)))%Q)
      by discriminate.
    specialize (Hconf Hmax). split; [|split].
    + apply Q.min_glb; [exact Hconf|exact Hmax].
    + eapply Qle_trans; [apply Q.le_min_r|discriminate].
    + exact Hflag.
Qed.

End WindowFacts.

Lemma empty_window_gives_random_fallback_witness :
  Spec.is_fallback
    (fst (@predict (Fixtures.plain_externals true) GTrend
                   Fixtures.SAMPLE_DATA 0 [])).
Proof.
  apply (@empty_window_gives_random_fallback
           (Fixtures.plain_externals true) GTrend Fixtures.SAMPLE_DATA 0 []).
  left. reflexivity.
Defined.

Lemma oversized_window_is_whole_history_witness :
  @predict (Fixtures.plain_externals true) GFrequency Fixtures.history2 5
  = @predict (Fixtures.plain_externals true) GFrequency Fixtures.history2
             (Z.of_nat (length Fixtures.history2)).
Proof.
  apply (@oversized_window_is_whole_history
           (Fixtures.plain_externals true) GFrequency Fixtures.history2 5).
  vm_compute. discriminate.
Defined.

(** ** ensemble.py: the selection when a band is short *)






(** ** lstm.py *)

Lemma add_length (u v : list Q) :
  length (Np.add u v) = Nat.min (length u) (length v).
Proof. unfold Np.add. now rewrite length_map, length_combine. Qed.

Lemma argsort_length (v : list Q) : length (Np.argsort v) = length v.
Proof.
  unfold Np.argsort.
  rewrite length_map, stable_sort_length, length_combine, length_seq. lia.
Qed.

Lemma sequence_matrix_rows (history : list (list Z)) (size : nat) :
  Forall (fun row => length row = size)
         (LSTM._build_sequence_matrix history size).
Proof.
  unfold LSTM._build_sequence_matrix. apply Forall_forall. intros row Hrow.
  apply in_map_iff in Hrow. destruct Hrow as (draw & <- & _).
  exact (one_hot_length size draw).
Qed.

Lemma exponential_memory_length (ncols : nat) (matrix : list (list Q))
    (alpha : Q) :
  Forall (fun row => length row = ncols) matrix ->
  length (LSTM._exponential_memory ncols matrix alpha) = ncols.
Proof.
  intros Hrows. unfold LSTM._exponential_memory. cbv zeta.
  assert (Hfold : forall ema, length ema = ncols ->
            length (fold_left
                      (fun ema row =>
                         Np.add (Np.scale (1 - alpha) ema) (Np.scale alpha row))
                      matrix ema) = ncols).
  { induction Hrows as [|row matrix Hrow _ IH]; intros ema Hema; [exact Hema|].
    cbn [fold_left]. apply IH. rewrite add_length, !scale_length. lia. }
  specialize (Hfold (Np.zeros ncols) (zeros_length ncols)).
  destruct (Py.Qltb 0 _); [rewrite div_length|]; exact Hfold.
Qed.

Lemma co_occurrence_length (history : list (list Z)) :
  length (LSTM._co_occurrence_scores history) = 33%nat.
Proof.
  unfold LSTM._co_occurrence_scores.
  destruct (Py.last_n _ history) as [|d0 window]; [apply zeros_length|].
  cbv zeta.
  match goal with
  | |- length (if _ then Np.div (map Py.sum ?m) _ else map Py.sum ?m) = _ =>
      assert (Hm : length m = 33%nat)
  end.
  { assert (Hinit : length (repeat (Np.zeros 33) 33) = 33%nat)
      by apply repeat_length.
    revert Hinit. generalize (repeat (Np.zeros 33) 33).
    generalize (d0 :: window). clear d0 window.
    intros window. induction window as [|draw window IH]; intros m Hm;
      [exact Hm|].
    cbn [fold_left]. apply IH. clear IH.
    revert m Hm. generalize (LSTM.combinations2 (Py.sorted (Py.set draw))).
    intros pairs. induction pairs as [|[a b] pairs IH]; intros m Hm;
      [exact Hm|].
    cbn [fold_left]. apply IH.
    destruct ((1 <=? a) && (a <=? 33) && (1 <=? b) && (b <=? 33));
      [|exact Hm].
    now rewrite !update_at_length. }
  destruct (Py.Qltb 0 _); [rewrite div_length|]; now rewrite length_map.
Qed.

Section LSTMMore.

Context {ext : Externals}.

Local Open Scope Q_scope.

Lemma lstm_confidence_lower (score_profile : list Q) (predicted : list Z) :
  Spec.nonneg_vector score_profile ->
  LSTM.selected_entries score_profile predicted <> [] ->
  52 <= LSTM._calculate_confidence score_profile predicted.
Proof.
  intros Hp Hsel. unfold LSTM._calculate_confidence.
  destruct score_profile as [|p0 profile].
  { exfalso. apply Hsel. unfold LSTM.selected_entries.
    assert (E : filter (fun num => (1 <=? num)%Z
                                   && (num <=? Z.of_nat (@length Q []))%Z)
                       predicted = []).
    { clear Hsel. induction predicted as [|n rest IH]; [reflexivity|].
      cbn [filter length Z.of_nat].
      destruct ((1 <=? n)%Z && (n <=? 0)%Z) eqn:E; [|exact IH].
      apply andb_true_iff in E. rewrite !Z.leb_le in E. lia. }
    now rewrite E. }
  destruct predicted as [|n0 rest]; [exfalso; now apply Hsel|].
  cbv zeta.
  assert (Hnn : Spec.nonneg_vector
                  (LSTM.selected_entries (p0 :: profile) (n0 :: rest))).
  { unfold LSTM.selected_entries, Spec.nonneg_vector.
    apply Forall_forall. intros x Hx. apply in_map_iff in Hx.
    destruct Hx as (num & <- & _). now apply nth_nonneg. }
  destruct (LSTM.selected_entries (p0 :: profile) (n0 :: rest))
    as [|e0 entries]; [congruence|].
  apply Q.min_glb; [|discriminate].
  pose proof (mean_nonneg _ Hnn) as Havg.
  pose proof (Q.le_max_l 0.0 (1.0 - Np.std (p0 :: profile))) as Hstab.
  assert (H0 : 0 <= Qmax 0.0 (1.0 - Np.std (p0 :: profile))) by lra.
  set (avg := Utils.np_mean (e0 :: entries)) in *. clearbody avg.
  set (stab := Qmax 0.0 (1.0 - Np.std (p0 :: profile))) in *. clearbody stab.
  assert (Ha : 0 <= avg * 25.0) by (apply Qmult_le_0_compat; [exact Havg|discriminate]).
  assert (Hb : 0 <= stab * 8.0) by (apply Qmult_le_0_compat; [exact H0|discriminate]).
  lra.
Qed.

(** On a non-empty history the primary numbers come from the ranking, and
    the score profile has one entry per pool number. *)
Lemma predict_red_sequence_real (red_balls_history : list (list Z))
    (s : Random.rng) :
  red_balls_history <> [] ->
  snd (LSTM._predict_red_sequence red_balls_history s) = s
  /\ length (snd (fst (LSTM._predict_red_sequence red_balls_history s)))
     = 33%nat
  /\ fst (fst (LSTM._predict_red_sequence red_balls_history s)) <> [].
Proof.
  intros Hne. unfold LSTM._predict_red_sequence. cbv zeta.
  pose proof (sequence_matrix_rows red_balls_history 33) as Hrows.
  destruct (LSTM._build_sequence_matrix red_balls_history 33)
    as [|row0 rows] eqn:Ematrix.
  { exfalso. apply Hne. unfold LSTM._build_sequence_matrix in Ematrix.
    now apply map_eq_nil in Ematrix. }
  unfold Random.ret. cbn [fst snd].
  destruct (recent_weighted_profile_spec 33 (row0 :: rows)) as [Hrecent _].
  pose proof (exponential_memory_length 33 (row0 :: rows) 0.18 Hrows) as Hema.
  pose proof (co_occurrence_length red_balls_history) as Hco.
  set (recent := LSTM._recent_weighted_profile 33 (row0 :: rows)) in *.
  set (ema := LSTM._exponential_memory 33 (row0 :: rows) 0.18) in *.
  set (co := LSTM._co_occurrence_scores red_balls_history) in *.
  clearbody recent ema co.
  set (combined := Np.add (Np.add (Np.scale 0.4 recent) (Np.scale 0.3 ema))
                          (Np.scale 0.3 co)).
  assert (Hc : length combined = 33%nat).
  { unfold combined. rewrite !add_length, !scale_length, Hrecent, Hema, Hco.
    reflexivity. }
  clearbody combined.
  set (normalized := if Py.Qltb 0 (Py.max_list combined)
                     then Np.div combined (Py.max_list combined)
                     else combined).
  assert (Hn : length normalized = 33%nat).
  { unfold normalized. destruct (Py.Qltb 0 _); [rewrite div_length|]; exact Hc. }
  clearbody normalized.
  split; [reflexivity|]. split; [exact Hn|].
  intros E. apply (f_equal (@length Z)) in E.
  rewrite sorted_length, length_map, length_firstn, argsort_length, length_map,
    Hn in E.
  cbn in E. discriminate.
Qed.

(** X29.  Off its fallback path (at least 30 draws, and at least 30
    six-number draws in the window) and with a sine that is not negative
    on the quarter period, the sequence-memory generator's confidence lies
    within 52..68 and its result carries no fallback flag. *)
Theorem lstm_confidence_between_52_and_68 (historical_data : list Draw.t)
    (dataset_size : Z) (s : Random.rng) :
  Spec.sine_nonneg ext ->
  (30 <= length historical_data)%nat ->
  (30 <= length (Utils.extract_red_balls
                   (Py.take dataset_size historical_data)))%nat ->
  let r := fst (LSTM.predict historical_data dataset_size s) in
  52 <= Base.confidence r /\ Base.confidence r <= 68
  /\ Spec.fallback_flag r = false.
Proof.
  intros Hsin Hh Hreds. cbv zeta. unfold LSTM.predict.
  assert (Hne : Utils.extract_red_balls (Py.take dataset_size historical_data)
                <> []).
  { intros E. rewrite E in Hreds. cbn [length] in Hreds. lia. }
  apply Nat.ltb_ge in Hh, Hreds. rewrite Hh. cbv zeta. rewrite Hreds.
  unfold Random.bind.
  pose proof (predict_red_sequence_spec
                (Utils.extract_red_balls (Py.take dataset_size historical_data)) s)
    as Hspec.
  pose proof (predict_red_sequence_real
                (Utils.extract_red_balls (Py.take dataset_size historical_data))
                s Hne) as Hreal.
  destruct (LSTM._predict_red_sequence _ s) as [[reds profile] s1].
  cbv zeta in Hspec. cbn [fst snd] in Hspec, Hreal.
  destruct Hspec as [Hrange Hprofile]. destruct Hreal as (_ & Hlen & Hnonempty).
  destruct (LSTM._predict_blue_sequence _ s1) as [blue s2].
  rewrite validate_confidence, fallback_flag_validate.
  cbn [Base.confidence].
  assert (Hsel : LSTM.selected_entries profile reds <> []).
  { destruct reds as [|n rest]; [congruence|].
    inversion Hrange as [|? ? Hn _]; subst.
    unfold LSTM.selected_entries. cbn [filter]. rewrite Hlen.
    assert (Hc : (1 <=? n)%Z && (n <=? Z.of_nat 33)%Z = true).
    { apply andb_true_iff. rewrite !Z.leb_le. lia. }
    rewrite Hc. discriminate. }
  pose proof (lstm_confidence_lower profile reds (Hprofile Hsin) Hsel) as Hlow.
  split; [|split].
  - apply Q.min_glb; [exact Hlow|discriminate].
  - eapply Qle_trans; [apply Q.le_min_r|discriminate].
  - reflexivity.
Qed.

End LSTMMore.

Lemma lstm_confidence_between_52_and_68_witness :
  let r := fst (@LSTM.predict (Fixtures.plain_externals true)
                              Fixtures.SAMPLE_DATA 50 []) in
  (52 <= Base.confidence r /\ Base.confidence r <= 68
   /\ Spec.fallback_flag r = false)%Q.
Proof.
  apply (@lstm_confidence_between_52_and_68 (Fixtures.plain_externals true)
           Fixtures.SAMPLE_DATA 50 []).
  - intros t H0 H1. exact H0.
  - vm_compute. lia.
  - vm_compute. lia.
Defined.
